(** * simple_bot.py: SVG to TGS Telegram bot, shallow embedding

    The development follows the classes of [simple_bot.py]:
    [SimpleConfig], [SVGValidator], [SVGToTGSConverter] and
    [SimpleSVGToTGSBot].  Python values are modelled as follows.

    - [int] is [Z]; [len(...)] is a [nat], injected into [Z] where it is
      compared with a configured limit; the counters of the loops are
      [nat].
    - [bytes] is [list byte].
    - [str] is [string]: a Python string is represented by its UTF-8
      encoding, so that the ASCII literals of the source are the same
      literals here.  [in], [startswith], [endswith], [replace] and
      [join] are defined below; [lower], [decode], [int(...)], [Path.stem],
      the formatting of floats and [xml.etree.ElementTree.fromstring]
      belong to the Python runtime and are fields of the environment
      [Env].
    - A [set] of user ids is a [gset Z]; the two dictionaries keyed by
      user id are [gmap Z _].
    - A handler is a function on the state of the world, in a monad of
      state and exceptions whose combinators are [try]/[except] and
      [try]/[finally].  The application handles one update at a time
      ([Application.builder()] leaves concurrent updates off), so a
      handler runs to its end before the next one starts; the task of a
      batch is one more kind of event, run from the end of its delay to
      its end, and uploads arriving while it runs are not modelled.
    - The Telegram servers are an oracle that tells which call raises;
      the calls made are logged in order.  The operating system and the
      external converter are an oracle as well.  Logging is only modelled
      for the converter. *)

From stdpp Require Import gmap strings list fin_maps pretty.
From Stdlib Require Import Strings.Byte Strings.Ascii.

Local Open Scope string_scope.
Local Open Scope list_scope.
Local Open Scope Z_scope.

(** ** Python strings *)

Module Py.

Definition bytes := list byte.

(** The line feed of the source's ["\n"]. *)
Definition nl : string := String (Ascii.ascii_of_nat 10) EmptyString.

(** [s.startswith(p)] *)
Definition startswith (s p : string) : bool := String.prefix p s.

(** [s.endswith(suffix)]: some tail of [s] is [suffix]. *)
Fixpoint endswith (s suffix : string) : bool :=
  String.eqb s suffix ||
  match s with
  | EmptyString => false
  | String _ s' => endswith s' suffix
  end.

(** [needle in hay] *)
Fixpoint str_in (needle hay : string) : bool :=
  String.prefix needle hay ||
  match hay with
  | EmptyString => false
  | String _ hay' => str_in needle hay'
  end.

(** [sep.join(l)] *)
Fixpoint join (sep : string) (l : list string) : string :=
  match l with
  | [] => ""
  | [x] => x
  | x :: l' => x +:+ sep +:+ join sep l'
  end.

(** [s.replace(old, new)] for a non-empty [old]: occurrences are
    replaced from left to right and do not overlap.  [skip] counts the
    characters of an occurrence that were already replaced. *)
Fixpoint replace_from (old new : string) (skip : nat) (s : string) : string :=
  match s with
  | EmptyString => EmptyString
  | String c s' =>
      match skip with
      | S k => replace_from old new k s'
      | O =>
          if String.prefix old s
          then new +:+ replace_from old new (Nat.pred (String.length old)) s'
          else String c (replace_from old new O s')
      end
  end.

Definition replace (s old new : string) : string := replace_from old new O s.

(** [str(b)] of an ASCII byte string ([bytes.decode] on ASCII input). *)
Definition ascii_decode (b : bytes) : string := String.string_of_list_byte b.

(** [str.lower] on ASCII letters; other characters are kept. *)
Definition ascii_lower_char (c : Ascii.ascii) : Ascii.ascii :=
  let n := Ascii.nat_of_ascii c in
  if (Nat.leb 65 n && Nat.leb n 90)%bool then Ascii.ascii_of_nat (n + 32) else c.

Fixpoint ascii_lower (s : string) : string :=
  match s with
  | EmptyString => EmptyString
  | String c s' => String (ascii_lower_char c) (ascii_lower s')
  end.

(** The local part of an ElementTree tag, [{uri}local] or [local]:
    what follows the last closing brace. *)
Fixpoint local_name (tag : string) : string :=
  match tag with
  | EmptyString => EmptyString
  | String c tag' =>
      if str_in "}" tag' then local_name tag'
      else if Ascii.eqb c "}"%char then tag' else tag
  end.

End Py.

(** ** The environment of the program

    What the program obtains from outside itself: the Python runtime and
    standard library, the Telegram servers, the operating system and the
    external converter. *)

(** [xml.etree.ElementTree.fromstring(data)]: the tag of the root element,
    or the exception it raises. *)
Inductive ET_result :=
| ET_root (tag : string)
| ET_ParseError (msg : string)
| ET_Exception (msg : string).

(** The operating system as one call of the converter sees it. *)
Record ConvEnv := {
  mkdtemp : option string;
    (** [tempfile.mkdtemp()], [None] when it raises *)
  write_ok : bool;
    (** writing the input file succeeds *)
  path_exists : string → bool;
    (** [os.path.exists] on the candidate locations of the tool *)
  subprocess : list string → option (Z * Py.bytes);
    (** [asyncio.create_subprocess_exec] on the command line followed by
        [process.communicate()]: the return code and the standard error,
        [None] when one of the two calls raises *)
  tgs_file : option Py.bytes;
    (** the file at the output path once the process was waited for,
        [None] when there is none *)
  read_ok : bool
    (** reading the output file back succeeds *)
}.

Record Env := {
  str_lower : string → string;
    (** [s.lower()] *)
  decode_utf8_ignore : Py.bytes → string;
    (** [b.decode('utf-8', errors='ignore')] *)
  ET_fromstring : Py.bytes → ET_result;
  py_int : string → option Z;
    (** [int(s)], [None] when it raises [ValueError] *)
  path_stem : string → string;
    (** [Path(s).stem] *)
  fmt_mb_1f : Z → string;
    (** [f"{n / (1024 * 1024):.1f}"] *)
  fmt_mb : Z → string;
    (** [f"{n / (1024 * 1024)}"] *)
  transport_error : nat → option string;
    (** [transport_error k = Some msg]: the [k]-th call of the Telegram
        API made by the process raises [TelegramError(msg)] *)
  os_env : Py.bytes → string → ConvEnv
    (** the operating system during the conversion of a file *)
}.

(** ** class SVGValidator *)

Module Validator.

Record SVGValidator := {
  max_file_size : Z;
  required_width : Z;
  required_height : Z
}.

(** [SVGValidator.__init__] *)
Definition init (max_file_size : Z) (required_size : Z * Z) : SVGValidator :=
  {| max_file_size := max_file_size;
     required_width := required_size.1;
     required_height := required_size.2 |}.

Section WithEnv.
Context (E : Env).

Definition validate_file_size (self : SVGValidator) (file_data : Py.bytes)
  : bool * string :=
  if Z.of_nat (length file_data) >? max_file_size self
  then (false,
        "❌ File too large (" +:+ fmt_mb_1f E (Z.of_nat (length file_data))
        +:+ "MB). Maximum allowed: " +:+ fmt_mb E (max_file_size self) +:+ "MB")
  else (true, "File size OK").

Definition validate_svg_format (self : SVGValidator) (file_data : Py.bytes)
  : bool * string :=
  let content := decode_utf8_ignore E file_data in
  if negb (Py.str_in "<svg" (str_lower E content)
           || Py.str_in "<?xml" (str_lower E content))
  then (false, "❌ Invalid SVG format")
  else
    match ET_fromstring E file_data with
    | ET_root tag =>
        if Py.endswith (str_lower E tag) "svg"
        then (true, "Valid SVG format")
        else (false, "❌ Not a valid SVG file")
    | ET_ParseError msg => (false, "❌ SVG parsing error: " +:+ msg)
    | ET_Exception msg => (false, "❌ File validation error: " +:+ msg)
    end.

Definition validate_file (self : SVGValidator) (file_data : Py.bytes)
    (filename : string) : bool * string :=
  if negb (Py.endswith (str_lower E filename) ".svg")
  then (false, "❌ Only SVG files are accepted")
  else
    let '(size_valid, size_msg) := validate_file_size self file_data in
    if negb size_valid then (false, size_msg)
    else
      let '(format_valid, format_msg) := validate_svg_format self file_data in
      if negb format_valid then (false, format_msg)
      else (true, "✅ Valid SVG file").

End WithEnv.

End Validator.


(** ** class SVGToTGSConverter *)

Module Converter.

Record SVGToTGSConverter := {
  output_width : Z;
  output_height : Z;
  fps : Z
}.

(** [SVGToTGSConverter.__init__] *)
Definition init (output_width output_height fps : Z) : SVGToTGSConverter :=
  {| output_width := output_width; output_height := output_height; fps := fps |}.


(** The records the converter hands to [logger], one constructor for each
    call in the source. *)
Inductive log_record :=
| log_running_command (cmd : list string)
| log_return_code (returncode : Z) (stderr : Py.bytes)
| log_no_tgs_generated
| log_exceeds_64KB (file_size : nat)
| log_converted (tgs_path : string) (file_size : nat)
| log_lottie_failed
| log_success (filename : string) (size : nat)
| log_conversion_failed (filename : string)
| log_error_converting (filename : string).


(** [os.path.join(d, name)] for a relative [name] and a directory without
    a trailing separator, which is how the converter calls it. *)
Definition path_join (d name : string) : string := d +:+ "/" +:+ name.

Definition possible_paths : list string :=
  [ "/home/runner/workspace/.pythonlibs/bin/lottie_convert.py";
    "/opt/render/project/src/.pythonlibs/bin/lottie_convert.py";
    "/usr/local/bin/lottie_convert.py";
    "lottie_convert.py" ].

Definition conversion_flags : list string :=
  [ "--sanitize"; "--optimize"; "0"; "--fps"; "30";
    "--width"; "512"; "--height"; "512" ].

(** The two paths inside the temporary directory. *)
Definition svg_path (temp_dir filename : string) : string :=
  path_join temp_dir ("input_" +:+ filename).

Definition tgs_path (temp_dir filename : string) : string :=
  path_join temp_dir ("output_" +:+ Py.replace filename ".svg" ".tgs").

Definition command_line (C : ConvEnv) (svg_path tgs_path : string) : list string :=
  match List.find (path_exists C) possible_paths with
  | None => ["python"; "-m"; "lottie"; svg_path; tgs_path] ++ conversion_flags
  | Some lottie_convert_path =>
      ["python"; lottie_convert_path; svg_path; tgs_path] ++ conversion_flags
  end.

(** The whole body stands in [try ... except Exception: return False]. *)
Definition _run_lottie_convert (self : SVGToTGSConverter) (C : ConvEnv)
    (svg_path tgs_path : string) : bool * list log_record :=
  let cmd := command_line C svg_path tgs_path in
  match subprocess C cmd with
  | None => (false, [log_running_command cmd; log_lottie_failed])
  | Some (returncode, stderr) =>
      if negb (returncode =? 0)
      then (false, [log_running_command cmd; log_return_code returncode stderr])
      else
        match tgs_file C with
        | None => (false, [log_running_command cmd; log_no_tgs_generated])
        | Some out =>
            if Nat.eqb (length out) 0
            then (false, [log_running_command cmd; log_no_tgs_generated])
            else
              let file_size := length out in
              (true,
               [log_running_command cmd]
               ++ (if Z.of_nat file_size >? 64 * 1024
                   then [log_exceeds_64KB file_size] else [])
               ++ [log_converted tgs_path file_size])
        end
  end.

(** The result is [Optional[bytes]]; the [finally] clause removes the
    temporary directory and has no part in the result. *)
Definition convert_svg_to_tgs (self : SVGToTGSConverter) (C : ConvEnv)
    (svg_data : Py.bytes) (filename : string) : option Py.bytes * list log_record :=
  match mkdtemp C with
  | None => (None, [log_error_converting filename])
  | Some temp_dir =>
      let svg_path := svg_path temp_dir filename in
      let tgs_path := tgs_path temp_dir filename in
      if negb (write_ok C) then (None, [log_error_converting filename])
      else
        let '(success, logs) := _run_lottie_convert self C svg_path tgs_path in
        match success, tgs_file C with
        | true, Some tgs_data =>
            if read_ok C
            then (Some tgs_data, logs ++ [log_success filename (length tgs_data)])
            else (None, logs ++ [log_error_converting filename])
        | _, _ => (None, logs ++ [log_conversion_failed filename])
        end
  end.

(** [get_tgs_filename] *)
Definition get_tgs_filename (E : Env) (self : SVGToTGSConverter)
    (svg_filename : string) : string :=
  path_stem E svg_filename +:+ ".tgs".

End Converter.

(** ** class SimpleConfig *)

Module Config.

Record SimpleConfig := {
  owner_id : Z;
  max_file_size : Z;
  required_svg_size : Z * Z;
  max_batch_size : Z;
  processing_delay : Z;
  batch_timeout : Z;
  output_width : Z;
  output_height : Z;
  output_fps : Z;
  max_broadcast_length : Z;
  admin_users : gset Z;
  banned_users : gset Z;
  all_users : gset Z
}.

(** [SimpleConfig.__init__]; [owner] is [int(os.getenv("OWNER_ID", ...))].
    The owner is added to the admins under [if self.owner_id:]. *)
Definition init (owner : Z) : SimpleConfig :=
  {| owner_id := owner;
     max_file_size := 5 * 1024 * 1024;
     required_svg_size := (512, 512);
     max_batch_size := 15;
     processing_delay := 3;
     batch_timeout := 300;
     output_width := 512;
     output_height := 512;
     output_fps := 60;
     max_broadcast_length := 4096;
     admin_users := if decide (owner = 0) then ∅ else {[owner]} ∪ ∅;
     banned_users := ∅;
     all_users := ∅ |}.

Definition set_admin_users (s : gset Z) (c : SimpleConfig) : SimpleConfig :=
  {| owner_id := owner_id c; max_file_size := max_file_size c;
     required_svg_size := required_svg_size c; max_batch_size := max_batch_size c;
     processing_delay := processing_delay c; batch_timeout := batch_timeout c;
     output_width := output_width c; output_height := output_height c;
     output_fps := output_fps c; max_broadcast_length := max_broadcast_length c;
     admin_users := s; banned_users := banned_users c; all_users := all_users c |}.

Definition set_banned_users (s : gset Z) (c : SimpleConfig) : SimpleConfig :=
  {| owner_id := owner_id c; max_file_size := max_file_size c;
     required_svg_size := required_svg_size c; max_batch_size := max_batch_size c;
     processing_delay := processing_delay c; batch_timeout := batch_timeout c;
     output_width := output_width c; output_height := output_height c;
     output_fps := output_fps c; max_broadcast_length := max_broadcast_length c;
     admin_users := admin_users c; banned_users := s; all_users := all_users c |}.

Definition set_all_users (s : gset Z) (c : SimpleConfig) : SimpleConfig :=
  {| owner_id := owner_id c; max_file_size := max_file_size c;
     required_svg_size := required_svg_size c; max_batch_size := max_batch_size c;
     processing_delay := processing_delay c; batch_timeout := batch_timeout c;
     output_width := output_width c; output_height := output_height c;
     output_fps := output_fps c; max_broadcast_length := max_broadcast_length c;
     admin_users := admin_users c; banned_users := banned_users c; all_users := s |}.

Definition set_max_batch_size (n : Z) (c : SimpleConfig) : SimpleConfig :=
  {| owner_id := owner_id c; max_file_size := max_file_size c;
     required_svg_size := required_svg_size c; max_batch_size := n;
     processing_delay := processing_delay c; batch_timeout := batch_timeout c;
     output_width := output_width c; output_height := output_height c;
     output_fps := output_fps c; max_broadcast_length := max_broadcast_length c;
     admin_users := admin_users c; banned_users := banned_users c;
     all_users := all_users c |}.

End Config.

(** ** The Telegram transport and the state of the world *)

(** An entry of [user_batches[user_id]]: the dictionary with the keys
    ['data'] and ['filename']. *)
Record file_info := {
  data : Py.bytes;
  filename : string
}.

(** The coroutine object made by
    [process_batch_after_delay(user_id, chat_id, context, message_id)]. *)
Record Task := {
  task_user_id : Z;
  task_chat_id : Z;
  task_status_message_id : Z
}.

Record SimpleSVGToTGSBot := {
  config : Config.SimpleConfig;
  validator : Validator.SVGValidator;
  converter : Converter.SVGToTGSConverter;
  user_batches : gmap Z (list file_info);
  processing_tasks : gmap Z Task
}.

(** The calls of the Telegram API the program makes. *)
Inductive call :=
| reply_text (chat_id : Z) (text : string) (parse_mode : option string)
| send_message (chat_id : Z) (text : string)
| edit_message_text (chat_id message_id : Z) (text : string)
| send_document (chat_id : Z) (document : Py.bytes) (filename caption : string)
| get_file (file_id : string)
| download_as_bytearray (file_id : string).


(** The process and what it did: the bot object, the calls of the
    transport in the order they were made, each with [true] when it
    returned and [false] when it raised, and the tasks handed to
    [asyncio.create_task] that have not run yet. *)
Record World := {
  bot : SimpleSVGToTGSBot;
  calls : list (call * bool);
  event_loop : list Task
}.

Inductive exn :=
| TelegramError (msg : string)
| ValueError (msg : string)
| AttributeError (msg : string).

(** [str(e)] *)
Definition exn_str (e : exn) : string :=
  match e with TelegramError m | ValueError m | AttributeError m => m end.

Inductive result (A : Type) :=
| Ok (a : A)
| Raise (e : exn).
Arguments Ok {A} a.
Arguments Raise {A} e.

(** ** The monad of handlers: state and exceptions *)

Definition M (A : Type) : Type := World → result A * World.

#[global] Instance M_ret : MRet M := λ A a w, (Ok a, w).

#[global] Instance M_bind : MBind M := λ A B f m w,
  match m w with
  | (Ok a, w') => f a w'
  | (Raise e, w') => (Raise e, w')
  end.

Definition raise {A} (e : exn) : M A := λ w, (Raise e, w).

(** [try: body except Exception as e: handler e] *)
Definition try_except {A} (body : M A) (handler : exn → M A) : M A := λ w,
  match body w with
  | (Ok a, w') => (Ok a, w')
  | (Raise e, w') => handler e w'
  end.

(** [try: body finally: cleanup] *)
Definition try_finally {A} (body : M A) (cleanup : M unit) : M A := λ w,
  let '(r, w1) := body w in
  match cleanup w1 with
  | (Ok _, w2) => (r, w2)
  | (Raise e, w2) => (Raise e, w2)
  end.

(** Reading an attribute of [self]. *)
Definition gets {A} (f : SimpleSVGToTGSBot → A) : M A := λ w, (Ok (f (bot w)), w).

Definition modify_bot (f : SimpleSVGToTGSBot → SimpleSVGToTGSBot) : M unit := λ w,
  (Ok (), {| bot := f (bot w); calls := calls w; event_loop := event_loop w |}).

(** [asyncio.create_task(t)] *)
Definition create_task (t : Task) : M Task := λ w,
  (Ok t, {| bot := bot w; calls := calls w; event_loop := event_loop w ++ [t] |}).

Definition set_config (c : Config.SimpleConfig) (b : SimpleSVGToTGSBot)
  : SimpleSVGToTGSBot :=
  {| config := c; validator := validator b; converter := converter b;
     user_batches := user_batches b; processing_tasks := processing_tasks b |}.

Definition set_user_batches (m : gmap Z (list file_info)) (b : SimpleSVGToTGSBot)
  : SimpleSVGToTGSBot :=
  {| config := config b; validator := validator b; converter := converter b;
     user_batches := m; processing_tasks := processing_tasks b |}.

Definition set_processing_tasks (m : gmap Z Task) (b : SimpleSVGToTGSBot)
  : SimpleSVGToTGSBot :=
  {| config := config b; validator := validator b; converter := converter b;
     user_batches := user_batches b; processing_tasks := m |}.

(** [SimpleSVGToTGSBot.__init__] *)
Definition bot_init (owner : Z) : SimpleSVGToTGSBot :=
  let c := Config.init owner in
  {| config := c;
     validator := Validator.init (Config.max_file_size c) (Config.required_svg_size c);
     converter := Converter.init (Config.output_width c) (Config.output_height c)
                    (Config.output_fps c);
     user_batches := ∅;
     processing_tasks := ∅ |}.

Definition world_init (owner : Z) : World :=
  {| bot := bot_init owner; calls := []; event_loop := [] |}.

(** ** Updates received from Telegram *)

(** [update.message.document]; [content] is what downloading the file
    returns. *)
Record Document := {
  file_name : option string;
  file_size : Z;
  file_id : string;
  content : Py.bytes
}.

(** What the handlers read of [update] and [context]. *)
Record Update := {
  effective_user : Z;
  effective_chat : Z;
  args : list string;
  document : option Document;
  photo : bool;
  text : option string
}.

(** ** class SimpleSVGToTGSBot *)

Module Bot.

Section WithEnv.
Context (E : Env).

(** One call of the Telegram API.  A call that returns a message returns
    its [message_id], here the position of the call in the log. *)
Definition transport (c : call) : M Z := λ w,
  let k := length (calls w) in
  match transport_error E k with
  | Some msg =>
      (Raise (TelegramError msg),
       {| bot := bot w; calls := calls w ++ [(c, false)]; event_loop := event_loop w |})
  | None =>
      (Ok (Z.of_nat k),
       {| bot := bot w; calls := calls w ++ [(c, true)]; event_loop := event_loop w |})
  end.

(** [await update.message.reply_text(text)] *)
Definition reply (u : Update) (text : string) : M unit :=
  transport (reply_text (effective_chat u) text None);; mret ().

Definition reply_markdown (u : Update) (text : string) : M unit :=
  transport (reply_text (effective_chat u) text (Some "Markdown"));; mret ().

(** [self.config.all_users.add(user_id)] *)
Definition all_users_add (user_id : Z) : M unit :=
  modify_bot (λ b,
    set_config (Config.set_all_users ({[user_id]} ∪ Config.all_users (config b))
                  (config b)) b).

Definition welcome_text : string :=
  "🎨 **SVG to TGS Converter Bot**" +:+ Py.nl +:+ Py.nl +:+
  "Welcome! I can convert your SVG files to TGS format for Telegram stickers."
  +:+ Py.nl +:+ Py.nl +:+
  "📝 **How to use:**" +:+ Py.nl +:+
  "• Send me SVG files (one or multiple)" +:+ Py.nl +:+
  "• Files will be automatically resized to 512×512 pixels" +:+ Py.nl +:+
  "• I'll convert them to TGS format and send them back" +:+ Py.nl +:+ Py.nl +:+
  "📋 **Requirements:**" +:+ Py.nl +:+
  "• SVG format only" +:+ Py.nl +:+
  "• Maximum file size: 5MB" +:+ Py.nl +:+
  "• Batch processing: up to 15 files at once" +:+ Py.nl +:+ Py.nl +:+
  "🚀 **Ready to convert your SVG files!**".

Definition start_command (u : Update) : M unit :=
  all_users_add (effective_user u);;
  reply_markdown u welcome_text.

Definition banned_notice : string := "❌ You have been banned from using this bot.".

Definition wait_text : string := "⏳ Please wait, processing for 3 seconds...".

(** The closing [if len(self.user_batches[user_id]) > 1:] block of the
    source only reads the task and executes [pass]; it has no effect. *)
Definition add_to_batch (user_id : Z) (file_data : Py.bytes) (filename : string)
    (chat_id : Z) : M unit :=
  batches ← gets user_batches;
  match batches !! user_id with
  | None =>
      modify_bot (λ b, set_user_batches (<[user_id := []]> (user_batches b)) b);;
      message_id ← transport (send_message chat_id wait_text);
      task ← create_task {| task_user_id := user_id; task_chat_id := chat_id;
                            task_status_message_id := message_id |};
      modify_bot (λ b, set_processing_tasks (<[user_id := task]> (processing_tasks b)) b)
  | Some _ => mret ()
  end;;
  modify_bot (λ b,
    set_user_batches
      (alter (λ l, l ++ [{| data := file_data; filename := filename |}])
         user_id (user_batches b)) b).

Definition handle_svg_document (u : Update) : M unit :=
  let user_id := effective_user u in
  banned_users ← gets (λ b, Config.banned_users (config b));
  if decide (user_id ∈ banned_users) then reply u banned_notice
  else
    all_users_add user_id;;
    match document u with
    | None => reply u "❌ No document received."
    | Some document =>
        name ← match file_name document with
               | Some n => mret n
               | None => raise (AttributeError "'NoneType' object has no attribute 'lower'")
               end;
        if negb (Py.endswith (str_lower E name) ".svg")
        then reply u ("❌ Only SVG files are accepted." +:+ Py.nl +:+
                      "Please send a valid SVG file.")
        else
          max_file_size ← gets (λ b, Config.max_file_size (config b));
          if file_size document >? max_file_size
          then reply u ("❌ File too large (" +:+ fmt_mb_1f E (file_size document)
                        +:+ "MB)." +:+ Py.nl +:+ "Maximum allowed: "
                        +:+ fmt_mb E max_file_size +:+ "MB")
          else
            try_except
              (transport (get_file (file_id document));;
               transport (download_as_bytearray (file_id document));;
               add_to_batch user_id (content document) name (effective_chat u))
              (λ e, match e with
                    | TelegramError _ =>
                        reply u "❌ Failed to download file. Please try again."
                    | _ =>
                        reply u "❌ An error occurred while processing your file. Please try again."
                    end)
    end.

(** The text the status message is given after the loop. *)
Definition final_status_text (successful_conversions failed_conversions : nat)
  : string :=
  if Nat.ltb 0 successful_conversions then
    let status_text := "Done ✅" in
    if Nat.ltb 0 failed_conversions
    then status_text +:+ Py.nl +:+ "✅ " +:+ pretty successful_conversions
         +:+ " converted | ❌ " +:+ pretty failed_conversions +:+ " failed"
    else status_text
  else "❌ No files could be converted".

(** The body of [try] inside the loop, for one file.  The counters are
    incremented after the call of the transport, so an exception leaves
    them as they were.  The closing [asyncio.sleep(0.5)] changes
    nothing. *)
Definition process_file (chat_id : Z) (fi : file_info) (counts : nat * nat)
  : M (nat * nat) :=
  let '(successful_conversions, failed_conversions) := counts in
  validator ← gets validator;
  let '(is_valid, validation_msg) :=
    Validator.validate_file E validator (data fi) (filename fi) in
  if negb is_valid then
    transport (send_message chat_id
                 ("❌ " +:+ filename fi +:+ Py.nl +:+ validation_msg));;
    mret (successful_conversions, S failed_conversions)
  else
    converter ← gets converter;
    match (Converter.convert_svg_to_tgs converter
             (os_env E (data fi) (filename fi)) (data fi) (filename fi)).1 with
    | Some ((_ :: _) as tgs_data) =>
        let tgs_filename := Converter.get_tgs_filename E converter (filename fi) in
        transport (send_document chat_id tgs_data tgs_filename
                     ("✅ " +:+ filename fi +:+ " → " +:+ tgs_filename));;
        mret (S successful_conversions, failed_conversions)
    | _ =>
        transport (send_message chat_id
                     ("❌ " +:+ filename fi +:+ Py.nl +:+ "Conversion failed"));;
        mret (successful_conversions, S failed_conversions)
    end.

(** [for file_info in batch: try: ... except Exception as e: ...] *)
Fixpoint process_files (chat_id : Z) (batch : list file_info) (counts : nat * nat)
  : M (nat * nat) :=
  match batch with
  | [] => mret counts
  | fi :: rest =>
      counts' ← try_except (process_file chat_id fi counts)
                  (λ e,
                     transport (send_message chat_id
                                  ("❌ " +:+ filename fi +:+ Py.nl
                                   +:+ "Processing error: " +:+ exn_str e));;
                     mret (counts.1, S counts.2));
      process_files chat_id rest counts'
  end.

(** [del self.user_batches[user_id]] and [del self.processing_tasks[user_id]],
    each guarded by a membership test. *)
Definition cleanup (user_id : Z) : M unit :=
  modify_bot (λ b, set_user_batches (delete user_id (user_batches b)) b);;
  modify_bot (λ b, set_processing_tasks (delete user_id (processing_tasks b)) b).

(** The [try: ... except Exception: ...] statement of
    [process_batch_after_delay], from the end of
    [asyncio.sleep(processing_delay)] on.  The loop goes over the list
    object kept in [user_batches]; no upload is handled during the run,
    so this is the list read at its start. *)
Definition process_batch (user_id chat_id status_message_id : Z) : M unit :=
  try_except
    (batch ← gets (λ b, default [] (user_batches b !! user_id));
     match batch with
     | [] => mret ()
     | _ :: _ =>
         transport (edit_message_text chat_id status_message_id
                      ("🔄 Converting " +:+ pretty (length batch) +:+ " files..."));;
         counts ← process_files chat_id batch (O, O);
         transport (edit_message_text chat_id status_message_id
                      (final_status_text counts.1 counts.2));;
         mret ()
     end)
    (λ e,
       try_except
         (transport (edit_message_text chat_id status_message_id
                       "❌ Batch processing failed");;
          mret ())
         (λ _, mret ())).

(** The coroutine: the statement above with its [finally] clause. *)
Definition process_batch_after_delay (user_id chat_id status_message_id : Z)
  : M unit :=
  try_finally (process_batch user_id chat_id status_message_id) (cleanup user_id).

(** *** Admin commands *)

Definition no_permission : string := "❌ You don't have permission to use this command.".

Definition owner_only : string := "❌ Only the bot owner can use this command.".

Definition invalid_user_id : string :=
  "❌ Invalid user ID. Please provide a numeric user ID.".

(** [int(context.args[0])] once [context.args] is known to be non-empty. *)
Definition int_arg (u : Update) : M Z :=
  match py_int E (default "" (head (args u))) with
  | Some n => mret n
  | None => raise (ValueError "invalid literal for int() with base 10")
  end.

(** [except ValueError: ... except Exception as e: ...] of the commands
    that read a user id. *)
Definition id_errors (u : Update) (other : string) (e : exn) : M unit :=
  match e with
  | ValueError _ => reply u invalid_user_id
  | _ => reply u other
  end.

(** The loop of [broadcast_command]: [sent_count] is incremented after the
    call returned, [failed_count] in the [except] clause; the
    [asyncio.sleep(0.1)] between two sends changes nothing. *)
Fixpoint broadcast_loop (message_text : string) (user_ids : list Z)
    (counts : nat * nat) : M (nat * nat) :=
  match user_ids with
  | [] => mret counts
  | user_id :: rest =>
      counts' ← try_except
                  (transport (send_message user_id message_text);;
                   mret (S counts.1, counts.2))
                  (λ _, mret (counts.1, S counts.2));
      broadcast_loop message_text rest counts'
  end.

Definition broadcast_summary (sent_count failed_count total : nat) : string :=
  "📢 Broadcast completed!" +:+ Py.nl +:+
  "✅ Sent: " +:+ pretty sent_count +:+ Py.nl +:+
  "❌ Failed: " +:+ pretty failed_count +:+ Py.nl +:+
  "📊 Total users: " +:+ pretty total.

Definition broadcast_command (u : Update) : M unit :=
  admin_users ← gets (λ b, Config.admin_users (config b));
  if decide (effective_user u ∈ admin_users) then
    match args u with
    | [] => reply u ("📢 Usage: /broadcast <message>" +:+ Py.nl +:+ Py.nl +:+
                     "This command will send a message to all bot users.")
    | _ :: _ =>
        let message_text := Py.join " " (args u) in
        user_ids ← gets (λ b,
          elements (Config.all_users (config b) ∖ Config.banned_users (config b)));
        match user_ids with
        | [] => reply u "❌ No users found to broadcast to."
        | _ :: _ =>
            message_id ← transport
              (reply_text (effective_chat u)
                 ("📢 Starting broadcast to " +:+ pretty (length user_ids)
                  +:+ " users...") None);
            counts ← broadcast_loop message_text user_ids (O, O);
            transport (edit_message_text (effective_chat u) message_id
                         (broadcast_summary counts.1 counts.2 (length user_ids)));;
            mret ()
        end
    end
  else reply u no_permission.

Definition ban_command (u : Update) : M unit :=
  let user_id := effective_user u in
  admin_users ← gets (λ b, Config.admin_users (config b));
  if decide (user_id ∈ admin_users) then
    match args u with
    | [] => reply u "Usage: /ban <user_id>"
    | _ :: _ =>
        try_except
          (target_user_id ← int_arg u;
           owner_id ← gets (λ b, Config.owner_id (config b));
           if decide (target_user_id = owner_id)
           then reply u "❌ Cannot ban the bot owner."
           else if decide (target_user_id = user_id)
           then reply u "❌ You cannot ban yourself."
           else
             modify_bot (λ b,
               set_config
                 (Config.set_banned_users
                    ({[target_user_id]} ∪ Config.banned_users (config b))
                    (config b)) b);;
             reply u ("✅ User " +:+ pretty target_user_id +:+ " has been banned."))
          (id_errors u "❌ An error occurred while banning the user.")
    end
  else reply u no_permission.

Definition unban_command (u : Update) : M unit :=
  admin_users ← gets (λ b, Config.admin_users (config b));
  if decide (effective_user u ∈ admin_users) then
    match args u with
    | [] => reply u "Usage: /unban <user_id>"
    | _ :: _ =>
        try_except
          (target_user_id ← int_arg u;
           modify_bot (λ b,
             set_config
               (Config.set_banned_users
                  (Config.banned_users (config b) ∖ {[target_user_id]})
                  (config b)) b);;
           reply u ("✅ User " +:+ pretty target_user_id +:+ " has been unbanned."))
          (id_errors u "❌ An error occurred while unbanning the user.")
    end
  else reply u no_permission.

(** The three numbers of [stats_command]: [total_users], [banned_users]
    and [active_users = total_users - banned_users]. *)
Definition stats (b : SimpleSVGToTGSBot) : Z * Z * Z :=
  let total_users := Z.of_nat (size (Config.all_users (config b))) in
  let banned_users := Z.of_nat (size (Config.banned_users (config b))) in
  let active_users := total_users - banned_users in
  (total_users, banned_users, active_users).

Definition stats_text (b : SimpleSVGToTGSBot) : string :=
  let '(total_users, banned_users, active_users) := stats b in
  "📊 **Bot Statistics**" +:+ Py.nl +:+ Py.nl +:+
  "👥 Total Users: " +:+ pretty total_users +:+ Py.nl +:+
  "🚫 Banned Users: " +:+ pretty banned_users +:+ Py.nl +:+
  "✅ Active Users: " +:+ pretty active_users +:+ Py.nl +:+
  "🤖 Bot Status: Running".

Definition stats_command (u : Update) : M unit :=
  admin_users ← gets (λ b, Config.admin_users (config b));
  if decide (effective_user u ∈ admin_users)
  then text ← gets stats_text; reply_markdown u text
  else reply u no_permission.

Definition make_admin_command (u : Update) : M unit :=
  owner_id ← gets (λ b, Config.owner_id (config b));
  if decide (effective_user u = owner_id) then
    match args u with
    | [] => reply u "Usage: /makeadmin <user_id>"
    | _ :: _ =>
        try_except
          (target_user_id ← int_arg u;
           modify_bot (λ b,
             set_config
               (Config.set_admin_users
                  ({[target_user_id]} ∪ Config.admin_users (config b))
                  (config b)) b);;
           reply u ("✅ User " +:+ pretty target_user_id +:+ " is now an admin."))
          (id_errors u "❌ An error occurred while making the user an admin.")
    end
  else reply u owner_only.

Definition remove_admin_command (u : Update) : M unit :=
  owner_id ← gets (λ b, Config.owner_id (config b));
  if decide (effective_user u = owner_id) then
    match args u with
    | [] => reply u "Usage: /removeadmin <user_id>"
    | _ :: _ =>
        try_except
          (target_user_id ← int_arg u;
           if decide (target_user_id = owner_id)
           then reply u "❌ Cannot remove admin privileges from the owner."
           else
             modify_bot (λ b,
               set_config
                 (Config.set_admin_users
                    (Config.admin_users (config b) ∖ {[target_user_id]})
                    (config b)) b);;
             reply u ("✅ Admin privileges removed from user "
                      +:+ pretty target_user_id +:+ "."))
          (id_errors u "❌ An error occurred while removing admin privileges.")
    end
  else reply u owner_only.

Definition admin_help_text (is_owner : bool) : string :=
  "🛠 **Admin Commands**" +:+ Py.nl +:+ Py.nl +:+
  "📢 `/broadcast <message>` - Send message to all users" +:+ Py.nl +:+
  "🚫 `/ban <user_id>` - Ban a user" +:+ Py.nl +:+
  "✅ `/unban <user_id>` - Unban a user" +:+ Py.nl +:+
  "📊 `/stats` - View bot statistics" +:+ Py.nl +:+
  "❓ `/adminhelp` - Show this help" +:+ Py.nl +:+
  (if is_owner
   then Py.nl +:+ "🔧 **Owner Commands**" +:+ Py.nl +:+
        "👑 `/makeadmin <user_id>` - Grant admin privileges" +:+ Py.nl +:+
        "👤 `/removeadmin <user_id>` - Remove admin privileges" +:+ Py.nl
   else "") +:+
  Py.nl +:+ "💡 **Tips:**" +:+ Py.nl +:+
  "• Use `/stats` to monitor bot usage and user activity" +:+ Py.nl +:+
  "• Banned users cannot use the bot until unbanned".

Definition admin_help_command (u : Update) : M unit :=
  admin_users ← gets (λ b, Config.admin_users (config b));
  if decide (effective_user u ∈ admin_users)
  then
    owner_id ← gets (λ b, Config.owner_id (config b));
    let is_owner := bool_decide (effective_user u = owner_id) in
    reply_markdown u (admin_help_text is_owner)
  else reply u no_permission.

(** *** Messages that are neither commands nor SVG documents *)

Definition only_svg_supported : string :=
  "❌ Only SVG files are supported." +:+ Py.nl +:+ Py.nl +:+
  "Please send a valid SVG file for conversion to TGS format." +:+ Py.nl +:+
  "You can create SVG files using tools like:" +:+ Py.nl +:+
  "• Inkscape (free)" +:+ Py.nl +:+
  "• Adobe Illustrator" +:+ Py.nl +:+
  "• Figma" +:+ Py.nl +:+
  "• Canva".

Definition photo_text : string :=
  "📷 I can only convert SVG files, not images." +:+ Py.nl +:+ Py.nl +:+
  "To convert your image to SVG:" +:+ Py.nl +:+
  "1. Use an online converter like convertio.co" +:+ Py.nl +:+
  "2. Or recreate it as an SVG in a vector graphics editor" +:+ Py.nl +:+
  "3. Then send me the SVG file!".

Definition hi_text : string :=
  "👋 Hi! Send me SVG files and I'll convert them to TGS format." +:+ Py.nl +:+ Py.nl +:+
  "📝 Supported: SVG files only" +:+ Py.nl +:+
  "🎯 Output: TGS stickers for Telegram" +:+ Py.nl +:+
  "⚡ Batch processing: Send multiple files at once!" +:+ Py.nl +:+ Py.nl +:+
  "Type /start for more information.".

Definition not_sure_text : string :=
  "🤔 I'm not sure what to do with that." +:+ Py.nl +:+ Py.nl +:+
  "Send me SVG files for conversion to TGS format." +:+ Py.nl +:+
  "Type /start for help.".

(** [x or "unknown"] for an optional string. *)
Definition or_unknown (x : option string) : string :=
  match x with
  | Some (String _ _ as s) => s
  | _ => "unknown"
  end.

Definition handle_general_message (u : Update) : M unit :=
  let user_id := effective_user u in
  banned_users ← gets (λ b, Config.banned_users (config b));
  if decide (user_id ∈ banned_users) then mret ()
  else
    all_users_add user_id;;
    match document u with
    | Some document =>
        let file_name := or_unknown (file_name document) in
        if negb (Py.endswith (str_lower E file_name) ".svg")
        then reply u only_svg_supported
        else mret ()
    | None =>
        if photo u then reply u photo_text
        else
          match text u with
          | Some (String _ _ as t) =>
              if negb (Py.startswith t "/") then reply u hi_text
              else reply u not_sure_text
          | _ => reply u not_sure_text
          end
    end.

(** [error_handler]: the updates of the model all carry a message. *)
Definition error_handler (u : Update) : M unit :=
  try_except
    (reply u "❌ An unexpected error occurred. Please try again later.")
    (λ _, mret ()).

(** *** The application *)

Inductive command :=
| start | broadcast | ban | unban | stats_cmd | makeadmin | removeadmin | adminhelp.

(** What the process reacts to: an update routed to one of the handlers
    registered by [setup_handlers], or the end of the delay of the task
    at some position of the event loop. *)
Inductive event :=
| Command (c : command) (u : Update)
| SvgDocument (u : Update)
| GeneralMessage (u : Update)
| TimerFires (i : nat).

Definition command_handler (c : command) : Update → M unit :=
  match c with
  | start => start_command
  | broadcast => broadcast_command
  | ban => ban_command
  | unban => unban_command
  | stats_cmd => stats_command
  | makeadmin => make_admin_command
  | removeadmin => remove_admin_command
  | adminhelp => admin_help_command
  end.

(** The application passes what a handler raises to [error_handler]. *)
Definition handle_update (handler : Update → M unit) (u : Update) : M unit :=
  try_except (handler u) (λ _, error_handler u).

(** The event loop takes the task at position [i] and runs it. *)
Definition run_task (i : nat) : M unit := λ w,
  match event_loop w !! i with
  | None => (Ok (), w)
  | Some t =>
      process_batch_after_delay
        (task_user_id t) (task_chat_id t) (task_status_message_id t)
        {| bot := bot w; calls := calls w; event_loop := delete i (event_loop w) |}
  end.

Definition step (ev : event) : M unit :=
  match ev with
  | Command c u => handle_update (command_handler c) u
  | SvgDocument u => handle_update handle_svg_document u
  | GeneralMessage u => handle_update handle_general_message u
  | TimerFires i => run_task i
  end.

(** The world after an event, and after a sequence of events. *)
Definition exec (ev : event) (w : World) : World := (step ev w).2.

Definition run (evs : list event) (w : World) : World :=
  foldl (λ w ev, exec ev w) w evs.

End WithEnv.

End Bot.

(** The calls of [add_to_batch] for the uploads of one user, in the order
    of arrival; each upload is a file and the chat it was sent in. *)
Fixpoint add_uploads (E : Env) (user_id : Z) (uploads : list (file_info * Z))
  : M unit :=
  match uploads with
  | [] => mret ()
  | (fi, chat_id) :: rest =>
      Bot.add_to_batch E user_id (data fi) (filename fi) chat_id;;
      add_uploads E user_id rest
  end.

(** ** A concrete environment

    Used to run the definitions on concrete inputs: a Python runtime
    restricted to ASCII, a transport that never fails and a converter
    that succeeds. *)

Module Sample.

Fixpoint parse_digits (s : string) (acc : Z) : option Z :=
  match s with
  | EmptyString => Some acc
  | String c s' =>
      let n := Z.of_nat (Ascii.nat_of_ascii c) in
      if (48 <=? n) && (n <=? 57) then parse_digits s' (10 * acc + (n - 48)) else None
  end.

(** [int(s)] on an optional sign followed by ASCII digits; every other
    string is refused (Python accepts some of them). *)
Definition py_int_ascii (s : string) : option Z :=
  match s with
  | EmptyString => None
  | String c (String _ _ as d) =>
      if Ascii.eqb c "-"%char then Z.opp <$> parse_digits d 0
      else if Ascii.eqb c "+"%char then parse_digits d 0
      else parse_digits s 0
  | _ => parse_digits s 0
  end.

(** [Path(s).stem] for a name without directory part: what precedes the
    last dot, the whole name when it has no dot after its first
    character. *)
Fixpoint stem_tail (s : string) : option string :=
  match s with
  | EmptyString => None
  | String c s' =>
      match stem_tail s' with
      | Some t => Some (String c t)
      | None => if Ascii.eqb c "."%char then Some EmptyString else None
      end
  end.

Definition stem_simple (s : string) : string :=
  match s with
  | EmptyString => EmptyString
  | String c s' => String c (default s' (stem_tail s'))
  end.

Definition svg_tag : string := "{http://www.w3.org/2000/svg}svg".

(** Two well-formed documents with the root element [svg] of the SVG
    namespace: one declares the namespace as default, the other binds it
    to the prefix [s]. *)
Definition doc_plain : Py.bytes :=
  String.list_byte_of_string "<svg xmlns='http://www.w3.org/2000/svg'/>".

Definition doc_prefixed : Py.bytes :=
  String.list_byte_of_string "<s:svg xmlns:s='http://www.w3.org/2000/svg'/>".

(** [ET.fromstring] tabulated on the two documents; no other input is
    used below. *)
Definition fromstring (d : Py.bytes) : ET_result :=
  if String.eqb (String.string_of_list_byte d) (String.string_of_list_byte doc_plain)
  then ET_root svg_tag
  else if String.eqb (String.string_of_list_byte d)
            (String.string_of_list_byte doc_prefixed)
  then ET_root svg_tag
  else ET_ParseError "syntax error: line 1, column 0".

(** A conversion that succeeds with a two-byte output. *)
Definition conv_ok : ConvEnv :=
  {| mkdtemp := Some "/tmp/tmpsvg2tgs";
     write_ok := true;
     path_exists := λ _, false;
     subprocess := λ _, Some (0, []);
     tgs_file := Some ["031"%byte; "139"%byte];
     read_ok := true |}.

(** Whole numbers of MiB as Python prints the float. *)
Definition fmt_whole_mb (n : Z) : string := pretty (n / (1024 * 1024)) +:+ ".0".

Definition env : Env :=
  {| str_lower := Py.ascii_lower;
     decode_utf8_ignore := Py.ascii_decode;
     ET_fromstring := fromstring;
     py_int := py_int_ascii;
     path_stem := stem_simple;
     fmt_mb_1f := fmt_whole_mb;
     fmt_mb := fmt_whole_mb;
     transport_error := λ _, None;
     os_env := λ _ _, conv_ok |}.

(** The validator of a bot with the default configuration. *)
Definition default_validator : Validator.SVGValidator :=
  validator (bot_init 1096693642).





(** A file, and a world in which user [5] has a pending batch of fifteen
    files. *)
Definition logo : file_info := {| data := doc_plain; filename := "logo.svg" |}.

Definition world_15 : World :=
  {| bot := set_user_batches {[ 5 := replicate 15 logo ]} (bot_init 1);
     calls := [];
     event_loop := [] |}.

(** User [5] uploads a file. *)
Definition upload_by_5 : Update :=
  {| effective_user := 5; effective_chat := 5; args := [];
     document := Some {| file_name := Some "logo.svg"; file_size := 41;
                         file_id := "file-5"; content := doc_plain |};
     photo := false; text := None |}.

(** The world once user [5] has uploaded two files: the batch is pending
    and its task is first in the event loop. *)
Definition two_uploads : list Bot.event :=
  [Bot.SvgDocument upload_by_5; Bot.SvgDocument upload_by_5].

Definition world_pending : World := Bot.run env two_uploads (world_init 1).

(** A command sent in the private chat of its sender. *)
Definition command_update (user_id : Z) (line : string) (arguments : list string)
  : Update :=
  {| effective_user := user_id; effective_chat := user_id; args := arguments;
     document := None; photo := false; text := Some line |}.

(** The owner [1] sends [/ban 2]. *)
Definition ban_2_by_owner : Update := command_update 1 "/ban 2" ["2"].

(** The owner makes [2] an admin; [2] tries to ban the owner; the owner
    tries to give up the admin rights; [2] bans and unbans [3]. *)
Definition moderation_events : list Bot.event :=
  [ Bot.Command Bot.makeadmin (command_update 1 "/makeadmin 2" ["2"]);
    Bot.Command Bot.ban (command_update 2 "/ban 1" ["1"]);
    Bot.Command Bot.removeadmin (command_update 1 "/removeadmin 1" ["1"]);
    Bot.Command Bot.ban (command_update 2 "/ban 3" ["3"]);
    Bot.Command Bot.unban (command_update 2 "/unban 3" ["3"]) ].

(** User [2], who is not an admin, sends [/makeadmin 2]. *)
Definition makeadmin_2_by_2 : Update := command_update 2 "/makeadmin 2" ["2"].

(** The owner sends [/makeadmin 2]. *)
Definition makeadmin_2_by_owner : Update := command_update 1 "/makeadmin 2" ["2"].

(** A bot whose validator accepts at most 16 bytes. *)
Definition world_limit_16 : World :=
  {| bot := {| config := config (bot_init 1);
               validator := Validator.init 16 (512, 512);
               converter := converter (bot_init 1);
               user_batches := ∅;
               processing_tasks := ∅ |};
     calls := [];
     event_loop := [] |}.

(** A world in which the users [5], [6] and [7] are known and [7] is
    banned, and the owner's [/broadcast hello all]. *)
Definition world_known_567 : World :=
  {| bot := set_config
              (Config.set_all_users ({[ 5 ]} ∪ {[ 6 ]} ∪ {[ 7 ]})
                 (Config.set_banned_users {[ 7 ]} (config (bot_init 1))))
              (bot_init 1);
     calls := [];
     event_loop := [] |}.

Definition broadcast_hello : Update :=
  command_update 1 "/broadcast hello all" ["hello"; "all"].




(** The environment with a transport that refuses every call. *)
Definition env_offline : Env :=
  {| str_lower := Py.ascii_lower;
     decode_utf8_ignore := Py.ascii_decode;
     ET_fromstring := fromstring;
     py_int := py_int_ascii;
     path_stem := stem_simple;
     fmt_mb_1f := fmt_whole_mb;
     fmt_mb := fmt_whole_mb;
     transport_error := λ _, Some "Timed out";
     os_env := λ _ _, conv_ok |}.

(** User [5] uploads a PNG image as a document. *)
Definition upload_png_by_5 : Update :=
  {| effective_user := 5; effective_chat := 5; args := [];
     document := Some {| file_name := Some "logo.png"; file_size := 41;
                         file_id := "file-6"; content := doc_plain |};
     photo := false; text := None |}.

(** The task of the batch of [world_pending]. *)
Definition task_of_5 : Task :=
  {| task_user_id := 5; task_chat_id := 5; task_status_message_id := 2 |}.

(** Commands of the owner [1] and of user [2]. *)
Definition unban_3_by_owner : Update := command_update 1 "/unban 3" ["3"].

Definition ban_3_by_owner : Update := command_update 1 "/ban 3" ["3"].

Definition removeadmin_2_by_owner : Update :=
  command_update 1 "/removeadmin 2" ["2"].

Definition ban_3_by_2 : Update := command_update 2 "/ban 3" ["3"].

Definition ban_abc_by_owner : Update := command_update 1 "/ban abc" ["abc"].

(** User [5] writes [hello]. *)
Definition hello_by_5 : Update := command_update 5 "hello" [].

(** The environment with a transport that refuses its third call and no
    other. *)
Definition env_refuses_third : Env :=
  {| str_lower := Py.ascii_lower;
     decode_utf8_ignore := Py.ascii_decode;
     ET_fromstring := fromstring;
     py_int := py_int_ascii;
     path_stem := stem_simple;
     fmt_mb_1f := fmt_whole_mb;
     fmt_mb := fmt_whole_mb;
     transport_error := λ k, if (k =? 2)%nat then Some "Timed out" else None;
     os_env := λ _ _, conv_ok |}.

(** User [5] uploads a file under a given name, and the uploads of three
    files one after the other. *)
Definition svg_by_5 (name : string) : Update :=
  {| effective_user := 5; effective_chat := 5; args := [];
     document := Some {| file_name := Some name; file_size := 41;
                         file_id := "id-" +:+ name; content := doc_plain |};
     photo := false; text := None |}.

Definition three_uploads : list Bot.event :=
  [Bot.SvgDocument (svg_by_5 "a.svg"); Bot.SvgDocument (svg_by_5 "b.svg");
   Bot.SvgDocument (svg_by_5 "c.svg")].




End Sample.

(** ** Specifications of handlers *)

(** [m] keeps [P]: if [P] holds of the world before [m], it holds of the
    world after it, however [m] ends. *)
Definition preserves (P : World → Prop) {A} (m : M A) : Prop :=
  ∀ w, P w → P (m w).2.

(** The world with another value of [config.max_batch_size]. *)
Definition with_max_batch_size (n : Z) (w : World) : World :=
  {| bot := set_config (Config.set_max_batch_size n (config (bot w))) (bot w);
     calls := calls w;
     event_loop := event_loop w |}.

(** [m] does not consult [config.max_batch_size]: with another value it
    ends the same way in the same world. *)
Definition oblivious {A} (m : M A) : Prop :=
  ∀ n w, m (with_max_batch_size n w)
         = ((m w).1, with_max_batch_size n (m w).2).

(** The calls of a broadcast to [user_ids], given which of them returned,
    and the numbers of those that returned and of those that raised. *)
Definition broadcast_calls (message_text : string) (user_ids : list Z)
    (outcomes : list bool) : list (call * bool) :=
  zip_with (λ user_id ok, (send_message user_id message_text, ok)) user_ids outcomes.

Definition count_sent (outcomes : list bool) : nat :=
  length (List.filter id outcomes).

Definition count_failed (outcomes : list bool) : nat :=
  length (List.filter negb outcomes).

(** The role a command asks of its sender, and the reply to a sender
    without it. *)
Definition authorized (c : Bot.command) (actor : Z) (cfg : Config.SimpleConfig)
  : Prop :=
  match c with
  | Bot.start => True
  | Bot.makeadmin | Bot.removeadmin => actor = Config.owner_id cfg
  | _ => actor ∈ Config.admin_users cfg
  end.

Definition denial (c : Bot.command) : string :=
  match c with
  | Bot.makeadmin | Bot.removeadmin => Bot.owner_only
  | _ => Bot.no_permission
  end.

(** The message of [validate_file_size] for a file above the limit. *)
Definition too_large_msg (E : Env) (v : Validator.SVGValidator) (size : nat)
  : string :=
  "❌ File too large (" +:+ fmt_mb_1f E (Z.of_nat size)
  +:+ "MB). Maximum allowed: " +:+ fmt_mb E (Validator.max_file_size v) +:+ "MB".

(** The owner is an admin and is not banned. *)
Definition owner_protected (owner : Z) (w : World) : Prop :=
  Config.owner_id (config (bot w)) = owner
  ∧ owner ∈ Config.admin_users (config (bot w))
  ∧ owner ∉ Config.banned_users (config (bot w)).

(** The part of the state the moderation commands write, with the owner. *)
Definition moderation (w : World) : Z * gset Z * gset Z :=
  (Config.owner_id (config (bot w)),
   Config.admin_users (config (bot w)),
   Config.banned_users (config (bot w))).

(** A predicate on worlds that only looks at the moderation state, at the
    pending batches and at the event loop. *)
Definition stable (P : World → Prop) : Prop :=
  ∀ w w',
    moderation w' = moderation w →
    user_batches (bot w') = user_batches (bot w) →
    event_loop w' = event_loop w →
    P w → P w'.

(** The number of tasks of a user among the tasks [l]. *)
Definition count_tasks (user_id : Z) (l : list Task) : nat :=
  length (filter (λ t, task_user_id t = user_id) l).

(** Every user has at most one task waiting in the event loop, and none
    without an entry in [user_batches]. *)
Definition one_task_per_batch (w : World) : Prop :=
  ∀ user_id,
    (count_tasks user_id (event_loop w) ≤ 1)%nat
    ∧ (user_batches (bot w) !! user_id = None →
       count_tasks user_id (event_loop w) = 0%nat).

(** The world after [self.config.all_users.add(user_id)]. *)
Definition register (user_id : Z) (w : World) : World :=
  {| bot := set_config
              (Config.set_all_users ({[user_id]} ∪ Config.all_users (config (bot w)))
                 (config (bot w))) (bot w);
     calls := calls w;
     event_loop := event_loop w |}.

(** The user an event can add to the known users: the sender of
    [/start], of an SVG document or of a message that is no command. *)
Definition registers (ev : Bot.event) : option Z :=
  match ev with
  | Bot.Command Bot.start u | Bot.SvgDocument u | Bot.GeneralMessage u =>
      Some (effective_user u)
  | _ => None
  end.

(** The commands that write the moderation state. *)
Definition is_moderation (c : Bot.command) : bool :=
  match c with
  | Bot.ban | Bot.unban | Bot.makeadmin | Bot.removeadmin => true
  | _ => false
  end.

(** The events that can change the admins: [/makeadmin] and
    [/removeadmin] sent by the owner; the events that can change the
    banned users: [/ban] and [/unban] sent by an admin. *)
Definition writes_admins (ev : Bot.event) (c : Config.SimpleConfig) : Prop :=
  match ev with
  | Bot.Command Bot.makeadmin u | Bot.Command Bot.removeadmin u =>
      effective_user u = Config.owner_id c
  | _ => False
  end.

Definition writes_banned (ev : Bot.event) (c : Config.SimpleConfig) : Prop :=
  match ev with
  | Bot.Command Bot.ban u | Bot.Command Bot.unban u =>
      effective_user u ∈ Config.admin_users c
  | _ => False
  end.

(** A predicate on the configuration, as a predicate on worlds. *)
Definition on_config (Q : Config.SimpleConfig → Prop) (w : World) : Prop :=
  Q (config (bot w)).

(** A user has a batch and no task that will process it. *)
Definition stuck (user_id : Z) (w : World) : Prop :=
  is_Some (user_batches (bot w) !! user_id)
  ∧ count_tasks user_id (event_loop w) = 0%nat.

(** What [self.converter.convert_svg_to_tgs] returns for a file of a
    batch. *)
Definition converted (E : Env) (b : SimpleSVGToTGSBot) (fi : file_info)
  : option Py.bytes :=
  (Converter.convert_svg_to_tgs (converter b) (os_env E (data fi) (filename fi))
     (data fi) (filename fi)).1.

(** Whether a file of a batch is converted: the validator accepts it and
    the converter returns an output. *)
Definition converts (E : Env) (b : SimpleSVGToTGSBot) (fi : file_info) : bool :=
  (Validator.validate_file E (validator b) (data fi) (filename fi)).1
  && bool_decide (is_Some (converted E b fi)).

(** A call answers a file of a batch: it sends the output of the
    conversion as a document named after the file, or a message that
    starts with the name of the file. *)
Definition answers (E : Env) (b : SimpleSVGToTGSBot) (chat_id : Z)
    (fi : file_info) (c : call) : Prop :=
  match c with
  | send_document chat tgs_data tgs_filename caption =>
      chat = chat_id
      ∧ converts E b fi = true
      ∧ converted E b fi = Some tgs_data
      ∧ tgs_filename = path_stem E (filename fi) +:+ ".tgs"
  | send_message chat text =>
      chat = chat_id
      ∧ converts E b fi = false
      ∧ ∃ reason, text = "❌ " +:+ filename fi +:+ Py.nl +:+ reason
  | _ => False
  end.

(** The events that can change the batches, the tasks and the event
    loop: SVG documents and timers. *)
Definition writes_batches (ev : Bot.event) : bool :=
  match ev with
  | Bot.SvgDocument _ | Bot.TimerFires _ => true
  | _ => false
  end.

(** The bot with other banned users, and with other admins. *)
Definition with_banned (s : gset Z) (b : SimpleSVGToTGSBot) : SimpleSVGToTGSBot :=
  set_config (Config.set_banned_users s (config b)) b.

Definition with_admins (s : gset Z) (b : SimpleSVGToTGSBot) : SimpleSVGToTGSBot :=
  set_config (Config.set_admin_users s (config b)) b.

(** Whether [handle_general_message] leaves an update to the handler of
    SVG documents: it carries a document whose name ends in [.svg]. *)
Definition left_to_svg_handler (E : Env) (u : Update) : bool :=
  match document u with
  | Some d => Py.endswith (str_lower E (Bot.or_unknown (file_name d))) ".svg"
  | None => false
  end.

(** The world with another bot. *)
Definition lift_bot (f : SimpleSVGToTGSBot → SimpleSVGToTGSBot) (w : World) : World :=
  {| bot := f (bot w); calls := calls w; event_loop := event_loop w |}.

(** [m] is not affected by the change [f] of the bot: after the change it
    ends the same way, in the world changed the same way. *)
Definition unaffected (f : SimpleSVGToTGSBot → SimpleSVGToTGSBot) {A} (m : M A)
  : Prop :=
  ∀ w, m (lift_bot f w) = ((m w).1, lift_bot f (m w).2).

(** The bot with other values of the settings that the handlers do not
    read: [required_svg_size], [batch_timeout], [max_broadcast_length]
    and the three output settings of the configuration, taken from [c'];
    the required dimensions of the validator, taken from [v']; the
    converter, replaced by [k']. *)
Definition with_settings (c' : Config.SimpleConfig) (v' : Validator.SVGValidator)
    (k' : Converter.SVGToTGSConverter) (b : SimpleSVGToTGSBot)
  : SimpleSVGToTGSBot :=
  {| config :=
       {| Config.owner_id := Config.owner_id (config b);
          Config.max_file_size := Config.max_file_size (config b);
          Config.required_svg_size := Config.required_svg_size c';
          Config.max_batch_size := Config.max_batch_size (config b);
          Config.processing_delay := Config.processing_delay (config b);
          Config.batch_timeout := Config.batch_timeout c';
          Config.output_width := Config.output_width c';
          Config.output_height := Config.output_height c';
          Config.output_fps := Config.output_fps c';
          Config.max_broadcast_length := Config.max_broadcast_length c';
          Config.admin_users := Config.admin_users (config b);
          Config.banned_users := Config.banned_users (config b);
          Config.all_users := Config.all_users (config b) |};
     validator :=
       {| Validator.max_file_size := Validator.max_file_size (validator b);
          Validator.required_width := Validator.required_width v';
          Validator.required_height := Validator.required_height v' |};
     converter := k';
     user_batches := user_batches b;
     processing_tasks := processing_tasks b |}.

(** [processing_tasks] mirrors the event loop: the tasks that wait are
    the entries of the dictionary, each under the user it belongs to, and
    a user with a task has a batch. *)
Definition tasks_mirror_loop (w : World) : Prop :=
  (∀ t, t ∈ event_loop w → processing_tasks (bot w) !! task_user_id t = Some t)
  ∧ (∀ user_id t,
       processing_tasks (bot w) !! user_id = Some t →
       t ∈ event_loop w ∧ task_user_id t = user_id)
  ∧ (∀ user_id,
       is_Some (processing_tasks (bot w) !! user_id) →
       is_Some (user_batches (bot w) !! user_id)).

(** The invariant of the tasks: one task for each pending batch, mirrored
    by [processing_tasks]. *)
Definition tasks_in_order (w : World) : Prop :=
  one_task_per_batch w ∧ tasks_mirror_loop w.

(** What [__init__] sets and the handlers have no statement to change:
    the owner, the limits and settings of the configuration, the
    validator and the converter. *)
Definition fixed_settings (b : SimpleSVGToTGSBot)
  : Z * Z * (Z * Z) * Z * Z * Z * (Z * Z * Z) * Z
    * Validator.SVGValidator * Converter.SVGToTGSConverter :=
  (Config.owner_id (config b),
   Config.max_file_size (config b),
   Config.required_svg_size (config b),
   Config.max_batch_size (config b),
   Config.processing_delay (config b),
   Config.batch_timeout (config b),
   (Config.output_width (config b), Config.output_height (config b),
    Config.output_fps (config b)),
   Config.max_broadcast_length (config b),
   validator b,
   converter b).

(** The bot with another configuration of the same delay. *)
Definition reconfigured (c' : Config.SimpleConfig) (b : SimpleSVGToTGSBot)
  : SimpleSVGToTGSBot :=
  set_config
    {| Config.owner_id := Config.owner_id c';
       Config.max_file_size := Config.max_file_size c';
       Config.required_svg_size := Config.required_svg_size c';
       Config.max_batch_size := Config.max_batch_size c';
       Config.processing_delay := Config.processing_delay (config b);
       Config.batch_timeout := Config.batch_timeout c';
       Config.output_width := Config.output_width c';
       Config.output_height := Config.output_height c';
       Config.output_fps := Config.output_fps c';
       Config.max_broadcast_length := Config.max_broadcast_length c';
       Config.admin_users := Config.admin_users c';
       Config.banned_users := Config.banned_users c';
       Config.all_users := Config.all_users c' |} b.








(** * Properties *)

(** ** Strings *)

Lemma endswith_unfold s suffix :
  Py.endswith s suffix =
  String.eqb s suffix ||
  match s with
  | EmptyString => false
  | String _ s' => Py.endswith s' suffix
  end.
Proof. by destruct s. Qed.

Lemma endswith_refl s : Py.endswith s s = true.
Proof. rewrite endswith_unfold. by rewrite String.eqb_refl. Qed.

Lemma endswith_cons c s suffix :
  Py.endswith s suffix = true → Py.endswith (String c s) suffix = true.
Proof. intros H. rewrite endswith_unfold, H. apply orb_true_r. Qed.

Lemma local_name_endswith tag suffix :
  Py.local_name tag = suffix → Py.endswith tag suffix = true.
Proof.
  revert suffix. induction tag as [|c tag IH]; intros suffix Hl.
  - simpl in Hl. subst. reflexivity.
  - cbn [Py.local_name] in Hl. destruct (Py.str_in "}" tag).
    + apply endswith_cons, IH, Hl.
    + destruct (Ascii.eqb c "}").
      * subst. apply endswith_cons, endswith_refl.
      * subst. apply endswith_refl.
Qed.

Lemma ascii_lower_svg_suffix s :
  Py.endswith s "svg" = true → Py.endswith (Py.ascii_lower s) "svg" = true.
Proof.
  induction s as [|c s IH]; [done|].
  rewrite endswith_unfold. intros H. apply orb_true_iff in H as [H|H].
  - apply String.eqb_eq in H. rewrite H. reflexivity.
  - change (Py.ascii_lower (String c s))
      with (String (Py.ascii_lower_char c) (Py.ascii_lower s)).
    apply endswith_cons, IH, H.
Qed.

Lemma str_in_unfold needle hay :
  Py.str_in needle hay =
  String.prefix needle hay ||
  match hay with
  | EmptyString => false
  | String _ hay' => Py.str_in needle hay'
  end.
Proof. by destruct hay. Qed.

Lemma str_in_app_r needle pre post :
  Py.str_in needle post = true → Py.str_in needle (pre +:+ post) = true.
Proof.
  intros H. induction pre as [|c pre IH]; [done|].
  change (String c pre +:+ post) with (String c (pre +:+ post)).
  rewrite str_in_unfold, IH. apply orb_true_r.
Qed.

Lemma prefix_app s t : String.prefix s (s +:+ t) = true.
Proof.
  induction s as [|c s IH]; simpl; [by destruct t|].
  destruct (Ascii.ascii_dec c c); [done|congruence].
Qed.

Lemma str_in_app needle pre post :
  Py.str_in needle (pre +:+ needle +:+ post) = true.
Proof.
  apply str_in_app_r. rewrite str_in_unfold, prefix_app. reflexivity.
Qed.

(** ** SVGValidator *)

(** C6, as stated, fails: a well-formed document of at most the size
    limit whose root element has the local name [svg], under a file name
    ending in [.svg], is rejected by [validate_file] when the root is
    written with a namespace prefix, because the text then contains
    neither [<svg] nor [<?xml]. *)
Lemma validate_file_rejects_prefixed_root :
  Z.of_nat (length Sample.doc_prefixed)
    ≤ Validator.max_file_size Sample.default_validator
  ∧ ET_fromstring Sample.env Sample.doc_prefixed = ET_root Sample.svg_tag
  ∧ Py.local_name Sample.svg_tag = "svg"
  ∧ Py.endswith (str_lower Sample.env "a.svg") ".svg" = true
  ∧ Validator.validate_file Sample.env Sample.default_validator
      Sample.doc_prefixed "a.svg" = (false, "❌ Invalid SVG format").
Proof. repeat split; by vm_compute. Qed.

(** C6, amended: [validate_file] succeeds on every byte sequence of at
    most the size limit that parses with a root element whose local name
    is [svg], under a file name ending in [.svg] case-insensitively,
    provided the text, decoded and lower-cased, contains [<svg] or
    [<?xml].  [lower] is only asked to keep a final [svg]. *)
Theorem validate_file_accepts (E : Env) (v : Validator.SVGValidator)
    (file_data : Py.bytes) (filename tag : string) :
  Z.of_nat (length file_data) ≤ Validator.max_file_size v →
  ET_fromstring E file_data = ET_root tag →
  Py.local_name tag = "svg" →
  Py.endswith (str_lower E filename) ".svg" = true →
  Py.str_in "<svg" (str_lower E (decode_utf8_ignore E file_data))
  || Py.str_in "<?xml" (str_lower E (decode_utf8_ignore E file_data)) = true →
  (∀ s, Py.endswith s "svg" = true → Py.endswith (str_lower E s) "svg" = true) →
  Validator.validate_file E v file_data filename = (true, "✅ Valid SVG file").
Proof.
  intros Hsize Hparse Hlocal Hext Hmark Hlower.
  unfold Validator.validate_file, Validator.validate_file_size,
    Validator.validate_svg_format.
  rewrite Hext. cbn [negb].
  destruct (Z.gtb_spec (Z.of_nat (length file_data)) (Validator.max_file_size v));
    [lia|].
  cbn [negb]. rewrite Hmark, Hparse. cbn [negb].
  by rewrite (Hlower tag (local_name_endswith _ _ Hlocal)).
Qed.

(** The default validator accepts the document with a default namespace
    under the name [Logo.SVG]. *)
Lemma validate_file_accepts_witness :
  Validator.validate_file Sample.env Sample.default_validator
    Sample.doc_plain "Logo.SVG" = (true, "✅ Valid SVG file").
Proof.
  apply (validate_file_accepts Sample.env Sample.default_validator
           Sample.doc_plain "Logo.SVG" Sample.svg_tag).
  - by vm_compute.
  - reflexivity.
  - reflexivity.
  - reflexivity.
  - reflexivity.
  - exact ascii_lower_svg_suffix.
Defined.

(** ** SVGToTGSConverter *)

Lemma run_lottie_convert_true self C svg tgs :
  (Converter._run_lottie_convert self C svg tgs).1 = true →
  ∃ err out,
    subprocess C (Converter.command_line C svg tgs) = Some (0, err)
    ∧ tgs_file C = Some out ∧ out ≠ [].
Proof.
  unfold Converter._run_lottie_convert.
  destruct (subprocess C _) as [[rc err]|]; [|done].
  destruct (Z.eqb_spec rc 0) as [->|]; [|done]. cbn [negb].
  destruct (tgs_file C) as [out|]; [|done].
  destruct out as [|x out]; [done|]. intros _. by exists err, (x :: out).
Qed.



(** ** The monad of handlers *)

Lemma bind_run {A B} (m : M A) (f : A → M B) w :
  (m ≫= f) w =
  match m w with
  | (Ok a, w') => f a w'
  | (Raise e, w') => (Raise e, w')
  end.
Proof. reflexivity. Qed.

Lemma transport_run E c w :
  transport_error E (length (calls w)) = None →
  Bot.transport E c w
  = (Ok (Z.of_nat (length (calls w))),
     {| bot := bot w; calls := calls w ++ [(c, true)]; event_loop := event_loop w |}).
Proof. intros H. unfold Bot.transport. by rewrite H. Qed.

(** A call is logged whether it returns or raises. *)
Lemma transport_logged E c w :
  ∃ r ok,
    Bot.transport E c w
    = (r, {| bot := bot w; calls := calls w ++ [(c, ok)]; event_loop := event_loop w |}).
Proof. unfold Bot.transport. destruct (transport_error E _); by eexists _, _. Qed.

(** Unfolds the operations of the monad in the goal. *)
Ltac run_monad :=
  unfold mbind, M_bind, mret, M_ret, gets, modify_bot, create_task,
    Bot.transport, raise, try_except, try_finally; cbn.

Section Preserves.
Context (P : World → Prop).

Lemma preserves_ret {A} (a : A) : preserves P (mret a).
Proof. by intros w Hw. Qed.

Lemma preserves_raise {A} e : preserves P (@raise A e).
Proof. by intros w Hw. Qed.

Lemma preserves_gets {A} (f : SimpleSVGToTGSBot → A) : preserves P (gets f).
Proof. by intros w Hw. Qed.

Lemma preserves_bind {A B} (m : M A) (f : A → M B) :
  preserves P m → (∀ a, preserves P (f a)) → preserves P (m ≫= f).
Proof.
  intros Hm Hf w Hw. rewrite bind_run. specialize (Hm w Hw).
  destruct (m w) as [[a|e] w']; [by apply Hf|done].
Qed.

(** The value read from [self] is known to what follows. *)
Lemma preserves_gets_bind {A B} (f : SimpleSVGToTGSBot → A) (k : A → M B) :
  (∀ a, preserves (λ w, P w ∧ f (bot w) = a) (k a)) →
  preserves P (gets f ≫= k).
Proof. intros Hk w Hw. by apply (Hk (f (bot w)) w). Qed.

Lemma preserves_try_except {A} (body : M A) handler :
  preserves P body → (∀ e, preserves P (handler e)) →
  preserves P (try_except body handler).
Proof.
  intros Hm Hh w Hw. unfold try_except. specialize (Hm w Hw).
  destruct (body w) as [[a|e] w']; [done|by apply Hh].
Qed.

Lemma preserves_try_finally {A} (body : M A) cleanup :
  preserves P body → preserves P cleanup → preserves P (try_finally body cleanup).
Proof.
  intros Hm Hc w Hw. unfold try_finally. specialize (Hm w Hw).
  destruct (body w) as [r w1]. specialize (Hc w1 Hm).
  by destruct (cleanup w1) as [[?|?] w2].
Qed.

Lemma preserves_modify_bot f :
  (∀ w, P w →
        P {| bot := f (bot w); calls := calls w; event_loop := event_loop w |}) →
  preserves P (modify_bot f).
Proof. intros Hf w Hw. by apply Hf. Qed.

Lemma preserves_transport E c :
  (∀ w l, P w → P {| bot := bot w; calls := l; event_loop := event_loop w |}) →
  preserves P (Bot.transport E c).
Proof.
  intros Hc w Hw. unfold Bot.transport.
  destruct (transport_error E _); by apply Hc.
Qed.

End Preserves.

(** One step of a proof that a handler keeps a predicate; [side] proves
    that the predicate survives an update of the bot or of the log. *)
Ltac preserves_step side :=
  first
    [ apply preserves_ret
    | apply preserves_raise
    | apply preserves_gets
    | apply preserves_bind; [|intros ?]
    | apply preserves_try_except; [|intros ?]
    | apply preserves_try_finally
    | apply preserves_modify_bot; side
    | apply preserves_transport; side
    | progress case_match ].

Ltac preserves_tac side := repeat preserves_step side.

(** The same, keeping what was read from [self]. *)
Ltac preserves_reading side :=
  repeat first [ apply preserves_gets_bind; intros ? | preserves_step side ].

Section Oblivious.

Lemma oblivious_ret {A} (a : A) : oblivious (mret a).
Proof. by intros n w. Qed.

Lemma oblivious_raise {A} e : oblivious (@raise A e).
Proof. by intros n w. Qed.

Lemma oblivious_gets {A} (f : SimpleSVGToTGSBot → A) :
  (∀ n b, f (set_config (Config.set_max_batch_size n (config b)) b) = f b) →
  oblivious (gets f).
Proof. intros Hf n w. unfold gets. cbn. by rewrite Hf. Qed.

Lemma oblivious_bind {A B} (m : M A) (f : A → M B) :
  oblivious m → (∀ a, oblivious (f a)) → oblivious (m ≫= f).
Proof.
  intros Hm Hf n w. rewrite !bind_run, Hm.
  destruct (m w) as [[a|e] w']; [apply Hf|done].
Qed.

Lemma oblivious_try_except {A} (body : M A) handler :
  oblivious body → (∀ e, oblivious (handler e)) →
  oblivious (try_except body handler).
Proof.
  intros Hm Hh n w. unfold try_except. rewrite Hm.
  destruct (body w) as [[a|e] w']; [done|apply Hh].
Qed.

Lemma oblivious_try_finally {A} (body : M A) cleanup :
  oblivious body → oblivious cleanup → oblivious (try_finally body cleanup).
Proof.
  intros Hm Hc n w. unfold try_finally. rewrite Hm.
  destruct (body w) as [r w1]. cbn. rewrite Hc.
  by destruct (cleanup w1) as [[?|?] w2].
Qed.

Lemma oblivious_modify_bot f :
  (∀ n b, f (set_config (Config.set_max_batch_size n (config b)) b)
          = set_config (Config.set_max_batch_size n (config (f b))) (f b)) →
  oblivious (modify_bot f).
Proof.
  intros Hf n w. unfold modify_bot, with_max_batch_size. cbn. by rewrite Hf.
Qed.

Lemma oblivious_create_task t : oblivious (create_task t).
Proof. by intros n w. Qed.

Lemma oblivious_transport E c : oblivious (Bot.transport E c).
Proof.
  intros n w. unfold Bot.transport. cbn.
  by destruct (transport_error E _).
Qed.

End Oblivious.

Ltac oblivious_step :=
  first
    [ apply oblivious_ret
    | apply oblivious_raise
    | apply oblivious_gets; reflexivity
    | apply oblivious_bind; [|intros ?]
    | apply oblivious_try_except; [|intros ?]
    | apply oblivious_try_finally
    | apply oblivious_modify_bot; reflexivity
    | apply oblivious_create_task
    | apply oblivious_transport
    | progress case_match ].

Ltac oblivious_tac := repeat oblivious_step.

(** ** No handler consults [max_batch_size] *)

Section ObliviousHandlers.
Context (E : Env).

Lemma reply_oblivious u text : oblivious (Bot.reply E u text).
Proof. unfold Bot.reply. oblivious_tac. Qed.

Lemma reply_markdown_oblivious u text : oblivious (Bot.reply_markdown E u text).
Proof. unfold Bot.reply_markdown. oblivious_tac. Qed.

Lemma all_users_add_oblivious user_id : oblivious (Bot.all_users_add user_id).
Proof. unfold Bot.all_users_add. oblivious_tac. Qed.

Lemma add_to_batch_oblivious user_id file_data filename chat_id :
  oblivious (Bot.add_to_batch E user_id file_data filename chat_id).
Proof. unfold Bot.add_to_batch. oblivious_tac. Qed.

Lemma process_file_oblivious chat_id fi counts :
  oblivious (Bot.process_file E chat_id fi counts).
Proof. unfold Bot.process_file. oblivious_tac. Qed.

Lemma process_files_oblivious chat_id batch counts :
  oblivious (Bot.process_files E chat_id batch counts).
Proof.
  revert counts. induction batch as [|fi rest IH]; intros counts;
    cbn [Bot.process_files]; [apply oblivious_ret|].
  apply oblivious_bind; [|intros ?; apply IH].
  apply oblivious_try_except; [apply process_file_oblivious|intros ?].
  oblivious_tac.
Qed.

Lemma cleanup_oblivious user_id : oblivious (Bot.cleanup user_id).
Proof. unfold Bot.cleanup. oblivious_tac. Qed.

Lemma process_batch_after_delay_oblivious user_id chat_id status_message_id :
  oblivious (Bot.process_batch_after_delay E user_id chat_id status_message_id).
Proof.
  unfold Bot.process_batch_after_delay, Bot.process_batch.
  apply oblivious_try_finally; [|apply cleanup_oblivious].
  apply oblivious_try_except; [|intros ?; oblivious_tac].
  apply oblivious_bind; [oblivious_tac|intros batch].
  destruct batch; [apply oblivious_ret|].
  apply oblivious_bind; [oblivious_tac|intros ?].
  apply oblivious_bind; [apply process_files_oblivious|intros ?].
  oblivious_tac.
Qed.

Lemma broadcast_loop_oblivious message_text user_ids counts :
  oblivious (Bot.broadcast_loop E message_text user_ids counts).
Proof.
  revert counts. induction user_ids as [|user_id rest IH]; intros counts;
    cbn [Bot.broadcast_loop]; [apply oblivious_ret|].
  apply oblivious_bind; [oblivious_tac|intros ?; apply IH].
Qed.

Lemma command_handler_oblivious c u : oblivious (Bot.command_handler E c u).
Proof.
  destruct c; cbn [Bot.command_handler].
  - unfold Bot.start_command, Bot.all_users_add, Bot.reply_markdown. oblivious_tac.
  - unfold Bot.broadcast_command, Bot.reply.
    apply oblivious_bind; [oblivious_tac|intros ?].
    case_match; [|oblivious_tac].
    case_match; [oblivious_tac|].
    apply oblivious_bind; [oblivious_tac|intros ?].
    case_match; [oblivious_tac|].
    apply oblivious_bind; [oblivious_tac|intros ?].
    apply oblivious_bind; [apply broadcast_loop_oblivious|intros ?].
    oblivious_tac.
  - unfold Bot.ban_command, Bot.int_arg, Bot.id_errors, Bot.reply. oblivious_tac.
  - unfold Bot.unban_command, Bot.int_arg, Bot.id_errors, Bot.reply. oblivious_tac.
  - unfold Bot.stats_command, Bot.reply_markdown, Bot.reply. oblivious_tac.
  - unfold Bot.make_admin_command, Bot.int_arg, Bot.id_errors, Bot.reply.
    oblivious_tac.
  - unfold Bot.remove_admin_command, Bot.int_arg, Bot.id_errors, Bot.reply.
    oblivious_tac.
  - unfold Bot.admin_help_command, Bot.reply_markdown, Bot.reply. oblivious_tac.
Qed.

Lemma handle_svg_document_oblivious u : oblivious (Bot.handle_svg_document E u).
Proof.
  unfold Bot.handle_svg_document.
  apply oblivious_bind; [oblivious_tac|intros ?].
  case_match; [apply reply_oblivious|].
  apply oblivious_bind; [apply all_users_add_oblivious|intros _].
  case_match; [|apply reply_oblivious].
  apply oblivious_bind; [oblivious_tac|intros name].
  case_match; [apply reply_oblivious|].
  apply oblivious_bind; [oblivious_tac|intros ?].
  case_match; [apply reply_oblivious|].
  apply oblivious_try_except.
  - apply oblivious_bind; [oblivious_tac|intros ?].
    apply oblivious_bind; [oblivious_tac|intros ?].
    apply add_to_batch_oblivious.
  - intros []; apply reply_oblivious.
Qed.

Lemma handle_general_message_oblivious u :
  oblivious (Bot.handle_general_message E u).
Proof.
  unfold Bot.handle_general_message, Bot.all_users_add, Bot.reply. oblivious_tac.
Qed.

Lemma error_handler_oblivious u : oblivious (Bot.error_handler E u).
Proof. unfold Bot.error_handler, Bot.reply. oblivious_tac. Qed.

Lemma run_task_oblivious i : oblivious (Bot.run_task E i).
Proof.
  intros n w. unfold Bot.run_task. cbn [with_max_batch_size event_loop].
  destruct (event_loop w !! i) as [t|]; [|done].
  apply (process_batch_after_delay_oblivious _ _ _ n
           {| bot := bot w; calls := calls w; event_loop := delete i (event_loop w) |}).
Qed.

Lemma step_oblivious ev : oblivious (Bot.step E ev).
Proof.
  destruct ev; cbn [Bot.step]; [| | |apply run_task_oblivious];
    (apply oblivious_try_except; [|intros ?; apply error_handler_oblivious]).
  - apply command_handler_oblivious.
  - apply handle_svg_document_oblivious.
  - apply handle_general_message_oblivious.
Qed.

End ObliviousHandlers.

(** ** add_to_batch *)

Section AddToBatch.
Context (E : Env).

Lemma add_to_batch_existing w user_id batch file_data filename chat_id :
  user_batches (bot w) !! user_id = Some batch →
  Bot.add_to_batch E user_id file_data filename chat_id w =
  (Ok (),
   {| bot := set_user_batches
               (<[user_id := batch ++ [{| data := file_data; filename := filename |}]]>
                  (user_batches (bot w))) (bot w);
      calls := calls w;
      event_loop := event_loop w |}).
Proof.
  intros Hb. unfold Bot.add_to_batch. run_monad. rewrite Hb. cbn.
  unfold set_user_batches. cbn.
  by rewrite (alter_alt_Some _ _ _ _ Hb).
Qed.

Lemma add_to_batch_new w user_id file_data filename chat_id :
  user_batches (bot w) !! user_id = None →
  transport_error E (length (calls w)) = None →
  let task := {| task_user_id := user_id; task_chat_id := chat_id;
                 task_status_message_id := Z.of_nat (length (calls w)) |} in
  Bot.add_to_batch E user_id file_data filename chat_id w =
  (Ok (),
   {| bot := set_processing_tasks (<[user_id := task]> (processing_tasks (bot w)))
               (set_user_batches
                  (<[user_id := [{| data := file_data; filename := filename |}]]>
                     (user_batches (bot w))) (bot w));
      calls := calls w ++ [(send_message chat_id Bot.wait_text, true)];
      event_loop := event_loop w ++ [task] |}).
Proof.
  intros Hb Hok task. unfold Bot.add_to_batch. run_monad.
  rewrite Hb. cbn. rewrite Hok. cbn.
  unfold set_processing_tasks, set_user_batches. cbn.
  by rewrite alter_insert_eq.
Qed.

(** When the transport refuses the status message, the empty batch stays
    and no task is created. *)
Lemma add_to_batch_status_refused w user_id file_data filename chat_id msg :
  user_batches (bot w) !! user_id = None →
  transport_error E (length (calls w)) = Some msg →
  Bot.add_to_batch E user_id file_data filename chat_id w =
  (Raise (TelegramError msg),
   {| bot := set_user_batches (<[user_id := []]> (user_batches (bot w))) (bot w);
      calls := calls w ++ [(send_message chat_id Bot.wait_text, false)];
      event_loop := event_loop w |}).
Proof.
  intros Hb Hko. unfold Bot.add_to_batch. run_monad.
  rewrite Hb. cbn. by rewrite Hko.
Qed.

Lemma add_uploads_existing w user_id batch uploads :
  user_batches (bot w) !! user_id = Some batch →
  add_uploads E user_id uploads w =
  (Ok (),
   {| bot := set_user_batches
               (<[user_id := batch ++ uploads.*1]> (user_batches (bot w))) (bot w);
      calls := calls w;
      event_loop := event_loop w |}).
Proof.
  revert w batch. induction uploads as [|[fi chat_id] rest IH]; intros w batch Hb.
  - cbn. rewrite app_nil_r, insert_id by done. by destruct w as [[]].
  - cbn [add_uploads]. rewrite bind_run.
    rewrite (add_to_batch_existing _ _ _ _ _ _ Hb).
    rewrite (IH _ (batch ++ [{| data := data fi; filename := filename fi |}]));
      [|cbn; by rewrite lookup_insert_eq].
    cbn. rewrite insert_insert_eq, <- app_assoc. by destruct fi.
Qed.

End AddToBatch.

(** C10: a pending batch of any length [n] accepts one more file: the
    call returns, the file is appended, no message is sent and no task is
    created.  The configuration holds a maximal batch size of 15, and no
    event consults it: with any other value every event ends the same way
    in the same world. *)
Theorem no_batch_size_limit (E : Env) (w : World) (user_id : Z)
    (batch : list file_info) (file_data : Py.bytes) (filename : string)
    (chat_id : Z) :
  user_batches (bot w) !! user_id = Some batch →
  let r := Bot.add_to_batch E user_id file_data filename chat_id w in
  let batch' := batch ++ [{| data := file_data; filename := filename |}] in
  r.1 = Ok ()
  ∧ user_batches (bot r.2) !! user_id = Some batch'
  ∧ length batch' = S (length batch)
  ∧ calls r.2 = calls w
  ∧ event_loop r.2 = event_loop w
  ∧ (∀ owner, Config.max_batch_size (config (bot_init owner)) = 15)
  ∧ (∀ n ev w0,
       Bot.step E ev (with_max_batch_size n w0)
       = ((Bot.step E ev w0).1, with_max_batch_size n (Bot.step E ev w0).2)).
Proof.
  intros Hb r batch'. subst r batch'.
  rewrite (add_to_batch_existing E _ _ _ _ _ _ Hb). cbn.
  repeat split.
  - by rewrite lookup_insert_eq.
  - rewrite length_app. cbn. lia.
  - intros n ev w0. apply step_oblivious.
Qed.

(** A batch of fifteen files takes a sixteenth. *)
Lemma no_batch_size_limit_witness :
  length <$> (user_batches
                (bot (Bot.add_to_batch Sample.env 5 Sample.doc_plain "p.svg" 5
                        Sample.world_15).2) !! 5)
  = Some 16%nat.
Proof.
  destruct (no_batch_size_limit Sample.env Sample.world_15 5
              (replicate 15 Sample.logo) Sample.doc_plain "p.svg" 5 eq_refl)
    as (_ & Hbatch & _).
  rewrite Hbatch. reflexivity.
Defined.

(** The uploads of a user when the status message is accepted: when they
    arrive while the user has no pending batch and the transport accepts
    the status message, the calls of [add_to_batch] for these uploads all
    return; they create the batch of this user and no other, holding the
    files in the order of arrival; the only call of the transport is the
    status message, sent to the chat of the first upload; and one task is
    created. *)
Theorem uploads_form_one_batch (E : Env) (w : World) (user_id : Z)
    (fi : file_info) (chat_id : Z) (rest : list (file_info * Z)) :
  user_batches (bot w) !! user_id = None →
  transport_error E (length (calls w)) = None →
  let uploads := (fi, chat_id) :: rest in
  let task := {| task_user_id := user_id; task_chat_id := chat_id;
                 task_status_message_id := Z.of_nat (length (calls w)) |} in
  let r := add_uploads E user_id uploads w in
  r.1 = Ok ()
  ∧ user_batches (bot r.2) = <[user_id := uploads.*1]> (user_batches (bot w))
  ∧ calls r.2 = calls w ++ [(send_message chat_id Bot.wait_text, true)]
  ∧ event_loop r.2 = event_loop w ++ [task]
  ∧ processing_tasks (bot r.2) = <[user_id := task]> (processing_tasks (bot w)).
Proof.
  intros Hb Hok uploads task r. subst uploads task r.
  cbn [add_uploads]. rewrite bind_run.
  rewrite (add_to_batch_new E _ _ _ _ _ Hb Hok). cbn zeta.
  rewrite (add_uploads_existing E _ _ [{| data := data fi; filename := filename fi |}]);
    [|cbn; by rewrite lookup_insert_eq].
  cbn. rewrite insert_insert_eq. by destruct fi.
Qed.

(** Three uploads of user [5] at the start of the process. *)
Lemma uploads_form_one_batch_witness :
  let r := add_uploads Sample.env 5
             [(Sample.logo, 5); (Sample.logo, 5); (Sample.logo, 5)]
             (world_init 1) in
  user_batches (bot r.2) !! 5 = Some [Sample.logo; Sample.logo; Sample.logo]
  ∧ calls r.2 = [(send_message 5 Bot.wait_text, true)].
Proof.
  destruct (uploads_form_one_batch Sample.env (world_init 1) 5 Sample.logo 5
              [(Sample.logo, 5); (Sample.logo, 5)] eq_refl eq_refl)
    as (_ & Hbatch & Hcalls & _).
  cbn zeta in *. rewrite Hbatch, Hcalls. split; [|reflexivity].
  by rewrite lookup_insert_eq.
Defined.

(** ** Handlers and the parts of the state they write *)

Section Frame.
Context (E : Env) (P : World → Prop) (HP : stable P).

Local Ltac untouched := intros; eapply HP; [..|eassumption]; reflexivity.

Lemma process_files_stable chat_id batch counts :
  preserves P (Bot.process_files E chat_id batch counts).
Proof.
  revert counts. induction batch as [|fi rest IH]; intros counts;
    cbn [Bot.process_files]; [apply preserves_ret|].
  apply preserves_bind; [|intros ?; apply IH].
  unfold Bot.process_file. preserves_tac untouched.
Qed.

Lemma process_batch_stable user_id chat_id status_message_id :
  preserves P (Bot.process_batch E user_id chat_id status_message_id).
Proof.
  unfold Bot.process_batch.
  apply preserves_try_except; [|intros ?; preserves_tac untouched].
  apply preserves_bind; [preserves_tac untouched|intros batch].
  destruct batch; [apply preserves_ret|].
  apply preserves_bind; [preserves_tac untouched|intros ?].
  apply preserves_bind; [apply process_files_stable|intros ?].
  preserves_tac untouched.
Qed.

Lemma broadcast_loop_stable message_text user_ids counts :
  preserves P (Bot.broadcast_loop E message_text user_ids counts).
Proof.
  revert counts. induction user_ids as [|user_id rest IH]; intros counts;
    cbn [Bot.broadcast_loop]; [apply preserves_ret|].
  apply preserves_bind; [preserves_tac untouched|intros ?; apply IH].
Qed.

Lemma broadcast_command_stable u : preserves P (Bot.broadcast_command E u).
Proof.
  unfold Bot.broadcast_command, Bot.reply.
  apply preserves_bind; [preserves_tac untouched|intros ?].
  case_match; [|preserves_tac untouched].
  case_match; [preserves_tac untouched|].
  apply preserves_bind; [preserves_tac untouched|intros ?].
  case_match; [preserves_tac untouched|].
  apply preserves_bind; [preserves_tac untouched|intros ?].
  apply preserves_bind; [apply broadcast_loop_stable|intros ?].
  preserves_tac untouched.
Qed.

Lemma start_command_stable u : preserves P (Bot.start_command E u).
Proof.
  unfold Bot.start_command, Bot.all_users_add, Bot.reply_markdown.
  preserves_tac untouched.
Qed.

Lemma stats_command_stable u : preserves P (Bot.stats_command E u).
Proof.
  unfold Bot.stats_command, Bot.reply_markdown, Bot.reply. preserves_tac untouched.
Qed.

Lemma admin_help_command_stable u : preserves P (Bot.admin_help_command E u).
Proof.
  unfold Bot.admin_help_command, Bot.reply_markdown, Bot.reply.
  preserves_tac untouched.
Qed.

Lemma handle_general_message_stable u :
  preserves P (Bot.handle_general_message E u).
Proof.
  unfold Bot.handle_general_message, Bot.all_users_add, Bot.reply.
  preserves_tac untouched.
Qed.

Lemma error_handler_stable u : preserves P (Bot.error_handler E u).
Proof. unfold Bot.error_handler, Bot.reply. preserves_tac untouched. Qed.

(** What remains to be shown of a stable predicate: that the handlers
    which write the moderation state, the batches or the event loop keep
    it. *)
Context
  (Hadd : ∀ user_id file_data filename chat_id,
      preserves P (Bot.add_to_batch E user_id file_data filename chat_id))
  (Hban : ∀ u, preserves P (Bot.ban_command E u))
  (Hunban : ∀ u, preserves P (Bot.unban_command E u))
  (Hmake : ∀ u, preserves P (Bot.make_admin_command E u))
  (Hremove : ∀ u, preserves P (Bot.remove_admin_command E u))
  (Hrun : ∀ i, preserves P (Bot.run_task E i)).

Lemma handle_svg_document_stable u : preserves P (Bot.handle_svg_document E u).
Proof.
  unfold Bot.handle_svg_document, Bot.all_users_add, Bot.reply.
  apply preserves_bind; [preserves_tac untouched|intros ?].
  case_match; [preserves_tac untouched|].
  apply preserves_bind; [preserves_tac untouched|intros _].
  case_match; [|preserves_tac untouched].
  apply preserves_bind; [preserves_tac untouched|intros name].
  case_match; [preserves_tac untouched|].
  apply preserves_bind; [preserves_tac untouched|intros ?].
  case_match; [preserves_tac untouched|].
  apply preserves_try_except; [|intros []; preserves_tac untouched].
  apply preserves_bind; [preserves_tac untouched|intros ?].
  apply preserves_bind; [preserves_tac untouched|intros ?].
  apply Hadd.
Qed.

Lemma command_handler_stable c u : preserves P (Bot.command_handler E c u).
Proof.
  destruct c; cbn [Bot.command_handler];
    auto using start_command_stable, broadcast_command_stable,
      stats_command_stable, admin_help_command_stable.
Qed.

Lemma step_stable ev : preserves P (Bot.step E ev).
Proof.
  destruct ev; cbn [Bot.step]; [| | |apply Hrun];
    (apply preserves_try_except; [|intros ?; apply error_handler_stable]).
  - apply command_handler_stable.
  - apply handle_svg_document_stable.
  - apply handle_general_message_stable.
Qed.

Lemma run_stable evs w : P w → P (Bot.run E evs w).
Proof.
  revert w. induction evs as [|ev evs IH]; intros w Hw; [done|].
  cbn [Bot.run foldl]. apply IH. by apply step_stable.
Qed.

End Frame.

(** ** Processing a batch *)

Section ProcessBatch.
Context (E : Env).

Lemma cleanup_run user_id w :
  Bot.cleanup user_id w =
  (Ok (),
   {| bot := set_processing_tasks (delete user_id (processing_tasks (bot w)))
               (set_user_batches (delete user_id (user_batches (bot w))) (bot w));
      calls := calls w;
      event_loop := event_loop w |}).
Proof. reflexivity. Qed.

(** The [try] statement catches everything. *)
Lemma process_batch_returns user_id chat_id status_message_id w :
  (Bot.process_batch E user_id chat_id status_message_id w).1 = Ok ().
Proof.
  unfold Bot.process_batch. unfold try_except at 1.
  match goal with |- context [let '(_, _) := ?b w in _] =>
    destruct (b w) as [[[]|e] w0]
  end; [done|].
  run_monad. by destruct (transport_error E _).
Qed.

(** The coroutine returns, whatever the transport does, and its [finally]
    clause has emptied the two slots of the user. *)
Lemma process_batch_after_delay_returns user_id chat_id status_message_id w :
  let r := Bot.process_batch_after_delay E user_id chat_id status_message_id w in
  r.1 = Ok ()
  ∧ user_batches (bot r.2) !! user_id = None
  ∧ processing_tasks (bot r.2) !! user_id = None.
Proof.
  unfold Bot.process_batch_after_delay, try_finally.
  pose proof (process_batch_returns user_id chat_id status_message_id w) as Hr.
  destruct (Bot.process_batch E _ _ _ w) as [r1 w1].
  rewrite cleanup_run. cbn in *. by rewrite !lookup_delete_eq.
Qed.

(** The coroutine leaves the event loop and the other users' batches as
    they are. *)
Lemma process_batch_after_delay_frame user_id chat_id status_message_id w :
  let r := Bot.process_batch_after_delay E user_id chat_id status_message_id w in
  event_loop r.2 = event_loop w
  ∧ user_batches (bot r.2) = delete user_id (user_batches (bot w)).
Proof.
  unfold Bot.process_batch_after_delay, try_finally.
  pose proof (process_batch_stable E
    (λ w', event_loop w' = event_loop w
           ∧ user_batches (bot w') = user_batches (bot w))) as Hkeep.
  specialize (Hkeep ltac:(by intros w1 w2 _ -> ->) user_id chat_id
                status_message_id w ltac:(done)).
  destruct (Bot.process_batch E _ _ _ w) as [r1 w1].
  rewrite cleanup_run. cbn in *. destruct Hkeep as [-> ->]. done.
Qed.

Lemma run_task_event_loop i t w :
  event_loop w !! i = Some t →
  event_loop (Bot.run_task E i w).2 = delete i (event_loop w).
Proof.
  intros Ht. unfold Bot.run_task. rewrite Ht.
  apply process_batch_after_delay_frame.
Qed.

End ProcessBatch.

(** ** One task for each pending batch *)

Lemma count_tasks_app user_id l1 l2 :
  count_tasks user_id (l1 ++ l2)
  = (count_tasks user_id l1 + count_tasks user_id l2)%nat.
Proof. unfold count_tasks. by rewrite filter_app, length_app. Qed.

Lemma count_tasks_singleton user_id t :
  count_tasks user_id [t] = if decide (task_user_id t = user_id) then 1%nat else 0%nat.
Proof.
  unfold count_tasks. rewrite filter_cons, filter_nil. by destruct (decide _).
Qed.

Lemma count_tasks_delete user_id l i t :
  l !! i = Some t →
  count_tasks user_id l
  = (count_tasks user_id (delete i l)
     + if decide (task_user_id t = user_id) then 1 else 0)%nat.
Proof.
  intros Ht. rewrite delete_take_drop.
  rewrite <- (take_drop_middle l i t Ht) at 1.
  rewrite !count_tasks_app.
  change (t :: drop (S i) l) with ([t] ++ drop (S i) l).
  rewrite count_tasks_app, count_tasks_singleton. lia.
Qed.

Section OneTask.
Context (E : Env).

Lemma one_task_per_batch_stable : stable one_task_per_batch.
Proof. intros w w' _ Hb Hl Hw user_id. rewrite Hb, Hl. apply Hw. Qed.

Lemma add_to_batch_one_task user_id file_data filename chat_id :
  preserves one_task_per_batch
    (Bot.add_to_batch E user_id file_data filename chat_id).
Proof.
  intros w Hw u. destruct (Hw u) as [Hle Hnone].
  destruct (user_batches (bot w) !! user_id) as [batch|] eqn:Hb;
    [|destruct (transport_error E (length (calls w))) as [msg|] eqn:Htr].
  - rewrite (add_to_batch_existing E _ _ _ _ _ _ Hb).
    cbn [snd event_loop bot user_batches set_user_batches]. split; [done|].
    destruct (decide (user_id = u)) as [->|Hne].
    + by rewrite lookup_insert_eq.
    + by rewrite lookup_insert_ne.
  - rewrite (add_to_batch_status_refused E _ _ _ _ _ _ Hb Htr).
    cbn [snd event_loop bot user_batches set_user_batches]. split; [done|].
    destruct (decide (user_id = u)) as [->|Hne].
    + by rewrite lookup_insert_eq.
    + by rewrite lookup_insert_ne.
  - rewrite (add_to_batch_new E _ _ _ _ _ Hb Htr).
    cbn [snd event_loop bot user_batches set_user_batches set_processing_tasks].
    rewrite count_tasks_app, count_tasks_singleton.
    cbn [task_user_id].
    destruct (decide (user_id = u)) as [->|Hne].
    + rewrite lookup_insert_eq, (Hnone Hb). split; [lia|done].
    + rewrite lookup_insert_ne by done. split; [lia|]. intros Hu.
      rewrite (Hnone Hu). lia.
Qed.

Local Ltac untouched := intros; assumption.

Lemma moderation_commands_one_task u :
  preserves one_task_per_batch (Bot.ban_command E u)
  ∧ preserves one_task_per_batch (Bot.unban_command E u)
  ∧ preserves one_task_per_batch (Bot.make_admin_command E u)
  ∧ preserves one_task_per_batch (Bot.remove_admin_command E u).
Proof.
  unfold Bot.ban_command, Bot.unban_command, Bot.make_admin_command,
    Bot.remove_admin_command, Bot.int_arg, Bot.id_errors, Bot.reply.
  split_and!; preserves_tac untouched.
Qed.

(** The task taken out of the event loop was the only one of its user,
    whose batch it then removes. *)
Lemma run_task_one_task i : preserves one_task_per_batch (Bot.run_task E i).
Proof.
  intros w Hw. unfold Bot.run_task.
  destruct (event_loop w !! i) as [t|] eqn:Ht; [|done].
  match goal with |- context [Bot.process_batch_after_delay E ?u ?c ?m ?w0] =>
    destruct (process_batch_after_delay_frame E u c m w0) as [Hloop Hbatches];
    destruct (Bot.process_batch_after_delay E u c m w0) as [r w1]
  end.
  cbn in *. intros u. rewrite Hloop, Hbatches.
  destruct (Hw u) as [Hle Hnone].
  pose proof (count_tasks_delete u _ _ _ Ht) as Hcount.
  destruct (decide (task_user_id t = u)) as [->|Hne].
  - split; lia.
  - rewrite lookup_delete_ne by done. split; [lia|].
    intros Hu. specialize (Hnone Hu). lia.
Qed.

Lemma run_one_task_per_batch owner evs :
  one_task_per_batch (Bot.run E evs (world_init owner)).
Proof.
  apply (run_stable E one_task_per_batch one_task_per_batch_stable
           add_to_batch_one_task).
  - apply moderation_commands_one_task.
  - apply moderation_commands_one_task.
  - apply moderation_commands_one_task.
  - apply moderation_commands_one_task.
  - apply run_task_one_task.
  - intros user_id. unfold count_tasks. cbn [world_init event_loop].
    rewrite filter_nil. cbn. split; [lia|done].
Qed.

End OneTask.

(** C4: in every state the process reaches, a task that waits in the
    event loop is the only task of its user.  When its delay ends, the
    event loop takes it out and runs [process_batch_after_delay] for it,
    once: no task of this user is left.  The run returns without raising
    whatever the transport does during it; afterwards the user has no
    entry in [user_batches] and none in [processing_tasks], and the next
    upload of this user starts a batch that holds this upload only, with
    a new status message and a new task. *)
Theorem batch_torn_down (E : Env) (owner : Z) (evs : list Bot.event)
    (i : nat) (t : Task) :
  let w := Bot.run E evs (world_init owner) in
  event_loop w !! i = Some t →
  let r := Bot.step E (Bot.TimerFires i) w in
  let user_id := task_user_id t in
  count_tasks user_id (event_loop w) = 1%nat
  ∧ r.1 = Ok ()
  ∧ event_loop r.2 = delete i (event_loop w)
  ∧ count_tasks user_id (event_loop r.2) = 0%nat
  ∧ user_batches (bot r.2) !! user_id = None
  ∧ processing_tasks (bot r.2) !! user_id = None
  ∧ (∀ file_data filename chat_id,
       transport_error E (length (calls r.2)) = None →
       let r' := Bot.add_to_batch E user_id file_data filename chat_id r.2 in
       let task := {| task_user_id := user_id; task_chat_id := chat_id;
                      task_status_message_id := Z.of_nat (length (calls r.2)) |} in
       r'.1 = Ok ()
       ∧ user_batches (bot r'.2) !! user_id
         = Some [{| data := file_data; filename := filename |}]
       ∧ processing_tasks (bot r'.2) !! user_id = Some task
       ∧ calls r'.2 = calls r.2 ++ [(send_message chat_id Bot.wait_text, true)]
       ∧ event_loop r'.2 = event_loop r.2 ++ [task]).
Proof.
  intros w Ht r user_id. subst r user_id. cbn [Bot.step].
  pose proof (run_one_task_per_batch E owner evs (task_user_id t)) as [Hle _].
  fold w in Hle.
  pose proof (count_tasks_delete (task_user_id t) _ _ _ Ht) as Hcount.
  destruct (decide (task_user_id t = task_user_id t)) as [_|]; [|done].
  pose proof (run_task_event_loop E i t w Ht) as Hloop.
  unfold Bot.run_task in *. rewrite Ht in *.
  match goal with |- context [Bot.process_batch_after_delay E ?u ?c ?m ?w0] =>
    destruct (process_batch_after_delay_returns E u c m w0) as (Hok & Hb & Hp);
    destruct (Bot.process_batch_after_delay E u c m w0) as [r1 w1]
  end.
  cbn in *. split_and!; [lia|done|done|rewrite Hloop; lia|done|done|].
  intros file_data filename chat_id Htr.
  rewrite (add_to_batch_new E _ _ _ _ _ Hb Htr). cbn.
  by rewrite !lookup_insert_eq.
Qed.

(** The batch of the two uploads of user [5], once its delay has ended. *)
Lemma batch_torn_down_witness :
  let w := Bot.exec Sample.env (Bot.TimerFires 0) Sample.world_pending in
  user_batches (bot w) !! 5 = None ∧ event_loop w = [].
Proof.
  destruct (batch_torn_down Sample.env 1 Sample.two_uploads 0
              {| task_user_id := 5; task_chat_id := 5; task_status_message_id := 2 |}
              ltac:(by vm_compute))
    as (_ & _ & Hloop & _ & Hbatch & _).
  split; [exact Hbatch|].
  unfold Bot.exec, Sample.world_pending. rewrite Hloop. by vm_compute.
Defined.

(** ** The owner stays an admin and is never banned *)

Section OwnerProtected.
Context (E : Env) (owner : Z).

Local Ltac protected :=
  intros; unfold owner_protected in *; cbn in *;
  repeat match goal with
         | H : _ ∧ _ |- _ => destruct H
         | H : decide _ = _ |- _ => clear H
         end;
  split_and?; first [assumption | set_unfold; intuition congruence].

Local Ltac moderation_command :=
  unfold Bot.int_arg, Bot.id_errors, Bot.reply; preserves_reading protected.

Lemma ban_command_protects u :
  preserves (owner_protected owner) (Bot.ban_command E u).
Proof. unfold Bot.ban_command. moderation_command. Qed.

Lemma unban_command_protects u :
  preserves (owner_protected owner) (Bot.unban_command E u).
Proof. unfold Bot.unban_command. moderation_command. Qed.

Lemma make_admin_command_protects u :
  preserves (owner_protected owner) (Bot.make_admin_command E u).
Proof. unfold Bot.make_admin_command. moderation_command. Qed.

Lemma remove_admin_command_protects u :
  preserves (owner_protected owner) (Bot.remove_admin_command E u).
Proof. unfold Bot.remove_admin_command. moderation_command. Qed.

Lemma owner_protected_stable : stable (owner_protected owner).
Proof.
  intros w w' Hm _ _ Hw. unfold moderation in Hm. injection Hm as Ho Ha Hb.
  unfold owner_protected. by rewrite Ho, Ha, Hb.
Qed.

Local Ltac untouched := intros; assumption.

Lemma add_to_batch_protects user_id file_data filename chat_id :
  preserves (owner_protected owner)
    (Bot.add_to_batch E user_id file_data filename chat_id).
Proof.
  unfold Bot.add_to_batch, create_task. preserves_tac untouched.
  intros w Hw. exact Hw.
Qed.

Lemma run_task_protects i : preserves (owner_protected owner) (Bot.run_task E i).
Proof.
  intros w Hw. unfold Bot.run_task.
  destruct (event_loop w !! i) as [t|]; [|done].
  unfold Bot.process_batch_after_delay, Bot.cleanup.
  apply preserves_try_finally; [|preserves_tac untouched|exact Hw].
  apply process_batch_stable, owner_protected_stable.
Qed.

Lemma step_protects ev : preserves (owner_protected owner) (Bot.step E ev).
Proof.
  apply (step_stable E _ owner_protected_stable);
    auto using add_to_batch_protects, ban_command_protects,
      unban_command_protects, make_admin_command_protects,
      remove_admin_command_protects, run_task_protects.
Qed.

Lemma run_protects evs w :
  owner_protected owner w → owner_protected owner (Bot.run E evs w).
Proof.
  revert w. induction evs as [|ev evs IH]; intros w Hw; [done|].
  cbn [Bot.run foldl]. apply IH. by apply step_protects.
Qed.

End OwnerProtected.

(** C3: with a configured owner (a non-zero [OWNER_ID], which
    [SimpleConfig.__init__] adds to the admins), the owner is an admin
    and is not banned in every state the process reaches from its initial
    state, through any sequence of events and in particular of [/ban],
    [/unban], [/makeadmin] and [/removeadmin] commands of any users with
    any arguments; a further [/removeadmin] or [/ban] naming the owner
    leaves it so. *)
Theorem owner_always_admin_never_banned (E : Env) (owner : Z)
    (evs : list Bot.event) :
  owner ≠ 0 →
  let w := Bot.run E evs (world_init owner) in
  owner ∈ Config.admin_users (config (bot w))
  ∧ (owner ∉ Config.banned_users (config (bot w)))
  ∧ (∀ u, owner ∈ Config.admin_users
                    (config (bot (Bot.exec E (Bot.Command Bot.removeadmin u) w))))
  ∧ (∀ u, owner ∉ Config.banned_users
                    (config (bot (Bot.exec E (Bot.Command Bot.ban u) w)))).
Proof.
  intros Howner w.
  assert (Hw : owner_protected owner w).
  { apply run_protects. unfold owner_protected, world_init. cbn.
    destruct (decide (owner = 0)); [done|]. set_solver. }
  split; [apply Hw|]. split; [apply Hw|]. split; intros u.
  - by apply (step_protects E owner (Bot.Command Bot.removeadmin u) w).
  - by apply (step_protects E owner (Bot.Command Bot.ban u) w).
Qed.

(** The owner [1] after an admin tried to ban it and it tried to give up
    its rights. *)
Lemma owner_always_admin_never_banned_witness :
  let w := Bot.run Sample.env Sample.moderation_events (world_init 1) in
  1 ∈ Config.admin_users (config (bot w))
  ∧ 1 ∉ Config.banned_users (config (bot w)).
Proof.
  destruct (owner_always_admin_never_banned Sample.env 1 Sample.moderation_events
              ltac:(lia))
    as (Hadmin & Hbanned & _).
  split; [exact Hadmin|exact Hbanned].
Defined.

(** ** Banned users *)


(** ** Statistics *)

(** The three numbers: the sizes of the two sets and their difference. *)
Lemma stats_numbers b :
  Bot.stats b =
  (Z.of_nat (size (Config.all_users (config b))),
   Z.of_nat (size (Config.banned_users (config b))),
   Z.of_nat (size (Config.all_users (config b)))
   - Z.of_nat (size (Config.banned_users (config b)))).
Proof. reflexivity. Qed.

(** When every banned user is known, the third number is the number of
    known users that are not banned. *)
Lemma stats_active_when_banned_known b :
  Config.banned_users (config b) ⊆ Config.all_users (config b) →
  (Bot.stats b).2
  = Z.of_nat (size (Config.all_users (config b) ∖ Config.banned_users (config b))).
Proof.
  intros Hsub. rewrite stats_numbers. cbn [snd].
  rewrite size_difference by done.
  pose proof (subseteq_size _ _ Hsub). lia.
Qed.

(** C8: after the owner banned a user who never wrote to the bot, no user
    is known and one is banned; [stats_command] reports -1 active users,
    while the known users that are not banned are 0. *)
Lemma stats_active_users_negative :
  let w := Bot.exec Sample.env (Bot.Command Bot.ban Sample.ban_2_by_owner)
             (world_init 1) in
  Bot.stats (bot w) = (0, 1, -1)
  ∧ size (Config.all_users (config (bot w)) ∖ Config.banned_users (config (bot w)))
    = 0%nat
  ∧ Py.str_in "Active Users: -1" (Bot.stats_text (bot w)) = true.
Proof. by vm_compute. Qed.

(** ** The final status of a batch *)


Section Summary.
Context (E : Env) (Hok : ∀ k, transport_error E k = None).



End Summary.




(** ** Broadcast *)

Lemma count_sent_failed outcomes :
  (count_sent outcomes + count_failed outcomes = length outcomes)%nat.
Proof.
  unfold count_sent, count_failed.
  induction outcomes as [|[] outcomes IH]; cbn; lia.
Qed.

(** The loop tries every recipient in turn, whatever the transport
    answers, and counts the answers. *)
Lemma broadcast_loop_run E message_text user_ids counts w :
  ∃ outcomes,
    length outcomes = length user_ids
    ∧ Bot.broadcast_loop E message_text user_ids counts w
      = (Ok ((counts.1 + count_sent outcomes)%nat,
             (counts.2 + count_failed outcomes)%nat),
         {| bot := bot w;
            calls := calls w ++ broadcast_calls message_text user_ids outcomes;
            event_loop := event_loop w |}).
Proof.
  revert counts w. induction user_ids as [|user_id rest IH]; intros [sent failed] w.
  - exists []. cbn. rewrite !Nat.add_0_r, app_nil_r. by destruct w.
  - cbn [Bot.broadcast_loop]. rewrite bind_run. run_monad.
    destruct (transport_error E (length (calls w))) as [msg|]; cbn.
    + match goal with |- context [Bot.broadcast_loop E _ _ ?c ?w0] =>
        destruct (IH c w0) as (outcomes & Hlen & ->)
      end.
      exists (false :: outcomes). cbn. rewrite <- app_assoc.
      split; [by rewrite Hlen|].
      unfold count_sent, count_failed. cbn. do 3 f_equal; lia.
    + match goal with |- context [Bot.broadcast_loop E _ _ ?c ?w0] =>
        destruct (IH c w0) as (outcomes & Hlen & ->)
      end.
      exists (true :: outcomes). cbn. rewrite <- app_assoc.
      split; [by rewrite Hlen|].
      unfold count_sent, count_failed. cbn. do 3 f_equal; lia.
Qed.

(** C7, as stated, fails: in the initial state no user is known; the
    owner's [/broadcast hello all] is answered with one reply saying that
    there is nobody to broadcast to, and no summary with counts is
    issued. *)
Lemma broadcast_to_nobody_has_no_summary :
  Config.all_users (config (bot (world_init 1)))
    ∖ Config.banned_users (config (bot (world_init 1))) = ∅
  ∧ calls (Bot.exec Sample.env (Bot.Command Bot.broadcast Sample.broadcast_hello)
             (world_init 1))
    = [(reply_text 1 "❌ No users found to broadcast to." None, true)].
Proof. split; [set_solver|by vm_compute]. Qed.

(** C7, amended: when an admin broadcasts a message and the transport
    accepts the first answer, then, if some known user is not banned, the
    message is sent once to each known user that is not banned and to
    nobody else, whether or not the single sends succeed, and the last
    call edits the start notice to the summary, in which the sent count
    plus the failed count is the number of these users; if every known
    user is banned, or none is known, the only call is the answer that
    nobody was found. *)
Theorem broadcast_reaches_active_users (E : Env) (u : Update) (w : World) :
  effective_user u ∈ Config.admin_users (config (bot w)) →
  args u ≠ [] →
  transport_error E (length (calls w)) = None →
  let active :=
    Config.all_users (config (bot w)) ∖ Config.banned_users (config (bot w)) in
  let recipients := elements active in
  let message_text := Py.join " " (args u) in
  let sent := calls (Bot.broadcast_command E u w).2 in
  (active = ∅ →
   sent = calls w
          ++ [(reply_text (effective_chat u) "❌ No users found to broadcast to."
                 None, true)])
  ∧ (active ≠ ∅ →
     ∃ (outcomes : list bool) (ok : bool),
       length outcomes = length recipients
       ∧ sent
         = calls w
           ++ [(reply_text (effective_chat u)
                  ("📢 Starting broadcast to " +:+ pretty (length recipients)
                   +:+ " users...") None, true)]
           ++ broadcast_calls message_text recipients outcomes
           ++ [(edit_message_text (effective_chat u) (Z.of_nat (length (calls w)))
                  (Bot.broadcast_summary (count_sent outcomes)
                     (count_failed outcomes) (length recipients)), ok)]
       ∧ (count_sent outcomes + count_failed outcomes = size active)%nat
       ∧ NoDup recipients
       ∧ (∀ x, x ∈ recipients
               ↔ x ∈ Config.all_users (config (bot w))
                 ∧ x ∉ Config.banned_users (config (bot w)))).
Proof.
  intros Hadmin Hargs Hok active recipients message_text sent. subst sent.
  destruct (args u) as [|arg args'] eqn:Hu; [done|].
  split; intros Hactive;
    unfold Bot.broadcast_command; rewrite bind_run; unfold gets at 1;
    (destruct (decide _) as [_|]; [|done]);
    rewrite Hu, bind_run; unfold gets at 1; fold active; fold recipients.
  - subst recipients. rewrite Hactive, elements_empty.
    cbv beta iota. unfold Bot.reply.
    rewrite bind_run, transport_run by done. reflexivity.
  - assert (Hrecipients : recipients ≠ []).
    { intros Hnil. apply Hactive, leibniz_equiv, elements_empty_inv, Hnil. }
    destruct recipients as [|user_id rest] eqn:Hr; [done|].
    rewrite bind_run, transport_run by done.
    rewrite bind_run.
    match goal with |- context [Bot.broadcast_loop E ?m ?l ?c ?w0] =>
      destruct (broadcast_loop_run E m l c w0) as (outcomes & Hlen & ->)
    end.
    rewrite bind_run.
    match goal with |- context [Bot.transport E ?c ?w0] =>
      destruct (transport_logged E c w0) as (r & ok & ->)
    end.
    exists outcomes, ok. split; [done|]. split.
    + destruct r; cbn [calls snd fst]; by rewrite <- !app_assoc.
    + split; [|split].
      * rewrite count_sent_failed, Hlen. unfold size, set_size. cbn.
        subst recipients. by rewrite Hr.
      * rewrite <- Hr. apply NoDup_elements.
      * intros x. rewrite <- Hr. subst recipients active.
        rewrite elem_of_elements. apply elem_of_difference.
Qed.

(** Three known users, one of them banned: the message goes to the two
    others. *)
Lemma broadcast_reaches_active_users_witness :
  ∃ (outcomes : list bool) (ok : bool),
    calls (Bot.broadcast_command Sample.env Sample.broadcast_hello
             Sample.world_known_567).2
    = [(reply_text 1 "📢 Starting broadcast to 2 users..." None, true)]
      ++ broadcast_calls "hello all" [5; 6] outcomes
      ++ [(edit_message_text 1 0
             (Bot.broadcast_summary (count_sent outcomes) (count_failed outcomes) 2),
           ok)]
    ∧ (count_sent outcomes + count_failed outcomes = 2)%nat.
Proof.
  assert (Hadmin : effective_user Sample.broadcast_hello
                   ∈ Config.admin_users (config (bot Sample.world_known_567))).
  { by vm_compute. }
  assert (Hactive : Config.all_users (config (bot Sample.world_known_567))
                    ∖ Config.banned_users (config (bot Sample.world_known_567))
                    ≠ ∅).
  { intros Hempty. apply (f_equal elements) in Hempty. by vm_compute in Hempty. }
  destruct (broadcast_reaches_active_users Sample.env Sample.broadcast_hello
              Sample.world_known_567 Hadmin ltac:(done) eq_refl)
    as [_ Hsent].
  destruct (Hsent Hactive) as (outcomes & ok & _ & Hcalls & Hsum & _).
  exists outcomes, ok. split; [exact Hcalls|exact Hsum].
Defined.

(** ** The moderation commands *)

Section Moderation.
Context (E : Env).

(** A reply leaves the bot as it is, whether it is delivered or not. *)
Lemma reply_bot u text w : bot (Bot.reply E u text w).2 = bot w.
Proof. unfold Bot.reply. run_monad. by destruct (transport_error E _). Qed.

Lemma id_errors_bot u other e b :
  preserves (λ w, bot w = b) (Bot.id_errors E u other e).
Proof.
  intros w Hw. unfold Bot.id_errors. destruct e; by rewrite reply_bot.
Qed.

(** The bot after [try: body except: id_errors], when [body] ends with
    the bot [b] however it ends. *)
Lemma try_id_errors_bot u other (body : M unit) w b :
  bot (body w).2 = b →
  bot (try_except body (Bot.id_errors E u other) w).2 = b.
Proof.
  intros Hb. unfold try_except. destruct (body w) as [[[]|e] w']; [done|].
  by apply id_errors_bot.
Qed.

Lemma modify_then_reply_bot f u text w :
  bot ((modify_bot f;; Bot.reply E u text) w).2 = f (bot w).
Proof. rewrite bind_run. unfold modify_bot. by rewrite reply_bot. Qed.

End Moderation.

(** X1: [/ban] with a numeric argument adds the target to the banned
    users, and changes nothing else, when the sender is an admin and the
    target is neither the owner nor the sender; in every other case it
    changes nothing. *)
Theorem ban_command_rules (E : Env) (u : Update) (w : World) (target : Z) :
  args u ≠ [] →
  py_int E (default "" (head (args u))) = Some target →
  let actor := effective_user u in
  let c := config (bot w) in
  bot (Bot.ban_command E u w).2
  = if decide (actor ∈ Config.admin_users c
               ∧ target ≠ Config.owner_id c ∧ target ≠ actor)
    then set_config
           (Config.set_banned_users ({[target]} ∪ Config.banned_users c) c) (bot w)
    else bot w.
Proof.
  intros Hargs Hint actor c. subst actor c.
  unfold Bot.ban_command. rewrite bind_run. unfold gets at 1.
  destruct (decide (effective_user u ∈ _)) as [Hadmin|Hadmin].
  - destruct (args u) as [|arg rest] eqn:Hu; [done|].
    cbn [head default] in Hint. apply try_id_errors_bot.
    rewrite bind_run. unfold Bot.int_arg. rewrite Hu. cbn [head default].
    rewrite Hint. cbn [mret M_ret]. rewrite bind_run. unfold gets at 1.
    destruct (decide (target = Config.owner_id _)) as [Ho|Ho].
    { rewrite reply_bot. destruct (decide _) as [(_ & ? & _)|]; done. }
    destruct (decide (target = effective_user u)) as [Ha|Ha].
    { rewrite reply_bot. destruct (decide _) as [(_ & _ & ?)|]; done. }
    rewrite modify_then_reply_bot. destruct (decide _) as [|Hn]; [done|].
    destruct Hn. done.
  - rewrite reply_bot. destruct (decide _) as [(? & _)|]; done.
Qed.

(** The owner bans user [2] in the initial state. *)
Lemma ban_command_rules_witness :
  Config.banned_users
    (config (bot (Bot.ban_command Sample.env Sample.ban_2_by_owner (world_init 1)).2))
  = {[ 2 ]} ∪ ∅.
Proof.
  rewrite (ban_command_rules Sample.env Sample.ban_2_by_owner (world_init 1) 2
             ltac:(done) eq_refl).
  cbn zeta. destruct (decide _) as [_|Hn]; [reflexivity|].
  destruct Hn. split; [|done]. cbn. apply elem_of_union_l, elem_of_singleton.
  reflexivity.
Defined.

(** X2: [/makeadmin] with a numeric argument adds the target to the
    admins when the sender is the owner; [/removeadmin] removes the target
    from the admins when the sender is the owner and the target is not
    the owner; in every other case they change nothing. *)
Theorem admin_commands_rules (E : Env) (u : Update) (w : World) (target : Z) :
  args u ≠ [] →
  py_int E (default "" (head (args u))) = Some target →
  let actor := effective_user u in
  let c := config (bot w) in
  bot (Bot.make_admin_command E u w).2
  = (if decide (actor = Config.owner_id c)
     then set_config
            (Config.set_admin_users ({[target]} ∪ Config.admin_users c) c) (bot w)
     else bot w)
  ∧ bot (Bot.remove_admin_command E u w).2
    = (if decide (actor = Config.owner_id c ∧ target ≠ Config.owner_id c)
       then set_config
              (Config.set_admin_users (Config.admin_users c ∖ {[target]}) c) (bot w)
       else bot w).
Proof.
  intros Hargs Hint actor c. subst actor c.
  destruct (args u) as [|arg rest] eqn:Hu; [done|].
  cbn [head default] in Hint. split.
  - unfold Bot.make_admin_command. rewrite bind_run. unfold gets at 1.
    destruct (decide (effective_user u = _)) as [Hactor|Hactor];
      [|by rewrite reply_bot].
    rewrite Hu. apply try_id_errors_bot.
    rewrite bind_run. unfold Bot.int_arg. rewrite Hu. cbn [head default].
    rewrite Hint. cbn [mret M_ret]. by rewrite modify_then_reply_bot.
  - unfold Bot.remove_admin_command. rewrite bind_run. unfold gets at 1.
    destruct (decide (effective_user u = _)) as [Hactor|Hactor].
    + rewrite Hu. apply try_id_errors_bot.
      rewrite bind_run. unfold Bot.int_arg. rewrite Hu. cbn [head default].
      rewrite Hint. cbn [mret M_ret].
      destruct (decide (target = Config.owner_id _)) as [Ho|Ho].
      { rewrite reply_bot. destruct (decide _) as [(_ & ?)|]; done. }
      rewrite modify_then_reply_bot. destruct (decide _) as [|Hn]; [done|].
      destruct Hn. done.
    + rewrite reply_bot. destruct (decide _) as [(? & _)|]; done.
Qed.

(** [/makeadmin 2] sent by user [2], then by the owner. *)
Lemma admin_commands_rules_witness :
  bot (Bot.make_admin_command Sample.env Sample.makeadmin_2_by_2 (world_init 1)).2
  = bot (world_init 1)
  ∧ Config.admin_users
      (config (bot (Bot.make_admin_command Sample.env Sample.makeadmin_2_by_owner
                      (world_init 1)).2))
    = {[ 2 ]} ∪ ({[ 1 ]} ∪ ∅).
Proof.
  split.
  - destruct (admin_commands_rules Sample.env Sample.makeadmin_2_by_2
                (world_init 1) 2 ltac:(done) eq_refl) as [Hmake _].
    rewrite Hmake. reflexivity.
  - destruct (admin_commands_rules Sample.env Sample.makeadmin_2_by_owner
                (world_init 1) 2 ltac:(done) eq_refl) as [Hmake _].
    rewrite Hmake. reflexivity.
Defined.

(** X3: a command whose sender lacks the role it asks for is answered
    with the denial and does nothing else: the bot is as before. *)
Theorem unauthorized_command_is_denied (E : Env) (c : Bot.command)
    (u : Update) (w : World) :
  ¬ authorized c (effective_user u) (config (bot w)) →
  Bot.command_handler E c u w = Bot.reply E u (denial c) w
  ∧ bot (Bot.command_handler E c u w).2 = bot w.
Proof.
  intros Hdenied.
  assert (Hreply : Bot.command_handler E c u w = Bot.reply E u (denial c) w).
  { destruct c; cbn [authorized denial Bot.command_handler] in *; [done|..].
    - unfold Bot.broadcast_command. rewrite bind_run. unfold gets at 1.
      by destruct (decide _).
    - unfold Bot.ban_command. rewrite bind_run. unfold gets at 1.
      by destruct (decide _).
    - unfold Bot.unban_command. rewrite bind_run. unfold gets at 1.
      by destruct (decide _).
    - unfold Bot.stats_command. rewrite bind_run. unfold gets at 1.
      by destruct (decide _).
    - unfold Bot.make_admin_command. rewrite bind_run. unfold gets at 1.
      by destruct (decide _).
    - unfold Bot.remove_admin_command. rewrite bind_run. unfold gets at 1.
      by destruct (decide _).
    - unfold Bot.admin_help_command. rewrite bind_run. unfold gets at 1.
      by destruct (decide _). }
  split; [exact Hreply|]. rewrite Hreply. apply reply_bot.
Qed.

(** [/makeadmin 2] sent by user [2] is answered with the denial. *)
Lemma unauthorized_command_is_denied_witness :
  calls (Bot.command_handler Sample.env Bot.makeadmin Sample.makeadmin_2_by_2
           (world_init 1)).2
  = [(reply_text 2 Bot.owner_only None, true)].
Proof.
  destruct (unauthorized_command_is_denied Sample.env Bot.makeadmin
              Sample.makeadmin_2_by_2 (world_init 1) ltac:(done)) as [Hreply _].
  rewrite Hreply. reflexivity.
Defined.

(** X4: a file above the size limit, under a name ending in [.svg], is
    refused by [validate_file] with the message of [validate_file_size],
    whatever its content; processing it in a batch is one message with
    this reason and one more failure, and the converter has no part in
    it. *)
Theorem oversize_file_is_rejected (E : Env) (w : World) (chat_id : Z)
    (fi : file_info) (counts : nat * nat) :
  Py.endswith (str_lower E (filename fi)) ".svg" = true →
  Z.of_nat (length (data fi)) > Validator.max_file_size (validator (bot w)) →
  let msg := too_large_msg E (validator (bot w)) (length (data fi)) in
  Validator.validate_file E (validator (bot w)) (data fi) (filename fi) = (false, msg)
  ∧ Bot.process_file E chat_id fi counts w
    = (Bot.transport E (send_message chat_id
                         ("❌ " +:+ filename fi +:+ Py.nl +:+ msg));;
       mret (counts.1, S counts.2)) w.
Proof.
  intros Hext Hsize msg. subst msg.
  assert (Hv : Validator.validate_file E (validator (bot w)) (data fi) (filename fi)
               = (false, too_large_msg E (validator (bot w)) (length (data fi)))).
  { unfold Validator.validate_file, Validator.validate_file_size.
    rewrite Hext. cbn [negb].
    destruct (Z.gtb_spec (Z.of_nat (length (data fi)))
                (Validator.max_file_size (validator (bot w)))); [done|lia]. }
  split; [exact Hv|].
  unfold Bot.process_file. destruct counts as [s f].
  rewrite bind_run. unfold gets at 1. by rewrite Hv.
Qed.

(** A document of 41 bytes against a limit of 16. *)
Lemma oversize_file_is_rejected_witness :
  (Validator.validate_file Sample.env (validator (bot Sample.world_limit_16))
     Sample.doc_plain "logo.svg").1 = false.
Proof.
  destruct (oversize_file_is_rejected Sample.env Sample.world_limit_16 5
              Sample.logo (0%nat, 0%nat) eq_refl ltac:(by vm_compute)) as [Hv _].
  cbn [data filename Sample.logo] in Hv. by rewrite Hv.
Defined.

(** ** What the validator accepts *)

(** X5: [validate_file] accepts a file exactly when its name ends in
    [.svg] case-insensitively, its length is at most the size limit, its
    text contains [<svg] or [<?xml] once decoded and lower-cased, and it
    parses with a root element whose lower-cased tag ends in [svg].
    Nothing else is looked at: the required dimensions play no part. *)
Theorem validate_file_accepts_iff (E : Env) (v : Validator.SVGValidator)
    (file_data : Py.bytes) (filename : string) :
  (Validator.validate_file E v file_data filename).1 = true
  ↔ Py.endswith (str_lower E filename) ".svg" = true
    ∧ Z.of_nat (length file_data) ≤ Validator.max_file_size v
    ∧ Py.str_in "<svg" (str_lower E (decode_utf8_ignore E file_data))
      || Py.str_in "<?xml" (str_lower E (decode_utf8_ignore E file_data)) = true
    ∧ ∃ tag, ET_fromstring E file_data = ET_root tag
             ∧ Py.endswith (str_lower E tag) "svg" = true.
Proof.
  unfold Validator.validate_file, Validator.validate_file_size,
    Validator.validate_svg_format.
  destruct (Py.endswith (str_lower E filename) ".svg"); cbn [negb fst];
    [|split; [done|by intros (? & _)]].
  destruct (Z.gtb_spec (Z.of_nat (length file_data)) (Validator.max_file_size v));
    cbn [negb fst]; [split; [done|intros (_ & ? & _); lia]|].
  destruct (_ || _); cbn [negb fst]; [|split; [done|by intros (_ & _ & ? & _)]].
  destruct (ET_fromstring E file_data) as [tag|msg|msg];
    [|split; [done|by intros (_ & _ & _ & ? & ? & _)]..].
  destruct (Py.endswith (str_lower E tag) "svg") eqn:Htag; cbn [negb fst].
  - split; [|done]. intros _. split_and!; [done|lia|done|by exists tag].
  - split; [done|]. intros (_ & _ & _ & tag' & [= <-] & ?). congruence.
Qed.

(** X6: the reason [validate_file] gives is that of the first check that
    fails, in the order extension, size, marker, parser, root tag: a name
    without the extension is refused before anything is measured or read,
    and a text without [<svg] and [<?xml] is refused without consulting
    the parser. *)
Theorem validate_file_reasons (E : Env) (v : Validator.SVGValidator)
    (file_data : Py.bytes) (filename : string) :
  let r := Validator.validate_file E v file_data filename in
  let named := Py.endswith (str_lower E filename) ".svg" in
  let fits := bool_decide (Z.of_nat (length file_data) ≤ Validator.max_file_size v) in
  let marked :=
    Py.str_in "<svg" (str_lower E (decode_utf8_ignore E file_data))
    || Py.str_in "<?xml" (str_lower E (decode_utf8_ignore E file_data)) in
  (named = false → r = (false, "❌ Only SVG files are accepted"))
  ∧ (named = true → fits = false →
     r = (false, too_large_msg E v (length file_data)))
  ∧ (named = true → fits = true → marked = false →
     r = (false, "❌ Invalid SVG format"))
  ∧ (named = true → fits = true → marked = true →
     match ET_fromstring E file_data with
     | ET_root tag =>
         r = if Py.endswith (str_lower E tag) "svg"
             then (true, "✅ Valid SVG file")
             else (false, "❌ Not a valid SVG file")
     | ET_ParseError msg => r = (false, "❌ SVG parsing error: " +:+ msg)
     | ET_Exception msg => r = (false, "❌ File validation error: " +:+ msg)
     end).
Proof.
  intros r named fits marked. subst r named fits marked.
  unfold Validator.validate_file, Validator.validate_file_size,
    Validator.validate_svg_format, too_large_msg.
  destruct (Py.endswith (str_lower E filename) ".svg"); cbn [negb];
    [|by split_and!].
  destruct (Z.gtb_spec (Z.of_nat (length file_data)) (Validator.max_file_size v)).
  - rewrite bool_decide_eq_false_2 by lia. by split_and!.
  - rewrite bool_decide_eq_true_2 by lia. cbn [negb].
    destruct (_ || _); cbn [negb]; [|by split_and!].
    split_and!; [done..|]. intros _ _ _.
    destruct (ET_fromstring E file_data) as [tag|msg|msg]; [|done..].
    by destruct (Py.endswith (str_lower E tag) "svg").
Qed.

(** ** What the converter returns and runs *)

(** X7: [convert_svg_to_tgs] returns bytes exactly when the temporary
    directory was made, the input was written, the process ended with
    status 0, the output file exists, is not empty and was read back; the
    bytes are then the content of that file.  In particular it never
    returns an empty result. *)
Theorem convert_returns_the_output (self : Converter.SVGToTGSConverter)
    (C : ConvEnv) (svg_data : Py.bytes) (filename : string) (out : Py.bytes) :
  (Converter.convert_svg_to_tgs self C svg_data filename).1 = Some out
  ↔ ∃ temp_dir stderr,
      mkdtemp C = Some temp_dir
      ∧ write_ok C = true
      ∧ subprocess C (Converter.command_line C
                        (Converter.svg_path temp_dir filename)
                        (Converter.tgs_path temp_dir filename))
        = Some (0, stderr)
      ∧ tgs_file C = Some out
      ∧ out ≠ []
      ∧ read_ok C = true.
Proof.
  unfold Converter.convert_svg_to_tgs.
  destruct (mkdtemp C) as [temp_dir|]; [|split; [done|by intros (? & ? & ? & _)]].
  destruct (write_ok C); cbn [negb];
    [|split; [done|by intros (? & ? & _ & ? & _)]].
  destruct (Converter._run_lottie_convert self C _ _) as [success logs] eqn:Hrun.
  split.
  - destruct success; [|by destruct (tgs_file C)].
    destruct (run_lottie_convert_true self C _ _ ltac:(by rewrite Hrun))
      as (err & out' & Hsub & Hfile & Hne).
    rewrite Hfile. destruct (read_ok C); [|done]. cbn [fst]. intros [= <-].
    by exists temp_dir, err.
  - intros (d & err & [= <-] & _ & Hsub & Hfile & Hne & Hread).
    unfold Converter._run_lottie_convert in Hrun. rewrite Hsub, Hfile in Hrun.
    cbn [negb Z.eqb] in Hrun. destruct out as [|x out]; [done|].
    cbn [length Nat.eqb] in Hrun. injection Hrun as <- _.
    by rewrite Hfile, Hread.
Qed.

(** X8: the command line is [python], then the first candidate location
    of [lottie_convert.py] that exists, or [-m lottie] when none exists,
    then the two paths and always the same flags, among them [--fps 30]
    and a size of 512: the settings kept in the converter, whose default
    rate is 60, have no part in the command nor in the result. *)
Theorem command_line_flags_are_fixed (C : ConvEnv) (svg tgs : string) :
  (∃ tool,
     Converter.command_line C svg tgs
     = "python" :: tool
       ++ [svg; tgs; "--sanitize"; "--optimize"; "0"; "--fps"; "30";
           "--width"; "512"; "--height"; "512"]
     ∧ ((tool = ["-m"; "lottie"]
         ∧ Forall (λ p, path_exists C p = false) Converter.possible_paths)
        ∨ (∃ before p after,
             Converter.possible_paths = before ++ p :: after
             ∧ tool = [p]
             ∧ path_exists C p = true
             ∧ Forall (λ q, path_exists C q = false) before)))
  ∧ (∀ owner, Converter.fps (converter (bot_init owner)) = 60)
  ∧ (∀ self self' svg_data filename,
       Converter.convert_svg_to_tgs self C svg_data filename
       = Converter.convert_svg_to_tgs self' C svg_data filename).
Proof.
  split; [|done].
  unfold Converter.command_line, Converter.possible_paths. cbn [List.find].
  destruct (path_exists C "/home/runner/workspace/.pythonlibs/bin/lottie_convert.py")
    eqn:H1.
  { eexists [_]. split; [reflexivity|]. right. by eexists [], _, _. }
  destruct (path_exists C "/opt/render/project/src/.pythonlibs/bin/lottie_convert.py")
    eqn:H2.
  { eexists [_]. split; [reflexivity|]. right. eexists [_], _, _.
    split_and!; [reflexivity|reflexivity|done|by repeat constructor]. }
  destruct (path_exists C "/usr/local/bin/lottie_convert.py") eqn:H3.
  { eexists [_]. split; [reflexivity|]. right. eexists [_; _], _, _.
    split_and!; [reflexivity|reflexivity|done|by repeat constructor]. }
  destruct (path_exists C "lottie_convert.py") eqn:H4.
  { eexists [_]. split; [reflexivity|]. right. eexists [_; _; _], _, _.
    split_and!; [reflexivity|reflexivity|done|by repeat constructor]. }
  eexists [_; _]. split; [reflexivity|]. left. split; [done|].
  by repeat constructor.
Qed.

Lemma append_inv_head (s a b : string) : s +:+ a = s +:+ b → a = b.
Proof. induction s as [|c s IH]; cbn; [done|]. intros [= H]. by apply IH. Qed.

(** X9: inside the temporary directory the path of the output differs
    from the path of the input, whatever the file name: the converter
    never writes over the file it reads. *)
Theorem input_output_paths_differ (temp_dir filename : string) :
  Converter.svg_path temp_dir filename ≠ Converter.tgs_path temp_dir filename.
Proof.
  unfold Converter.svg_path, Converter.tgs_path, Converter.path_join.
  intros H. apply append_inv_head in H. cbn in H. discriminate H.
Qed.

(** ** Statistics and the users that are really active *)

(** X10: the active users of [stats_command] are never more than the known
    users that are not banned, and are as many exactly when every banned
    user is known. *)
Theorem stats_active_at_most_real (b : SimpleSVGToTGSBot) :
  let known := Config.all_users (config b) in
  let banned := Config.banned_users (config b) in
  (Bot.stats b).2 ≤ Z.of_nat (size (known ∖ banned))
  ∧ ((Bot.stats b).2 = Z.of_nat (size (known ∖ banned)) ↔ banned ⊆ known).
Proof.
  intros known banned. rewrite stats_numbers. cbn [snd]. fold known banned.
  assert (Hd : known ∖ banned = known ∖ (known ∩ banned)).
  { apply set_eq. intros x. rewrite !elem_of_difference, elem_of_intersection. tauto. }
  assert (Hi : known ∩ banned ⊆ known) by apply intersection_subseteq_l.
  assert (Hb : known ∩ banned ⊆ banned) by apply intersection_subseteq_r.
  rewrite Hd, size_difference by done.
  pose proof (subseteq_size _ _ Hi). pose proof (subseteq_size _ _ Hb).
  split; [lia|]. split.
  - intros Heq. assert (Hle : (size banned ≤ size (known ∩ banned))%nat) by lia.
    pose proof (set_subseteq_size_equiv _ _ Hb Hle) as Heqv.
    intros x Hx. apply Heqv, elem_of_intersection in Hx. tauto.
  - intros Hsub. assert (Heq : known ∩ banned = banned).
    { apply set_eq. intros x. rewrite elem_of_intersection. specialize (Hsub x). tauto. }
    rewrite Heq. pose proof (subseteq_size _ _ Hsub). lia.
Qed.

(** ** Handlers that only talk, and handlers that register their sender *)

Section Keeps.
Context (E : Env) (P : World → Prop).
Context (Hcalls : ∀ w l,
  P w → P {| bot := bot w; calls := l; event_loop := event_loop w |}).

Local Ltac logged := intros; apply Hcalls; assumption.

Lemma reply_keeps u text : preserves P (Bot.reply E u text).
Proof. unfold Bot.reply. preserves_tac logged. Qed.

Lemma reply_markdown_keeps u text : preserves P (Bot.reply_markdown E u text).
Proof. unfold Bot.reply_markdown. preserves_tac logged. Qed.

Lemma process_files_keeps chat_id batch counts :
  preserves P (Bot.process_files E chat_id batch counts).
Proof.
  revert counts. induction batch as [|fi rest IH]; intros counts;
    cbn [Bot.process_files]; [apply preserves_ret|].
  apply preserves_bind; [|intros ?; apply IH].
  unfold Bot.process_file. preserves_tac logged.
Qed.

Lemma process_batch_keeps user_id chat_id status_message_id :
  preserves P (Bot.process_batch E user_id chat_id status_message_id).
Proof.
  unfold Bot.process_batch.
  apply preserves_try_except; [|intros ?; preserves_tac logged].
  apply preserves_bind; [preserves_tac logged|intros batch].
  destruct batch; [apply preserves_ret|].
  apply preserves_bind; [preserves_tac logged|intros ?].
  apply preserves_bind; [apply process_files_keeps|intros ?].
  preserves_tac logged.
Qed.

Lemma broadcast_loop_keeps message_text user_ids counts :
  preserves P (Bot.broadcast_loop E message_text user_ids counts).
Proof.
  revert counts. induction user_ids as [|user_id rest IH]; intros counts;
    cbn [Bot.broadcast_loop]; [apply preserves_ret|].
  apply preserves_bind; [preserves_tac logged|intros ?; apply IH].
Qed.

Lemma broadcast_command_keeps u : preserves P (Bot.broadcast_command E u).
Proof.
  unfold Bot.broadcast_command.
  apply preserves_bind; [preserves_tac logged|intros ?].
  case_match; [|apply reply_keeps].
  case_match; [apply reply_keeps|].
  apply preserves_bind; [preserves_tac logged|intros ?].
  case_match; [apply reply_keeps|].
  apply preserves_bind; [preserves_tac logged|intros ?].
  apply preserves_bind; [apply broadcast_loop_keeps|intros ?].
  preserves_tac logged.
Qed.

Lemma stats_command_keeps u : preserves P (Bot.stats_command E u).
Proof.
  unfold Bot.stats_command, Bot.reply_markdown, Bot.reply. preserves_tac logged.
Qed.

Lemma admin_help_command_keeps u : preserves P (Bot.admin_help_command E u).
Proof.
  unfold Bot.admin_help_command, Bot.reply_markdown, Bot.reply.
  preserves_tac logged.
Qed.

Lemma error_handler_keeps u : preserves P (Bot.error_handler E u).
Proof. unfold Bot.error_handler, Bot.reply. preserves_tac logged. Qed.

Lemma handle_update_keeps handler u :
  preserves P (handler u) → preserves P (Bot.handle_update E handler u).
Proof.
  intros Hh. unfold Bot.handle_update.
  apply preserves_try_except; [done|intros ?; apply error_handler_keeps].
Qed.

(** The handlers that add their sender to the known users. *)
Lemma all_users_add_keeps user_id :
  (∀ w, P w → P (register user_id w)) →
  preserves P (Bot.all_users_add user_id).
Proof. intros Hreg w Hw. by apply Hreg. Qed.

Lemma start_command_keeps u :
  (∀ w, P w → P (register (effective_user u) w)) →
  preserves P (Bot.start_command E u).
Proof.
  intros Hreg. unfold Bot.start_command.
  apply preserves_bind; [by apply all_users_add_keeps|intros _].
  apply reply_markdown_keeps.
Qed.

Lemma handle_general_message_keeps u :
  (∀ w, P w → P (register (effective_user u) w)) →
  preserves P (Bot.handle_general_message E u).
Proof.
  intros Hreg. unfold Bot.handle_general_message.
  apply preserves_bind; [apply preserves_gets|intros ?].
  case_match; [apply preserves_ret|].
  apply preserves_bind; [by apply all_users_add_keeps|intros _].
  repeat case_match; first [apply reply_keeps | apply preserves_ret].
Qed.

Lemma handle_svg_document_keeps u :
  (∀ w, P w → P (register (effective_user u) w)) →
  (∀ file_data filename,
     preserves P (Bot.add_to_batch E (effective_user u) file_data filename
                    (effective_chat u))) →
  preserves P (Bot.handle_svg_document E u).
Proof.
  intros Hreg Hadd. unfold Bot.handle_svg_document.
  apply preserves_bind; [apply preserves_gets|intros ?].
  case_match; [apply reply_keeps|].
  apply preserves_bind; [by apply all_users_add_keeps|intros _].
  case_match; [|apply reply_keeps].
  apply preserves_bind; [case_match; [apply preserves_ret|apply preserves_raise]|].
  intros name. case_match; [apply reply_keeps|].
  apply preserves_bind; [apply preserves_gets|intros ?].
  case_match; [apply reply_keeps|].
  apply preserves_try_except; [|intros []; apply reply_keeps].
  apply preserves_bind; [preserves_tac logged|intros ?].
  apply preserves_bind; [preserves_tac logged|intros ?].
  apply Hadd.
Qed.

(** The coroutine of a batch, for a predicate that its [finally] clause
    keeps. *)
Lemma process_batch_after_delay_keeps user_id chat_id status_message_id :
  preserves P (Bot.cleanup user_id) →
  preserves P (Bot.process_batch_after_delay E user_id chat_id status_message_id).
Proof.
  intros Hclean. unfold Bot.process_batch_after_delay.
  apply preserves_try_finally; [apply process_batch_keeps|done].
Qed.

End Keeps.

(** ** Events never raise *)

(** X11: no event ends with an exception: what a handler raises goes to
    [error_handler], which swallows the failure of its own reply, and the
    coroutine of a batch catches everything. *)
Theorem step_never_raises (E : Env) (ev : Bot.event) (w : World) :
  (Bot.step E ev w).1 = Ok ().
Proof.
  assert (Hwrap : ∀ handler u, (Bot.handle_update E handler u w).1 = Ok ()).
  { intros handler u. unfold Bot.handle_update, try_except.
    destruct (handler u w) as [[[]|e] w']; [done|].
    unfold Bot.error_handler, Bot.reply. run_monad.
    by destruct (transport_error E _). }
  destruct ev as [c u|u|u|i]; cbn [Bot.step]; [apply Hwrap..|].
  unfold Bot.run_task. destruct (event_loop w !! i) as [t|]; [|done].
  apply process_batch_after_delay_returns.
Qed.

(** ** Predicates on the configuration *)

Section OnConfig.
Context (E : Env) (Q : Config.SimpleConfig → Prop).

Local Ltac untouched := intros; assumption.

Lemma on_config_calls w l :
  on_config Q w → on_config Q {| bot := bot w; calls := l; event_loop := event_loop w |}.
Proof. done. Qed.

Lemma add_to_batch_on_config user_id file_data filename chat_id :
  preserves (on_config Q) (Bot.add_to_batch E user_id file_data filename chat_id).
Proof.
  unfold Bot.add_to_batch, create_task. preserves_tac untouched.
  intros w Hw. exact Hw.
Qed.

Lemma run_task_on_config i : preserves (on_config Q) (Bot.run_task E i).
Proof.
  intros w Hw. unfold Bot.run_task.
  destruct (event_loop w !! i) as [t|]; [|done].
  apply process_batch_after_delay_keeps; [apply on_config_calls| |exact Hw].
  unfold Bot.cleanup. preserves_tac untouched.
Qed.

Lemma ban_unban_on_config u :
  (∀ c s, Q c → Q (Config.set_banned_users s c)) →
  preserves (on_config Q) (Bot.ban_command E u)
  ∧ preserves (on_config Q) (Bot.unban_command E u).
Proof.
  intros Hb.
  unfold Bot.ban_command, Bot.unban_command, Bot.int_arg, Bot.id_errors, Bot.reply.
  split; preserves_tac ltac:(intros; first [assumption | by apply Hb]).
Qed.

Lemma make_remove_admin_on_config u :
  (∀ c s, Q c → Q (Config.set_admin_users s c)) →
  preserves (on_config Q) (Bot.make_admin_command E u)
  ∧ preserves (on_config Q) (Bot.remove_admin_command E u).
Proof.
  intros Ha.
  unfold Bot.make_admin_command, Bot.remove_admin_command, Bot.int_arg,
    Bot.id_errors, Bot.reply.
  split; preserves_tac ltac:(intros; first [assumption | by apply Ha]).
Qed.

(** An event keeps a predicate on the configuration that registering
    its sender keeps, once its moderation command, if it is one, is
    shown to keep it. *)
Lemma step_on_config ev :
  (∀ s c, registers ev = Some s →
          Q c → Q (Config.set_all_users ({[s]} ∪ Config.all_users c) c)) →
  (∀ c u, ev = Bot.Command c u → is_moderation c = true →
          preserves (on_config Q) (Bot.command_handler E c u)) →
  preserves (on_config Q) (Bot.step E ev).
Proof.
  intros Hreg Hmod.
  destruct ev as [c u|u|u|i]; cbn [Bot.step]; [| | |apply run_task_on_config];
    (apply handle_update_keeps; [apply on_config_calls|]).
  - destruct c; cbn [Bot.command_handler];
      try (by apply (Hmod _ u eq_refl)).
    + apply start_command_keeps; [apply on_config_calls|].
      intros w Hw. by apply (Hreg (effective_user u)).
    + apply broadcast_command_keeps, on_config_calls.
    + apply stats_command_keeps, on_config_calls.
    + apply admin_help_command_keeps, on_config_calls.
  - apply handle_svg_document_keeps; [apply on_config_calls| |].
    + intros w Hw. by apply (Hreg (effective_user u)).
    + intros. apply add_to_batch_on_config.
  - apply handle_general_message_keeps; [apply on_config_calls|].
    intros w Hw. by apply (Hreg (effective_user u)).
Qed.

End OnConfig.

(** The bot after an update is the bot after its handler: the error
    handler only talks. *)
Lemma handle_update_bot E handler u w :
  bot (Bot.handle_update E handler u w).2 = bot (handler u w).2.
Proof.
  unfold Bot.handle_update, try_except.
  destruct (handler u w) as [[[]|e] w'] eqn:Hh; [done|]. cbn [snd].
  by apply (error_handler_keeps E (λ w0, bot w0 = bot w')).
Qed.

(** A moderation command of a sender without the role it asks for leaves
    the bot as it is. *)
Lemma denied_moderation_bot E c u w :
  is_moderation c = true →
  ¬ authorized c (effective_user u) (config (bot w)) →
  bot (Bot.command_handler E c u w).2 = bot w.
Proof.
  intros Hc Hdenied.
  destruct c; try done; cbn [authorized Bot.command_handler] in *.
  - unfold Bot.ban_command. rewrite bind_run. unfold gets at 1.
    destruct (decide _); [done|apply reply_bot].
  - unfold Bot.unban_command. rewrite bind_run. unfold gets at 1.
    destruct (decide _); [done|apply reply_bot].
  - unfold Bot.make_admin_command. rewrite bind_run. unfold gets at 1.
    destruct (decide _); [done|apply reply_bot].
  - unfold Bot.remove_admin_command. rewrite bind_run. unfold gets at 1.
    destruct (decide _); [done|apply reply_bot].
Qed.

(** ** Who becomes a known user *)

Lemma step_known_users E ev w :
  let known := Config.all_users (config (bot w)) in
  let known' := Config.all_users (config (bot (Bot.exec E ev w))) in
  known' = known ∨ ∃ s, registers ev = Some s ∧ known' = {[s]} ∪ known.
Proof.
  intros known known'. subst known'. unfold Bot.exec.
  destruct (registers ev) as [s|] eqn:Hev.
  - pose proof (step_on_config E
      (λ c, Config.all_users c = known ∨ Config.all_users c = {[s]} ∪ known) ev)
      as Hstep.
    destruct (Hstep) with (w := w) as [Hk|Hk].
    + intros s' c Hs'. rewrite Hev in Hs'. injection Hs' as <-.
      intros [Hc|Hc]; cbn; rewrite Hc; right; [done|].
      apply set_eq. intros x. rewrite !elem_of_union. tauto.
    + intros c u -> Hc. by destruct c.
    + by left.
    + by left.
    + right. by exists s.
  - left.
    apply (step_on_config E (λ c, Config.all_users c = known) ev);
      [intros; congruence| |done].
    intros c u -> Hc.
    destruct c; try done; cbn [Bot.command_handler];
      first [ apply ban_unban_on_config | apply make_remove_admin_on_config ];
      done.
Qed.

(** X12: the known users only grow, and only by the senders of
    [/start], of SVG documents and of other messages: after any sequence
    of events every user known before is still known, and every other
    known user sent one of these. *)
Theorem known_users_are_senders (E : Env) (evs : list Bot.event) (w : World) :
  let known := Config.all_users (config (bot w)) in
  let known' := Config.all_users (config (bot (Bot.run E evs w))) in
  known ⊆ known'
  ∧ ∀ x, x ∈ known' → x ∈ known ∨ ∃ ev, ev ∈ evs ∧ registers ev = Some x.
Proof.
  revert w. induction evs as [|ev evs IH]; intros w known known';
    subst known known'; [by split; [|left]|].
  cbn [Bot.run foldl]. fold (Bot.run E evs (Bot.exec E ev w)).
  destruct (IH (Bot.exec E ev w)) as [Hsub Hfrom].
  destruct (step_known_users E ev w) as [Hk|(s & Hs & Hk)]; rewrite Hk in *.
  - split; [done|]. intros x Hx. destruct (Hfrom x Hx) as [?|(ev' & ? & ?)];
      [by left|]. right. exists ev'. split; [by apply list_elem_of_further|done].
  - split; [intros x Hx; apply Hsub, elem_of_union; by right|].
    intros x Hx. destruct (Hfrom x Hx) as [Hin|(ev' & ? & ?)].
    + apply elem_of_union in Hin as [Hin|Hin]; [|by left].
      apply elem_of_singleton in Hin as ->. right. exists ev.
      split; [apply list_elem_of_here|done].
    + right. exists ev'. split; [by apply list_elem_of_further|done].
Qed.

(** ** Who can change the moderation state *)

(** X13: no event changes the owner, and the admins change only through
    [/makeadmin] and [/removeadmin] sent by the owner: every other event,
    whoever sends it and whatever it carries, leaves the set of admins as
    it is. *)
Theorem admins_change_only_by_owner (E : Env) (ev : Bot.event) (w : World) :
  let c := config (bot w) in
  let c' := config (bot (Bot.exec E ev w)) in
  Config.owner_id c' = Config.owner_id c
  ∧ (¬ writes_admins ev c → Config.admin_users c' = Config.admin_users c).
Proof.
  intros c c'. subst c c'. unfold Bot.exec. split.
  - apply (step_on_config E (λ c, Config.owner_id c = Config.owner_id (config (bot w))));
      [done| |done].
    intros c u -> Hc.
    destruct c; try done; cbn [Bot.command_handler];
      first [ apply ban_unban_on_config | apply make_remove_admin_on_config ];
      done.
  - intros Hnot.
    destruct ev as [[] u|u|u|i]; cbn [writes_admins] in Hnot;
      try (cbn [Bot.step]; by rewrite handle_update_bot, denied_moderation_bot);
      (apply (step_on_config E
                (λ c, Config.admin_users c = Config.admin_users (config (bot w))));
       [done| |done]);
      intros c' u' [= <- <-] Hc; try done;
      cbn [Bot.command_handler]; by apply ban_unban_on_config.
Qed.

(** X14: the banned users change only through [/ban] and [/unban] sent
    by an admin: every other event leaves the set as it is. *)
Theorem banned_change_only_by_admin (E : Env) (ev : Bot.event) (w : World) :
  ¬ writes_banned ev (config (bot w)) →
  Config.banned_users (config (bot (Bot.exec E ev w)))
  = Config.banned_users (config (bot w)).
Proof.
  intros Hnot. unfold Bot.exec.
  destruct ev as [[] u|u|u|i]; cbn [writes_banned] in Hnot;
    try (cbn [Bot.step]; by rewrite handle_update_bot, denied_moderation_bot);
    (apply (step_on_config E
              (λ c, Config.banned_users c = Config.banned_users (config (bot w))));
     [done| |done]);
    intros c' u' [= <- <-] Hc; try done;
    cbn [Bot.command_handler]; by apply make_remove_admin_on_config.
Qed.

(** User [2], who is no admin, sends [/ban 3] in the initial state. *)
Lemma banned_change_only_by_admin_witness :
  Config.banned_users
    (config (bot (Bot.exec Sample.env (Bot.Command Bot.ban Sample.ban_3_by_2)
                    (world_init 1))))
  = ∅.
Proof.
  rewrite (banned_change_only_by_admin Sample.env
             (Bot.Command Bot.ban Sample.ban_3_by_2) (world_init 1));
    [reflexivity|].
  cbn. change (2 ∉ ({[1]} ∪ ∅ : gset Z)).
  rewrite elem_of_union, elem_of_singleton, elem_of_empty. intros [|[]]. lia.
Defined.

(** ** Uploads *)

Section Uploads.
Context (E : Env).

(** The handler up to the checks of the document, for a sender that is
    not banned and a document with a name. *)
Lemma handle_svg_document_checks u w doc name :
  effective_user u ∉ Config.banned_users (config (bot w)) →
  document u = Some doc →
  file_name doc = Some name →
  Bot.handle_svg_document E u w
  = (if negb (Py.endswith (str_lower E name) ".svg")
     then Bot.reply E u ("❌ Only SVG files are accepted." +:+ Py.nl +:+
                         "Please send a valid SVG file.")
     else
       if file_size doc >? Config.max_file_size (config (bot w))
       then Bot.reply E u ("❌ File too large (" +:+ fmt_mb_1f E (file_size doc)
                           +:+ "MB)." +:+ Py.nl +:+ "Maximum allowed: "
                           +:+ fmt_mb E (Config.max_file_size (config (bot w)))
                           +:+ "MB")
       else
         try_except
           (Bot.transport E (get_file (file_id doc));;
            Bot.transport E (download_as_bytearray (file_id doc));;
            Bot.add_to_batch E (effective_user u) (content doc) name
              (effective_chat u))
           (λ e, match e with
                 | TelegramError _ =>
                     Bot.reply E u "❌ Failed to download file. Please try again."
                 | _ =>
                     Bot.reply E u
                       "❌ An error occurred while processing your file. Please try again."
                 end))
      (register (effective_user u) w).
Proof.
  intros Hb Hdoc Hname. unfold Bot.handle_svg_document.
  rewrite bind_run. unfold gets at 1.
  destruct (decide _) as [|_]; [done|].
  rewrite bind_run. unfold Bot.all_users_add, modify_bot at 1.
  fold (register (effective_user u) w).
  rewrite Hdoc, bind_run, Hname. cbn [mret M_ret].
  destruct (negb _); [done|].
  rewrite bind_run. unfold gets at 1. reflexivity.
Qed.

Lemma reply_run u text w :
  ∃ r ok,
    Bot.reply E u text w
    = (r, {| bot := bot w;
             calls := calls w ++ [(reply_text (effective_chat u) text None, ok)];
             event_loop := event_loop w |}).
Proof.
  unfold Bot.reply. rewrite bind_run.
  destruct (transport_logged E (reply_text (effective_chat u) text None) w)
    as ([a|e] & ok & ->); by eexists _, ok.
Qed.

End Uploads.

(** X15: an SVG document of a sender that is not banned, with a name
    ending in [.svg] and a declared size within the limit, is downloaded
    and appended to the batch of its sender when the transport accepts
    the calls: the sender becomes a known user, the file joins the
    pending batch, or starts one with a status message and a task when
    none is pending.  The content is not looked at before the batch
    runs. *)
Theorem svg_upload_joins_batch (E : Env) (u : Update) (w : World)
    (doc : Document) (name : string) :
  effective_user u ∉ Config.banned_users (config (bot w)) →
  document u = Some doc →
  file_name doc = Some name →
  Py.endswith (str_lower E name) ".svg" = true →
  file_size doc ≤ Config.max_file_size (config (bot w)) →
  (∀ k, (length (calls w) ≤ k)%nat → transport_error E k = None) →
  let user_id := effective_user u in
  let pending := user_batches (bot w) !! user_id in
  let task := {| task_user_id := user_id; task_chat_id := effective_chat u;
                 task_status_message_id := Z.of_nat (length (calls w) + 2) |} in
  let r := Bot.handle_svg_document E u w in
  r.1 = Ok ()
  ∧ Config.all_users (config (bot r.2))
    = {[user_id]} ∪ Config.all_users (config (bot w))
  ∧ user_batches (bot r.2)
    = <[user_id := default [] pending
                   ++ [{| data := content doc; filename := name |}]]>
        (user_batches (bot w))
  ∧ calls r.2
    = calls w
      ++ [(get_file (file_id doc), true);
          (download_as_bytearray (file_id doc), true)]
      ++ match pending with
         | Some _ => []
         | None => [(send_message (effective_chat u) Bot.wait_text, true)]
         end
  ∧ event_loop r.2
    = event_loop w ++ match pending with Some _ => [] | None => [task] end.
Proof.
  intros Hb Hdoc Hname Hext Hsize Hok user_id pending task r.
  subst r pending task user_id.
  rewrite (handle_svg_document_checks E u w doc name Hb Hdoc Hname).
  rewrite Hext. cbn [negb].
  destruct (Z.gtb_spec (file_size doc) (Config.max_file_size (config (bot w))));
    [lia|].
  unfold try_except.
  rewrite bind_run, transport_run by (apply Hok; cbn; lia).
  rewrite bind_run, transport_run by (apply Hok; cbn; rewrite length_app; cbn; lia).
  destruct (user_batches (bot w) !! effective_user u) as [batch|] eqn:Hbatch.
  - erewrite add_to_batch_existing by (cbn; exact Hbatch).
    cbn. rewrite <- app_assoc, !app_nil_r. done.
  - rewrite add_to_batch_new;
      [|cbn; exact Hbatch|apply Hok; cbn; rewrite !length_app; cbn; lia].
    cbn. rewrite <- !app_assoc, !length_app. cbn.
    replace (length (calls w) + 1 + 1)%nat with (length (calls w) + 2)%nat by lia.
    done.
Qed.

(** The first upload of user [5]. *)
Lemma svg_upload_joins_batch_witness :
  calls (Bot.handle_svg_document Sample.env Sample.upload_by_5 (world_init 1)).2
  = [(get_file "file-5", true); (download_as_bytearray "file-5", true);
     (send_message 5 Bot.wait_text, true)].
Proof.
  destruct (svg_upload_joins_batch Sample.env Sample.upload_by_5 (world_init 1)
              _ "logo.svg" ltac:(apply not_elem_of_empty) eq_refl eq_refl eq_refl
              ltac:(by vm_compute) (λ _ _, eq_refl))
    as (_ & _ & _ & Hcalls & _).
  exact Hcalls.
Defined.

(** X16: an SVG document of a sender that is not banned whose name does
    not end in [.svg], or whose declared size is above the limit, is
    answered with one reply and nothing else happens: nothing is
    downloaded, no batch and no task are touched.  The sender has become
    a known user all the same. *)
Theorem svg_upload_rejected_early (E : Env) (u : Update) (w : World)
    (doc : Document) (name : string) :
  effective_user u ∉ Config.banned_users (config (bot w)) →
  document u = Some doc →
  file_name doc = Some name →
  Py.endswith (str_lower E name) ".svg" = false
  ∨ file_size doc > Config.max_file_size (config (bot w)) →
  ∃ text ok,
    (Bot.handle_svg_document E u w).2
    = {| bot := bot (register (effective_user u) w);
         calls := calls w ++ [(reply_text (effective_chat u) text None, ok)];
         event_loop := event_loop w |}.
Proof.
  intros Hb Hdoc Hname Hbad.
  rewrite (handle_svg_document_checks E u w doc name Hb Hdoc Hname).
  destruct (Py.endswith (str_lower E name) ".svg"); cbn [negb].
  - destruct Hbad as [|Hbig]; [done|].
    destruct (Z.gtb_spec (file_size doc) (Config.max_file_size (config (bot w))));
      [|lia].
    match goal with |- context [Bot.reply E u ?t ?w0] =>
      destruct (reply_run E u t w0) as (r & ok & ->); by exists t, ok
    end.
  - match goal with |- context [Bot.reply E u ?t ?w0] =>
      destruct (reply_run E u t w0) as (r & ok & ->); by exists t, ok
    end.
Qed.

(** A PNG image sent as a document by user [5]. *)
Lemma svg_upload_rejected_early_witness :
  ∃ text ok,
    (Bot.handle_svg_document Sample.env Sample.upload_png_by_5 (world_init 1)).2
    = {| bot := bot (register 5 (world_init 1));
         calls := [(reply_text 5 text None, ok)];
         event_loop := [] |}.
Proof.
  exact (svg_upload_rejected_early Sample.env Sample.upload_png_by_5
           (world_init 1) _ "logo.png" ltac:(apply not_elem_of_empty)
           eq_refl eq_refl (or_introl eq_refl)).
Defined.

(** X17: when the transport refuses to hand out the file, at [get_file]
    or at the download, the sender is told that the download failed and
    no batch, no task and no status message come into being. *)
Theorem failed_download_leaves_no_batch (E : Env) (u : Update) (w : World)
    (doc : Document) (name : string) :
  effective_user u ∉ Config.banned_users (config (bot w)) →
  document u = Some doc →
  file_name doc = Some name →
  Py.endswith (str_lower E name) ".svg" = true →
  file_size doc ≤ Config.max_file_size (config (bot w)) →
  transport_error E (length (calls w)) ≠ None
  ∨ transport_error E (S (length (calls w))) ≠ None →
  let r := Bot.handle_svg_document E u w in
  ∃ attempts ok,
    r.2 = {| bot := bot (register (effective_user u) w);
             calls := calls w ++ attempts
                      ++ [(reply_text (effective_chat u)
                             "❌ Failed to download file. Please try again." None,
                           ok)];
             event_loop := event_loop w |}
    ∧ (attempts = [(get_file (file_id doc), false)]
       ∨ attempts = [(get_file (file_id doc), true);
                     (download_as_bytearray (file_id doc), false)]).
Proof.
  intros Hb Hdoc Hname Hext Hsize Hfail r. subst r.
  rewrite (handle_svg_document_checks E u w doc name Hb Hdoc Hname).
  rewrite Hext. cbn [negb].
  destruct (Z.gtb_spec (file_size doc) (Config.max_file_size (config (bot w))));
    [lia|].
  unfold try_except. rewrite bind_run. unfold Bot.transport at 1.
  cbn [register calls].
  destruct (transport_error E (length (calls w))) as [msg|] eqn:H0.
  - match goal with |- context [Bot.reply E u ?t ?w0] =>
      destruct (reply_run E u t w0) as (r & ok & ->)
    end.
    exists [(get_file (file_id doc), false)], ok. split; [|by left].
    cbn. by rewrite <- app_assoc.
  - destruct Hfail as [|H1]; [done|].
    rewrite bind_run. unfold Bot.transport at 1. cbn [calls].
    rewrite length_app. cbn [length]. rewrite Nat.add_1_r.
    destruct (transport_error E (S (length (calls w)))) as [msg|]; [|done].
    match goal with |- context [Bot.reply E u ?t ?w0] =>
      destruct (reply_run E u t w0) as (r & ok & ->)
    end.
    eexists [_; _], ok. split; [|by right].
    cbn. by rewrite <- !app_assoc.
Qed.

(** An upload of user [5] while the transport refuses every call. *)
Lemma failed_download_leaves_no_batch_witness :
  user_batches
    (bot (Bot.handle_svg_document Sample.env_offline Sample.upload_by_5
            (world_init 1)).2)
  = ∅.
Proof.
  destruct (failed_download_leaves_no_batch Sample.env_offline Sample.upload_by_5
              (world_init 1) _ "logo.svg" ltac:(apply not_elem_of_empty)
              eq_refl eq_refl eq_refl ltac:(by vm_compute)
              ltac:(left; discriminate))
    as (attempts & ok & Hworld & _).
  cbn zeta in Hworld. rewrite Hworld. reflexivity.
Defined.

(** ** A batch without a task *)

Section Stuck.
Context (E : Env) (user_id : Z).

Lemma stuck_stable : stable (stuck user_id).
Proof. intros w w' _ Hb Hl Hw. unfold stuck. by rewrite Hb, Hl. Qed.

Lemma add_to_batch_stuck user_id' file_data filename chat_id :
  preserves (stuck user_id)
    (Bot.add_to_batch E user_id' file_data filename chat_id).
Proof.
  intros w [Hbatch Htasks].
  destruct (user_batches (bot w) !! user_id') as [batch|] eqn:Hb;
    [|destruct (transport_error E (length (calls w))) as [msg|] eqn:Htr].
  - rewrite (add_to_batch_existing E _ _ _ _ _ _ Hb).
    split; [|done]. cbn. apply lookup_insert_is_Some'. by right.
  - rewrite (add_to_batch_status_refused E _ _ _ _ _ _ Hb Htr).
    split; [|done]. cbn. apply lookup_insert_is_Some'. by right.
  - rewrite (add_to_batch_new E _ _ _ _ _ Hb Htr).
    assert (user_id' ≠ user_id) as Hne.
    { intros ->. rewrite Hb in Hbatch. by destruct Hbatch. }
    split; cbn [snd event_loop bot user_batches set_user_batches set_processing_tasks].
    + apply lookup_insert_is_Some'. by right.
    + rewrite count_tasks_app, count_tasks_singleton. cbn [task_user_id].
      destruct (decide _); [done|lia].
Qed.

Local Ltac untouched := intros; assumption.

Lemma moderation_commands_stuck u :
  preserves (stuck user_id) (Bot.ban_command E u)
  ∧ preserves (stuck user_id) (Bot.unban_command E u)
  ∧ preserves (stuck user_id) (Bot.make_admin_command E u)
  ∧ preserves (stuck user_id) (Bot.remove_admin_command E u).
Proof.
  unfold Bot.ban_command, Bot.unban_command, Bot.make_admin_command,
    Bot.remove_admin_command, Bot.int_arg, Bot.id_errors, Bot.reply.
  split_and!; preserves_tac untouched.
Qed.

(** No task of the user is in the event loop, so the task that runs is
    that of another user and removes another batch. *)
Lemma run_task_stuck i : preserves (stuck user_id) (Bot.run_task E i).
Proof.
  intros w [Hbatch Htasks]. unfold Bot.run_task.
  destruct (event_loop w !! i) as [t|] eqn:Ht; [|done].
  match goal with |- context [Bot.process_batch_after_delay E ?u ?c ?m ?w0] =>
    destruct (process_batch_after_delay_frame E u c m w0) as [Hloop Hbatches];
    destruct (Bot.process_batch_after_delay E u c m w0) as [r w1]
  end.
  cbn in *. unfold stuck. rewrite Hloop, Hbatches.
  pose proof (count_tasks_delete user_id _ _ _ Ht) as Hcount.
  destruct (decide (task_user_id t = user_id)) as [->|Hne]; [lia|].
  split; [|lia]. by rewrite lookup_delete_ne.
Qed.

Lemma run_stuck evs w : stuck user_id w → stuck user_id (Bot.run E evs w).
Proof.
  apply (run_stable E (stuck user_id) stuck_stable add_to_batch_stuck);
    try apply moderation_commands_stuck.
  apply run_task_stuck.
Qed.

End Stuck.

(** X18: when the transport refuses the status message of a new batch,
    [add_to_batch] raises after it made the empty batch and before it
    made the task, and the file is not kept.  From then on the user has a
    batch and no task, whatever happens: later uploads are appended
    without a status message, and no sequence of events brings a task
    that would process the batch. *)
Theorem refused_status_leaves_batch_stuck (E : Env) (w : World) (user_id : Z)
    (file_data : Py.bytes) (filename : string) (chat_id : Z) (msg : string) :
  user_batches (bot w) !! user_id = None →
  count_tasks user_id (event_loop w) = 0%nat →
  transport_error E (length (calls w)) = Some msg →
  let r := Bot.add_to_batch E user_id file_data filename chat_id w in
  r.1 = Raise (TelegramError msg)
  ∧ user_batches (bot r.2) !! user_id = Some []
  ∧ processing_tasks (bot r.2) = processing_tasks (bot w)
  ∧ (∀ evs,
       let w' := Bot.run E evs r.2 in
       is_Some (user_batches (bot w') !! user_id)
       ∧ count_tasks user_id (event_loop w') = 0%nat
       ∧ ∀ file_data' filename' chat_id',
           let r' := Bot.add_to_batch E user_id file_data' filename' chat_id' w' in
           r'.1 = Ok ()
           ∧ calls r'.2 = calls w'
           ∧ event_loop r'.2 = event_loop w').
Proof.
  intros Hb Htasks Htr r. subst r.
  rewrite (add_to_batch_status_refused E _ _ _ _ _ _ Hb Htr). cbn [fst snd].
  split_and!; [done|cbn; by rewrite lookup_insert_eq|done|].
  intros evs. set (w' := Bot.run E evs _).
  assert (Hstuck : stuck user_id w').
  { apply run_stuck. split; cbn; [|done]. rewrite lookup_insert_eq. by eexists. }
  destruct Hstuck as [[batch Hbatch] Hnone]. split_and!; [by eexists|done|].
  intros file_data' filename' chat_id'.
  by rewrite (add_to_batch_existing E _ _ _ _ _ _ Hbatch).
Qed.

(** The first file of user [5] while the transport refuses every call. *)
Lemma refused_status_leaves_batch_stuck_witness :
  user_batches
    (bot (Bot.add_to_batch Sample.env_offline 5 Sample.doc_plain "logo.svg" 5
            (world_init 1)).2) !! 5
  = Some [].
Proof.
  destruct (refused_status_leaves_batch_stuck Sample.env_offline (world_init 1) 5
              Sample.doc_plain "logo.svg" 5 "Timed out" eq_refl eq_refl eq_refl)
    as (_ & Hbatch & _).
  exact Hbatch.
Defined.

(** ** The run of a batch *)

Lemma convert_nonempty self C svg_data filename out :
  (Converter.convert_svg_to_tgs self C svg_data filename).1 = Some out → out ≠ [].
Proof.
  unfold Converter.convert_svg_to_tgs.
  destruct (mkdtemp C) as [temp_dir|]; [|done].
  destruct (write_ok C); cbn [negb]; [|done].
  destruct (Converter._run_lottie_convert self C _ _) as [success logs] eqn:Hrun.
  destruct success; [|by destruct (tgs_file C)].
  destruct (run_lottie_convert_true self C _ _ ltac:(by rewrite Hrun))
    as (err & out' & _ & Hfile & Hne).
  rewrite Hfile. destruct (read_ok C); [|done]. by intros [= <-].
Qed.

(** A call of the transport returns and is logged as such, or raises and
    is logged as such. *)
Lemma transport_cases E c w :
  (Bot.transport E c w
   = (Ok (Z.of_nat (length (calls w))),
      {| bot := bot w; calls := calls w ++ [(c, true)]; event_loop := event_loop w |}))
  ∨ (∃ msg,
       Bot.transport E c w
       = (Raise (TelegramError msg),
          {| bot := bot w; calls := calls w ++ [(c, false)];
             event_loop := event_loop w |})).
Proof.
  unfold Bot.transport. destruct (transport_error E _) as [msg|];
    [right; by exists msg|by left].
Qed.

Section BatchRun.
Context (E : Env).

(** Whatever the transport does, a file that does not end the loop adds
    one to one of the two counters. *)
Lemma process_file_counts chat_id fi counts w counts' w' :
  Bot.process_file E chat_id fi counts w = (Ok counts', w') →
  (counts'.1 + counts'.2 = S (counts.1 + counts.2))%nat.
Proof.
  unfold Bot.process_file. destruct counts as [s f].
  rewrite bind_run. unfold gets at 1.
  destruct (Validator.validate_file E _ _ _) as [[] msg]; cbn [negb].
  - rewrite bind_run. unfold gets at 1.
    destruct (Converter.convert_svg_to_tgs _ _ _ _).1 as [[|x tgs]|];
      rewrite bind_run;
      match goal with |- context [Bot.transport E ?c w] =>
        destruct (transport_cases E c w) as [-> | (m & ->)]
      end; intros [= <- _] || intros [=]; cbn; lia.
  - rewrite bind_run.
    match goal with |- context [Bot.transport E ?c w] =>
      destruct (transport_cases E c w) as [-> | (m & ->)]
    end; intros [= <- _] || intros [=]; cbn; lia.
Qed.

Lemma process_files_counts chat_id batch counts w counts' w' :
  Bot.process_files E chat_id batch counts w = (Ok counts', w') →
  (counts'.1 + counts'.2 = counts.1 + counts.2 + length batch)%nat.
Proof.
  revert counts w. induction batch as [|fi rest IH]; intros counts w.
  - cbn. intros [= <- _]. lia.
  - cbn [Bot.process_files]. rewrite bind_run. unfold try_except.
    destruct (Bot.process_file E chat_id fi counts w) as [[counts1|e] w1] eqn:Hfile.
    + intros Hrest. apply IH in Hrest.
      apply process_file_counts in Hfile. cbn [length]. lia.
    + rewrite bind_run.
      match goal with |- context [Bot.transport E ?c w1] =>
        destruct (transport_cases E c w1) as [-> | (m & ->)]
      end; [|done].
      cbn [mret M_ret]. intros Hrest. apply IH in Hrest. cbn in *. lia.
Qed.

(** The [except] clause of the coroutine tries one edit of the status
    message. *)
Lemma batch_failed_run chat_id status_message_id w :
  ∃ ok,
    try_except
      (Bot.transport E (edit_message_text chat_id status_message_id
                          "❌ Batch processing failed");;
       mret ())
      (λ _, mret ()) w
    = (Ok (),
       {| bot := bot w;
          calls := calls w ++ [(edit_message_text chat_id status_message_id
                                  "❌ Batch processing failed", ok)];
          event_loop := event_loop w |}).
Proof.
  unfold try_except. rewrite bind_run.
  match goal with |- context [Bot.transport E ?c w] =>
    destruct (transport_cases E c w) as [-> | (m & ->)]
  end; by eexists.
Qed.

End BatchRun.

(** X19: whatever the transport does, the run of a batch that holds
    files ends with an edit of its status message: to the summary of the
    two counters, whose sum is the number of files, when every call made
    for the batch was accepted or recovered from, and to the notice that
    the batch failed otherwise.  For a user without files the run makes
    no call at all. *)
Theorem batch_run_ends_with_status_edit (E : Env) (w : World)
    (user_id chat_id status_message_id : Z) :
  let batch := default [] (user_batches (bot w) !! user_id) in
  let sent := calls (Bot.process_batch_after_delay E user_id chat_id
                       status_message_id w).2 in
  (batch = [] → sent = calls w)
  ∧ (batch ≠ [] →
     ∃ text ok,
       last sent = Some (edit_message_text chat_id status_message_id text, ok)
       ∧ (text = "❌ Batch processing failed"
          ∨ ok = true
            ∧ ∃ successful failed,
                text = Bot.final_status_text successful failed
                ∧ (successful + failed = length batch)%nat)).
Proof.
  intros batch sent. subst sent.
  unfold Bot.process_batch_after_delay, try_finally.
  destruct (Bot.process_batch E _ _ _ w) as [r1 w1] eqn:Hrun.
  rewrite cleanup_run. cbn [snd calls].
  unfold Bot.process_batch in Hrun. unfold try_except at 1 in Hrun.
  rewrite bind_run in Hrun. unfold gets at 1 in Hrun. fold batch in Hrun.
  destruct batch as [|fi rest] eqn:Hbatch.
  { split; [|done]. intros _. by injection Hrun as _ <-. }
  split; [done|]. intros _.
  assert (Hfailed : ∀ w0,
    ∃ ok, (∀ r w2,
      try_except
        (Bot.transport E (edit_message_text chat_id status_message_id
                            "❌ Batch processing failed");;
         mret ())
        (λ _, mret ()) w0 = (r, w2) →
      last (calls w2)
      = Some (edit_message_text chat_id status_message_id
                "❌ Batch processing failed", ok))).
  { intros w0. destruct (batch_failed_run E chat_id status_message_id w0)
      as (ok & ->).
    exists ok. intros r w2 [= _ <-]. cbn. apply last_snoc. }
  rewrite bind_run in Hrun.
  match type of Hrun with context [Bot.transport E ?c w] =>
    destruct (transport_cases E c w) as [Ht | (m & Ht)]; rewrite Ht in Hrun
  end.
  2:{ destruct (Hfailed {| bot := bot w;
          calls := calls w ++ [(edit_message_text chat_id status_message_id
                                  ("🔄 Converting " +:+ pretty (length (fi :: rest))
                                   +:+ " files..."), false)];
          event_loop := event_loop w |}) as (ok & Hlast).
      eexists _, ok. split; [by eapply Hlast|by left]. }
  rewrite bind_run in Hrun.
  match type of Hrun with context [Bot.process_files E ?c ?b ?n ?w0] =>
    destruct (Bot.process_files E c b n w0) as [[counts|e] w2] eqn:Hfiles
  end.
  2:{ destruct (Hfailed w2) as (ok & Hlast).
      eexists _, ok. split; [by eapply Hlast|by left]. }
  apply process_files_counts in Hfiles.
  rewrite bind_run in Hrun.
  match type of Hrun with context [Bot.transport E ?c w2] =>
    destruct (transport_cases E c w2) as [Ht2 | (m & Ht2)]; rewrite Ht2 in Hrun
  end.
  - injection Hrun as _ <-. cbn [calls]. eexists _, true.
    split; [apply last_snoc|]. right. split; [done|].
    exists counts.1, counts.2. split; [done|]. cbn [fst snd] in Hfiles. lia.
  - match type of Hrun with context [try_except _ _ ?w0] =>
      destruct (Hfailed w0) as (ok & Hlast)
    end.
    eexists _, ok. split; [by eapply Hlast|by left].
Qed.

(** ** The files of a batch, one by one *)

Section InOrder.
Context (E : Env) (Hok : ∀ k, transport_error E k = None).

Lemma process_file_answers chat_id fi counts w :
  ∃ c,
    Bot.process_file E chat_id fi counts w
    = (Ok (if converts E (bot w) fi then (S counts.1, counts.2)
           else (counts.1, S counts.2)),
       {| bot := bot w; calls := calls w ++ [(c, true)]; event_loop := event_loop w |})
    ∧ answers E (bot w) chat_id fi c.
Proof.
  unfold Bot.process_file, converts, converted. destruct counts as [s f].
  rewrite bind_run. unfold gets at 1.
  destruct (Validator.validate_file E _ _ _) as [[] msg] eqn:Hvalid; cbn [negb fst].
  - rewrite bind_run. unfold gets at 1.
    destruct (Converter.convert_svg_to_tgs _ _ _ _).1 as [tgs|] eqn:Hconv.
    + destruct tgs as [|x tgs]; [by apply convert_nonempty in Hconv|].
      rewrite bind_run, transport_run by apply Hok.
      eexists. split; [by rewrite bool_decide_eq_true_2 by by eexists|].
      cbn [answers]. unfold converts, converted. rewrite Hvalid, Hconv.
      split_and!; [done|by rewrite bool_decide_eq_true_2 by by eexists|done|done].
    + rewrite bind_run, transport_run by apply Hok.
      assert (Hnone : bool_decide (is_Some (@None Py.bytes)) = false).
      { apply bool_decide_eq_false_2. by intros [? ?]. }
      eexists. split; [by rewrite Hnone|].
      cbn [answers]. unfold converts, converted. rewrite Hvalid, Hconv, Hnone.
      split_and!; [done|done|by eexists].
  - rewrite bind_run, transport_run by apply Hok.
    eexists. split; [done|].
    cbn [answers]. unfold converts. rewrite Hvalid.
    split_and!; [done|done|by eexists].
Qed.

End InOrder.

(** X20: when the transport accepts every call, the loop over a batch
    answers the files one by one in the order of the batch, with one call
    for each: a file that the validator accepts and the converter turns
    into an output is answered with this output as a document named
    after it, every other file with a message that starts with its name;
    the first counter grows by the number of the former and the second by
    the number of the latter.  What is sent for a file does not depend on
    the files before it. *)
Theorem files_answered_in_order (E : Env) (w : World) (chat_id : Z)
    (batch : list file_info) (counts : nat * nat) :
  (∀ k, transport_error E k = None) →
  ∃ sent : list call,
    Bot.process_files E chat_id batch counts w
    = (Ok ((counts.1 + length (List.filter (converts E (bot w)) batch))%nat,
           (counts.2
            + length (List.filter (λ fi, negb (converts E (bot w) fi)) batch))%nat),
       {| bot := bot w;
          calls := calls w ++ ((λ c, (c, true)) <$> sent);
          event_loop := event_loop w |})
    ∧ Forall2 (answers E (bot w) chat_id) batch sent.
Proof.
  intros Hok. revert counts w.
  induction batch as [|fi rest IH]; intros [s f] w.
  - exists []. cbn. rewrite !Nat.add_0_r, app_nil_r.
    split; [by destruct w|constructor].
  - cbn [Bot.process_files]. rewrite bind_run. unfold try_except.
    destruct (process_file_answers E Hok chat_id fi (s, f) w) as (c & -> & Hc).
    match goal with |- context [Bot.process_files E _ _ ?n ?w0] =>
      destruct (IH n w0) as (sent & -> & Hsent)
    end.
    exists (c :: sent). cbn [bot calls event_loop fmap list_fmap List.filter].
    rewrite <- app_assoc. split; [|by constructor].
    destruct (converts E (bot w) fi); cbn [negb length fst snd];
      do 3 f_equal; lia.
Qed.

(** A batch of one file that is converted. *)
Lemma files_answered_in_order_witness :
  (Bot.process_files Sample.env 5 [Sample.logo] (0%nat, 0%nat) (world_init 1)).1
  = Ok (1%nat, 0%nat).
Proof.
  destruct (files_answered_in_order Sample.env (world_init 1) 5 [Sample.logo]
              (0%nat, 0%nat) (λ _, eq_refl)) as (sent & Hrun & _).
  rewrite Hrun. by vm_compute.
Defined.

Lemma run_preserves E (P : World → Prop) :
  (∀ ev, preserves P (Bot.step E ev)) → ∀ evs w, P w → P (Bot.run E evs w).
Proof.
  intros Hstep evs. induction evs as [|ev evs IH]; intros w Hw; [done|].
  cbn [Bot.run foldl]. apply IH. by apply Hstep.
Qed.

(** ** Events that write the configuration only *)

Section ConfigWriters.
Context (E : Env) (P : World → Prop).
Context (Hcalls : ∀ w l,
  P w → P {| bot := bot w; calls := l; event_loop := event_loop w |}).
Context (Hconfig : ∀ w c,
  P w → P {| bot := set_config c (bot w); calls := calls w;
             event_loop := event_loop w |}).

Local Ltac untouched :=
  intros; first [apply Hcalls | apply Hconfig]; assumption.

Lemma command_handler_keeps c u : preserves P (Bot.command_handler E c u).
Proof.
  destruct c; cbn [Bot.command_handler].
  - apply start_command_keeps; [done|]. intros w Hw. by apply Hconfig.
  - by apply broadcast_command_keeps.
  - unfold Bot.ban_command, Bot.int_arg, Bot.id_errors, Bot.reply.
    preserves_tac untouched.
  - unfold Bot.unban_command, Bot.int_arg, Bot.id_errors, Bot.reply.
    preserves_tac untouched.
  - by apply stats_command_keeps.
  - unfold Bot.make_admin_command, Bot.int_arg, Bot.id_errors, Bot.reply.
    preserves_tac untouched.
  - unfold Bot.remove_admin_command, Bot.int_arg, Bot.id_errors, Bot.reply.
    preserves_tac untouched.
  - by apply admin_help_command_keeps.
Qed.

Lemma config_writers_keep ev :
  writes_batches ev = false → preserves P (Bot.step E ev).
Proof.
  intros Hev. destruct ev as [c u|u|u|i]; try done; cbn [Bot.step];
    apply handle_update_keeps; try done.
  - apply command_handler_keeps.
  - apply handle_general_message_keeps; [done|]. intros w Hw. by apply Hconfig.
Qed.

End ConfigWriters.

(** X21: the batches, the tasks and the event loop change only through
    SVG documents and timers: every command, whoever sends it, and every
    other message leave all three as they are. *)
Theorem batches_change_only_by_uploads_and_timers (E : Env) (ev : Bot.event)
    (w : World) :
  writes_batches ev = false →
  let w' := Bot.exec E ev w in
  user_batches (bot w') = user_batches (bot w)
  ∧ processing_tasks (bot w') = processing_tasks (bot w)
  ∧ event_loop w' = event_loop w.
Proof.
  intros Hev w'. subst w'. unfold Bot.exec.
  by apply (config_writers_keep E
              (λ w', user_batches (bot w') = user_batches (bot w)
                     ∧ processing_tasks (bot w') = processing_tasks (bot w)
                     ∧ event_loop w' = event_loop w)).
Qed.

(** The owner's [/ban 2] leaves the pending batch of user [5] alone. *)
Lemma batches_change_only_by_uploads_and_timers_witness :
  user_batches
    (bot (Bot.exec Sample.env (Bot.Command Bot.ban Sample.ban_2_by_owner)
            Sample.world_pending))
  = user_batches (bot Sample.world_pending).
Proof.
  destruct (batches_change_only_by_uploads_and_timers Sample.env
              (Bot.Command Bot.ban Sample.ban_2_by_owner) Sample.world_pending
              eq_refl) as (Hbatches & _).
  exact Hbatches.
Defined.

(** ** The tasks and the event loop *)

Lemma count_tasks_elem_of user_id l t :
  t ∈ l → task_user_id t = user_id → (1 ≤ count_tasks user_id l)%nat.
Proof.
  intros Hin Hu. unfold count_tasks.
  assert (Hf : t ∈ filter (λ t, task_user_id t = user_id) l)
    by by apply list_elem_of_filter.
  destruct (filter _ l); [by apply not_elem_of_nil in Hf|cbn; lia].
Qed.

Lemma elem_of_delete_other {A} (l : list A) i x y :
  l !! i = Some x → y ∈ l → y ≠ x → y ∈ delete i l.
Proof.
  intros Hi Hy Hne. rewrite delete_take_drop.
  rewrite <- (take_drop_middle l i x Hi) in Hy.
  rewrite elem_of_app, elem_of_cons in Hy. rewrite elem_of_app. tauto.
Qed.

Lemma elem_of_delete_inv {A} (l : list A) i y : y ∈ delete i l → y ∈ l.
Proof. intros Hy. eapply elem_of_sublist; [done|apply sublist_delete]. Qed.

Section Mirror.
Context (E : Env).

(** The bot and the event loop after the coroutine of a batch. *)
Lemma process_batch_after_delay_bot user_id chat_id status_message_id w :
  let r := Bot.process_batch_after_delay E user_id chat_id status_message_id w in
  bot r.2
  = set_processing_tasks (delete user_id (processing_tasks (bot w)))
      (set_user_batches (delete user_id (user_batches (bot w))) (bot w))
  ∧ event_loop r.2 = event_loop w.
Proof.
  unfold Bot.process_batch_after_delay, try_finally.
  pose proof (process_batch_keeps E
    (λ w', bot w' = bot w ∧ event_loop w' = event_loop w)) as Hkeep.
  specialize (Hkeep ltac:(done) user_id chat_id status_message_id w ltac:(done)).
  destruct (Bot.process_batch E _ _ _ w) as [r1 w1].
  rewrite cleanup_run. cbn in *. by destruct Hkeep as [-> ->].
Qed.

Lemma add_to_batch_tasks_in_order user_id file_data filename chat_id :
  preserves tasks_in_order
    (Bot.add_to_batch E user_id file_data filename chat_id).
Proof.
  intros w [Hone Hmirror]. split; [by apply add_to_batch_one_task|].
  destruct Hmirror as (Hloop & Htasks & Hbatches).
  destruct (user_batches (bot w) !! user_id) as [batch|] eqn:Hb;
    [|destruct (transport_error E (length (calls w))) as [msg|] eqn:Htr].
  - rewrite (add_to_batch_existing E _ _ _ _ _ _ Hb).
    split_and!; [done|done|]. intros u Hu. cbn.
    apply lookup_insert_is_Some'. right. by apply Hbatches.
  - rewrite (add_to_batch_status_refused E _ _ _ _ _ _ Hb Htr).
    split_and!; [done|done|]. intros u Hu. cbn.
    apply lookup_insert_is_Some'. right. by apply Hbatches.
  - rewrite (add_to_batch_new E _ _ _ _ _ Hb Htr).
    assert (Hfree : processing_tasks (bot w) !! user_id = None).
    { destruct (processing_tasks (bot w) !! user_id) as [t|] eqn:Ht; [|done].
      destruct (Hbatches user_id) as [batch Hbatch]; [by eexists|congruence]. }
    unfold tasks_mirror_loop.
    cbn [snd bot event_loop user_batches processing_tasks set_user_batches
           set_processing_tasks].
    split_and!.
    + intros t Ht. apply elem_of_app in Ht as [Ht|Ht].
      * pose proof (Hloop t Ht) as Hentry.
        rewrite lookup_insert_ne; [done|]. intros Hu. congruence.
      * apply list_elem_of_singleton in Ht as ->. cbn [task_user_id].
        by rewrite lookup_insert_eq.
    + intros u t. destruct (decide (user_id = u)) as [<-|Hne].
      * rewrite lookup_insert_eq. intros [= <-].
        split; [|done]. apply elem_of_app. right. apply list_elem_of_singleton. done.
      * rewrite lookup_insert_ne by done. intros Ht.
        destruct (Htasks u t Ht) as [Hin Hu]. split; [|done].
        apply elem_of_app. by left.
    + intros u. destruct (decide (user_id = u)) as [<-|Hne].
      * rewrite !lookup_insert_eq. intros _. by eexists.
      * rewrite !lookup_insert_ne by done. apply Hbatches.
Qed.

(** The task that runs is the only one of its user: taking it out of the
    event loop and removing the entry of the user go together. *)
Lemma run_task_tasks_in_order i : preserves tasks_in_order (Bot.run_task E i).
Proof.
  intros w [Hone Hmirror]. split; [by apply run_task_one_task|].
  destruct Hmirror as (Hloop & Htasks & Hbatches).
  unfold Bot.run_task. destruct (event_loop w !! i) as [t|] eqn:Ht; [|done].
  match goal with |- context [Bot.process_batch_after_delay E ?u ?c ?m ?w0] =>
    destruct (process_batch_after_delay_bot u c m w0) as [Hbot Hl];
    destruct (Bot.process_batch_after_delay E u c m w0) as [r w1]
  end.
  cbn [snd bot event_loop calls] in *. unfold tasks_mirror_loop.
  rewrite Hbot, Hl.
  cbn [bot event_loop user_batches processing_tasks set_user_batches
         set_processing_tasks].
  assert (Hother : ∀ t', t' ∈ delete i (event_loop w) →
                         task_user_id t' ≠ task_user_id t).
  { intros t' Hin Hu.
    pose proof (count_tasks_delete (task_user_id t) _ _ _ Ht) as Hcount.
    pose proof (count_tasks_elem_of _ _ _ Hin Hu).
    destruct (Hone (task_user_id t)) as [Hle _].
    destruct (decide (task_user_id t = task_user_id t)); [lia|done]. }
  split_and!.
  - intros t' Hin. rewrite lookup_delete_ne by (intros Hu; by apply (Hother t')).
    apply Hloop. by eapply elem_of_delete_inv.
  - intros u t' Hentry. apply lookup_delete_Some in Hentry as [Hne Hentry].
    destruct (Htasks u t' Hentry) as [Hin Hu]. split; [|done].
    eapply elem_of_delete_other; [done..|]. intros ->. congruence.
  - intros u [t' Hentry]. apply lookup_delete_Some in Hentry as [Hne Hentry].
    rewrite lookup_delete_ne by done. apply Hbatches. by eexists.
Qed.

Lemma step_tasks_in_order ev : preserves tasks_in_order (Bot.step E ev).
Proof.
  destruct (writes_batches ev) eqn:Hev.
  - destruct ev as [c u|u|u|i]; try done; cbn [Bot.step];
      [|apply run_task_tasks_in_order].
    apply handle_update_keeps; [done|].
    apply handle_svg_document_keeps; [done|done|].
    intros. apply add_to_batch_tasks_in_order.
  - by apply config_writers_keep.
Qed.

End Mirror.

(** X22: when its delay ends, the task at a position of the event loop
    is taken out of the loop and changes the bot in one way only,
    whatever the transport does: the entries of its user are removed from
    [user_batches] and from [processing_tasks].  The configuration and
    the batches and tasks of the other users are as before.  A timer for
    a position that holds no task changes nothing. *)
Theorem timer_removes_only_its_entries (E : Env) (i : nat) (t : Task)
    (w : World) :
  event_loop w !! i = Some t →
  let w' := Bot.exec E (Bot.TimerFires i) w in
  bot w'
  = set_processing_tasks (delete (task_user_id t) (processing_tasks (bot w)))
      (set_user_batches (delete (task_user_id t) (user_batches (bot w))) (bot w))
  ∧ event_loop w' = delete i (event_loop w)
  ∧ ∀ j, event_loop w !! j = None → Bot.exec E (Bot.TimerFires j) w = w.
Proof.
  intros Ht w'. subst w'. unfold Bot.exec. cbn [Bot.step]. unfold Bot.run_task.
  rewrite Ht.
  match goal with |- context [Bot.process_batch_after_delay E ?u ?c ?m ?w0] =>
    destruct (process_batch_after_delay_bot E u c m w0) as [Hbot Hloop]
  end.
  split_and!; [exact Hbot|exact Hloop|].
  intros j Hj. by rewrite Hj.
Qed.

(** The batch of user [5] once its delay has ended. *)
Lemma timer_removes_only_its_entries_witness :
  let w := Bot.exec Sample.env (Bot.TimerFires 0) Sample.world_pending in
  config (bot w) = config (bot Sample.world_pending) ∧ event_loop w = [].
Proof.
  destruct (timer_removes_only_its_entries Sample.env 0 Sample.task_of_5
              Sample.world_pending ltac:(by vm_compute)) as (Hbot & Hloop & _).
  cbn zeta. rewrite Hbot, Hloop. split; [reflexivity|by vm_compute].
Defined.

(** X23: in every state the process reaches, [processing_tasks] mirrors
    the event loop: a user has an entry exactly for a task of this user
    that waits in the loop, there is at most one such task, and every
    user with a task has a batch. *)
Theorem tasks_mirror_event_loop (E : Env) (owner : Z) (evs : list Bot.event) :
  let w := Bot.run E evs (world_init owner) in
  ∀ user_id,
    (∀ t, processing_tasks (bot w) !! user_id = Some t
          ↔ t ∈ event_loop w ∧ task_user_id t = user_id)
    ∧ (count_tasks user_id (event_loop w) ≤ 1)%nat
    ∧ (is_Some (processing_tasks (bot w) !! user_id) →
       is_Some (user_batches (bot w) !! user_id)).
Proof.
  intros w user_id.
  assert (Hw : tasks_in_order w).
  { apply run_preserves; [apply step_tasks_in_order|].
    split.
    - intros u. unfold count_tasks. cbn [world_init event_loop].
      rewrite filter_nil. cbn. split; [lia|done].
    - split_and!; cbn.
      + intros t Ht. by apply not_elem_of_nil in Ht.
      + intros u t Ht. by rewrite lookup_empty in Ht.
      + intros u [t Ht]. by rewrite lookup_empty in Ht. }
  destruct Hw as [Hone (Hloop & Htasks & Hbatches)].
  split_and!; [|apply Hone|apply Hbatches].
  intros t. split; [apply Htasks|]. intros [Hin <-]. by apply Hloop.
Qed.

(** ** The moderation commands, one after the other *)

Section Applies.
Context (E : Env).

Lemma int_arg_run u w target :
  args u ≠ [] →
  py_int E (default "" (head (args u))) = Some target →
  Bot.int_arg E u w = (Ok target, w).
Proof. intros _ Hint. unfold Bot.int_arg. by rewrite Hint. Qed.

Lemma ban_command_applies u w target :
  args u ≠ [] →
  py_int E (default "" (head (args u))) = Some target →
  effective_user u ∈ Config.admin_users (config (bot w)) →
  target ≠ Config.owner_id (config (bot w)) →
  target ≠ effective_user u →
  bot (Bot.ban_command E u w).2
  = with_banned ({[target]} ∪ Config.banned_users (config (bot w))) (bot w).
Proof.
  intros Hargs Hint Hadmin Ho Ha.
  unfold Bot.ban_command. rewrite bind_run. unfold gets at 1.
  destruct (decide _); [|done].
  destruct (args u) as [|arg rest] eqn:Hu; [done|].
  apply try_id_errors_bot.
  rewrite bind_run, (int_arg_run u w target) by (by rewrite ?Hu).
  rewrite bind_run. unfold gets at 1.
  destruct (decide _); [done|]. destruct (decide _); [done|].
  by rewrite modify_then_reply_bot.
Qed.

Lemma unban_command_applies u w target :
  args u ≠ [] →
  py_int E (default "" (head (args u))) = Some target →
  effective_user u ∈ Config.admin_users (config (bot w)) →
  bot (Bot.unban_command E u w).2
  = with_banned (Config.banned_users (config (bot w)) ∖ {[target]}) (bot w).
Proof.
  intros Hargs Hint Hadmin.
  unfold Bot.unban_command. rewrite bind_run. unfold gets at 1.
  destruct (decide _); [|done].
  destruct (args u) as [|arg rest] eqn:Hu; [done|].
  apply try_id_errors_bot.
  rewrite bind_run, (int_arg_run u w target) by (by rewrite ?Hu).
  by rewrite modify_then_reply_bot.
Qed.

Lemma make_admin_command_applies u w target :
  args u ≠ [] →
  py_int E (default "" (head (args u))) = Some target →
  effective_user u = Config.owner_id (config (bot w)) →
  bot (Bot.make_admin_command E u w).2
  = with_admins ({[target]} ∪ Config.admin_users (config (bot w))) (bot w).
Proof.
  intros Hargs Hint Howner.
  unfold Bot.make_admin_command. rewrite bind_run. unfold gets at 1.
  destruct (decide _); [|done].
  destruct (args u) as [|arg rest] eqn:Hu; [done|].
  apply try_id_errors_bot.
  rewrite bind_run, (int_arg_run u w target) by (by rewrite ?Hu).
  by rewrite modify_then_reply_bot.
Qed.

Lemma remove_admin_command_applies u w target :
  args u ≠ [] →
  py_int E (default "" (head (args u))) = Some target →
  effective_user u = Config.owner_id (config (bot w)) →
  target ≠ Config.owner_id (config (bot w)) →
  bot (Bot.remove_admin_command E u w).2
  = with_admins (Config.admin_users (config (bot w)) ∖ {[target]}) (bot w).
Proof.
  intros Hargs Hint Howner Ho.
  unfold Bot.remove_admin_command. rewrite bind_run. unfold gets at 1.
  destruct (decide _); [|done].
  destruct (args u) as [|arg rest] eqn:Hu; [done|].
  apply try_id_errors_bot.
  rewrite bind_run, (int_arg_run u w target) by (by rewrite ?Hu).
  destruct (decide _); [done|].
  by rewrite modify_then_reply_bot.
Qed.

(** The bot after a command that arrives as an event. *)
Lemma exec_command_bot c u w :
  bot (Bot.exec E (Bot.Command c u) w) = bot (Bot.command_handler E c u w).2.
Proof. unfold Bot.exec. cbn [Bot.step]. apply handle_update_bot. Qed.

End Applies.

Lemma exec_ban_admins E u w :
  Config.admin_users (config (bot (Bot.exec E (Bot.Command Bot.ban u) w)))
  = Config.admin_users (config (bot w)).
Proof.
  rewrite exec_command_bot. cbn [Bot.command_handler].
  by apply (ban_unban_on_config E
              (λ c, Config.admin_users c = Config.admin_users (config (bot w)))).
Qed.

(** X24: [/unban] with a numeric argument removes the target from the
    banned users when the sender is an admin, whoever the target is, the
    sender included, and changes nothing else; from another sender it
    changes nothing.  It undoes [/ban]: after an admin banned a user and
    an admin unbanned this user, the banned users are those of before
    without this user, and the bot is as it was if the user was not
    banned before. *)
Theorem unban_undoes_ban (E : Env) (u u' : Update) (w : World) (target : Z) :
  args u ≠ [] →
  py_int E (default "" (head (args u))) = Some target →
  let c := config (bot w) in
  bot (Bot.unban_command E u w).2
  = (if decide (effective_user u ∈ Config.admin_users c)
     then with_banned (Config.banned_users c ∖ {[target]}) (bot w)
     else bot w)
  ∧ (effective_user u ∈ Config.admin_users c →
     effective_user u' ∈ Config.admin_users c →
     args u' ≠ [] →
     py_int E (default "" (head (args u'))) = Some target →
     target ≠ Config.owner_id c →
     target ≠ effective_user u' →
     let w' := Bot.run E [Bot.Command Bot.ban u'; Bot.Command Bot.unban u] w in
     Config.banned_users (config (bot w')) = Config.banned_users c ∖ {[target]}
     ∧ (target ∉ Config.banned_users c → bot w' = bot w)).
Proof.
  intros Hargs Hint c. subst c. split.
  - destruct (decide _) as [Hadmin|Hadmin].
    + by apply unban_command_applies.
    + by apply (denied_moderation_bot E Bot.unban).
  - intros Hadmin Hadmin' Hargs' Hint' Ho Ha. cbn [Bot.run foldl].
    set (w1 := Bot.exec E (Bot.Command Bot.ban u') w).
    assert (Hadmins : Config.admin_users (config (bot w1))
                      = Config.admin_users (config (bot w)))
      by apply exec_ban_admins.
    rewrite exec_command_bot. cbn [Bot.command_handler].
    rewrite (unban_command_applies E u w1 target) by (by rewrite ?Hadmins).
    unfold w1. rewrite exec_command_bot. cbn [Bot.command_handler].
    rewrite (ban_command_applies E u' w target) by done.
    assert (Hset : ({[target]} ∪ Config.banned_users (config (bot w))) ∖ {[target]}
                   = Config.banned_users (config (bot w)) ∖ {[target]}).
    { apply set_eq. intros x.
      rewrite !elem_of_difference, elem_of_union, elem_of_singleton. tauto. }
    unfold with_banned. cbn. rewrite Hset. split; [done|].
    intros Hfree.
    assert (Hsame : Config.banned_users (config (bot w)) ∖ {[target]}
                    = Config.banned_users (config (bot w))).
    { apply set_eq. intros x. rewrite elem_of_difference, elem_of_singleton.
      split; [tauto|]. intros Hx. split; [done|]. by intros ->. }
    rewrite Hsame. by destruct (bot w) as [[] ? ? ? ?].
Qed.

(** The owner bans and unbans user [3] in the initial state. *)
Lemma unban_undoes_ban_witness :
  bot (Bot.run Sample.env
         [Bot.Command Bot.ban Sample.ban_3_by_owner;
          Bot.Command Bot.unban Sample.unban_3_by_owner] (world_init 1))
  = bot (world_init 1).
Proof.
  assert (Hadmin : 1 ∈ Config.admin_users (config (bot (world_init 1)))).
  { cbn. apply elem_of_union_l, elem_of_singleton. reflexivity. }
  destruct (unban_undoes_ban Sample.env Sample.unban_3_by_owner
              Sample.ban_3_by_owner (world_init 1) 3 ltac:(done) eq_refl)
    as [_ Hround].
  destruct (Hround Hadmin Hadmin ltac:(done) eq_refl ltac:(done) ltac:(done))
    as [_ Hsame].
  apply Hsame. apply not_elem_of_empty.
Defined.

(** X25: the rights of an admin follow the owner's commands.  Once the
    owner made a user an admin, a [/ban] of this user is carried out; once
    the owner removed the user from the admins again, it is refused and
    the banned users stay as they are. *)
Theorem admin_rights_follow_owner (E : Env) (grant revoke order : Update)
    (w : World) (admin target : Z) :
  let c := config (bot w) in
  effective_user grant = Config.owner_id c →
  effective_user revoke = Config.owner_id c →
  args grant ≠ [] → py_int E (default "" (head (args grant))) = Some admin →
  args revoke ≠ [] → py_int E (default "" (head (args revoke))) = Some admin →
  args order ≠ [] → py_int E (default "" (head (args order))) = Some target →
  effective_user order = admin →
  admin ≠ Config.owner_id c →
  target ≠ Config.owner_id c →
  target ≠ admin →
  Config.banned_users
    (config (bot (Bot.run E [Bot.Command Bot.makeadmin grant;
                             Bot.Command Bot.ban order] w)))
  = {[target]} ∪ Config.banned_users c
  ∧ Config.banned_users
      (config (bot (Bot.run E [Bot.Command Bot.makeadmin grant;
                               Bot.Command Bot.removeadmin revoke;
                               Bot.Command Bot.ban order] w)))
    = Config.banned_users c.
Proof.
  intros c Hgrant Hrevoke Hga Hgi Hra Hri Hoa Hoi Horder Hadmin Htarget Hne.
  subst c. cbn [Bot.run foldl].
  set (w1 := Bot.exec E (Bot.Command Bot.makeadmin grant) w).
  assert (Hw1 : bot w1
                = with_admins ({[admin]} ∪ Config.admin_users (config (bot w)))
                    (bot w)).
  { unfold w1. rewrite exec_command_bot. cbn [Bot.command_handler].
    by apply make_admin_command_applies. }
  split.
  - rewrite exec_command_bot. cbn [Bot.command_handler].
    rewrite (ban_command_applies E order w1 target); rewrite ?Hw1; cbn;
      [done|done|done| |done|congruence].
    rewrite Horder. apply elem_of_union_l, elem_of_singleton. done.
  - set (w2 := Bot.exec E (Bot.Command Bot.removeadmin revoke) w1).
    assert (Hw2 : bot w2
                  = with_admins (({[admin]} ∪ Config.admin_users (config (bot w)))
                                 ∖ {[admin]}) (bot w)).
    { unfold w2. rewrite exec_command_bot. cbn [Bot.command_handler].
      rewrite (remove_admin_command_applies E revoke w1 admin);
        rewrite ?Hw1; by cbn. }
    rewrite exec_command_bot.
    rewrite (denied_moderation_bot E Bot.ban); rewrite ?Hw2; cbn; [done|done|].
    rewrite Horder, elem_of_difference, elem_of_singleton. tauto.
Qed.

(** The owner [1] makes [2] an admin, who bans [3]. *)
Lemma admin_rights_follow_owner_witness :
  Config.banned_users
    (config (bot (Bot.run Sample.env
                    [Bot.Command Bot.makeadmin Sample.makeadmin_2_by_owner;
                     Bot.Command Bot.ban Sample.ban_3_by_2] (world_init 1))))
  = {[ 3 ]} ∪ ∅.
Proof.
  destruct (admin_rights_follow_owner Sample.env Sample.makeadmin_2_by_owner
              Sample.removeadmin_2_by_owner Sample.ban_3_by_2 (world_init 1) 2 3
              eq_refl eq_refl ltac:(done) eq_refl ltac:(done) eq_refl
              ltac:(done) eq_refl eq_refl ltac:(done) ltac:(done) ltac:(done))
    as [Hbanned _].
  exact Hbanned.
Defined.

(** ** Messages that are neither commands nor SVG documents *)

(** The handler past the test of the banned users. *)
Lemma handle_general_message_run E u w :
  effective_user u ∉ Config.banned_users (config (bot w)) →
  Bot.handle_general_message E u w
  = match document u with
    | Some document =>
        if negb (Py.endswith (str_lower E (Bot.or_unknown (file_name document)))
                   ".svg")
        then Bot.reply E u Bot.only_svg_supported
        else mret ()
    | None =>
        if photo u then Bot.reply E u Bot.photo_text
        else
          match text u with
          | Some (String _ _ as t) =>
              if negb (Py.startswith t "/") then Bot.reply E u Bot.hi_text
              else Bot.reply E u Bot.not_sure_text
          | _ => Bot.reply E u Bot.not_sure_text
          end
    end (register (effective_user u) w).
Proof.
  intros Hfree. unfold Bot.handle_general_message.
  rewrite bind_run. unfold gets at 1. destruct (decide _); [done|].
  rewrite bind_run. unfold Bot.all_users_add, modify_bot at 1. reflexivity.
Qed.

(** X26: a message of a sender that is not banned makes the sender a
    known user and changes nothing else of the bot.  It is answered with
    one reply, unless it carries a document whose name ends in [.svg]:
    such a message is left to the handler of SVG documents and no call is
    made for it. *)
Theorem general_message_gets_one_reply (E : Env) (u : Update) (w : World) :
  effective_user u ∉ Config.banned_users (config (bot w)) →
  let r := Bot.handle_general_message E u w in
  bot r.2 = bot (register (effective_user u) w)
  ∧ event_loop r.2 = event_loop w
  ∧ (if left_to_svg_handler E u then calls r.2 = calls w
     else ∃ text ok,
            calls r.2 = calls w ++ [(reply_text (effective_chat u) text None, ok)]).
Proof.
  intros Hfree r. subst r. rewrite (handle_general_message_run E u w Hfree).
  unfold left_to_svg_handler.
  assert (Hreply : ∀ text,
    let r := Bot.reply E u text (register (effective_user u) w) in
    bot r.2 = bot (register (effective_user u) w)
    ∧ event_loop r.2 = event_loop w
    ∧ ∃ text ok,
        calls r.2 = calls w ++ [(reply_text (effective_chat u) text None, ok)]).
  { intros text.
    destruct (reply_run E u text (register (effective_user u) w)) as (r & ok & ->).
    cbn. split_and!; [done..|]. by exists text, ok. }
  destruct (document u) as [doc|].
  - destruct (Py.endswith _ ".svg"); cbn [negb]; [done|apply Hreply].
  - destruct (photo u); [apply Hreply|].
    destruct (text u) as [[|a t]|]; [apply Hreply| |apply Hreply].
    destruct (negb _); apply Hreply.
Qed.

(** User [5] writes [hello] in the initial state. *)
Lemma general_message_gets_one_reply_witness :
  ∃ text ok,
    calls (Bot.handle_general_message Sample.env Sample.hello_by_5
             (world_init 1)).2
    = [(reply_text 5 text None, ok)].
Proof.
  destruct (general_message_gets_one_reply Sample.env Sample.hello_by_5
              (world_init 1) ltac:(apply not_elem_of_empty))
    as (_ & _ & Hcalls).
  exact Hcalls.
Defined.

(** ** Arguments that are missing or are no numbers *)

(** X27: a moderation command without an argument, or with a first
    argument that [int] refuses, changes nothing: it is answered with one
    reply, which for a sender with the role the command asks for and an
    argument that is no number is the notice of the invalid user id. *)
Theorem malformed_argument_changes_nothing (E : Env) (c : Bot.command)
    (u : Update) (w : World) :
  is_moderation c = true →
  args u = [] ∨ py_int E (default "" (head (args u))) = None →
  let r := Bot.command_handler E c u w in
  bot r.2 = bot w
  ∧ event_loop r.2 = event_loop w
  ∧ ∃ text ok,
      calls r.2 = calls w ++ [(reply_text (effective_chat u) text None, ok)]
      ∧ (authorized c (effective_user u) (config (bot w)) → args u ≠ [] →
         text = Bot.invalid_user_id).
Proof.
  intros Hc Hbad r.
  assert (Hreply : ∃ text,
    r = Bot.reply E u text w
    ∧ (authorized c (effective_user u) (config (bot w)) → args u ≠ [] →
       text = Bot.invalid_user_id)).
  { subst r.
    destruct c; try done; cbn [Bot.command_handler authorized];
      [unfold Bot.ban_command|unfold Bot.unban_command
      |unfold Bot.make_admin_command|unfold Bot.remove_admin_command];
      rewrite bind_run; unfold gets at 1;
      (destruct (decide _) as [Hrole|Hrole]; [|by eexists]);
      (destruct (args u) as [|arg rest] eqn:Hu; [by eexists|]);
      (destruct Hbad as [|Hnone]; [done|]);
      unfold try_except; rewrite bind_run; unfold Bot.int_arg;
      rewrite Hu, Hnone; by eexists. }
  destruct Hreply as (text & -> & Htext).
  destruct (reply_run E u text w) as (r' & ok & ->). cbn.
  split_and!; [done..|]. by exists text, ok.
Qed.

(** The owner sends [/ban abc]. *)
Lemma malformed_argument_changes_nothing_witness :
  bot (Bot.command_handler Sample.env Bot.ban Sample.ban_abc_by_owner
         (world_init 1)).2
  = bot (world_init 1).
Proof.
  destruct (malformed_argument_changes_nothing Sample.env Bot.ban
              Sample.ban_abc_by_owner (world_init 1) eq_refl
              ltac:(right; reflexivity)) as (Hbot & _).
  exact Hbot.
Defined.


(** ** Settings that no handler reads *)

Section Unaffected.
Context (T : SimpleSVGToTGSBot → SimpleSVGToTGSBot).

Lemma unaffected_ret {A} (a : A) : unaffected T (mret a).
Proof. by intros w. Qed.

Lemma unaffected_raise {A} e : unaffected T (@raise A e).
Proof. by intros w. Qed.

Lemma unaffected_gets {A} (f : SimpleSVGToTGSBot → A) :
  (∀ b, f (T b) = f b) → unaffected T (gets f).
Proof. intros Hf w. unfold gets. cbn. by rewrite Hf. Qed.

Lemma unaffected_bind {A B} (m : M A) (f : A → M B) :
  unaffected T m → (∀ a, unaffected T (f a)) → unaffected T (m ≫= f).
Proof.
  intros Hm Hf w. rewrite !bind_run, Hm.
  destruct (m w) as [[a|e] w']; [apply Hf|done].
Qed.

(** What is read may differ when what follows makes no difference
    between the two values. *)
Lemma unaffected_gets_bind {A B} (f : SimpleSVGToTGSBot → A) (k : A → M B) :
  (∀ b, k (f (T b)) = k (f b)) → (∀ a, unaffected T (k a)) →
  unaffected T (gets f ≫= k).
Proof.
  intros Hk Hu w. rewrite !bind_run. unfold gets. cbn [lift_bot bot].
  rewrite Hk. apply Hu.
Qed.

Lemma unaffected_try_except {A} (body : M A) handler :
  unaffected T body → (∀ e, unaffected T (handler e)) →
  unaffected T (try_except body handler).
Proof.
  intros Hm Hh w. unfold try_except. rewrite Hm.
  destruct (body w) as [[a|e] w']; [done|apply Hh].
Qed.

Lemma unaffected_try_finally {A} (body : M A) cleanup :
  unaffected T body → unaffected T cleanup →
  unaffected T (try_finally body cleanup).
Proof.
  intros Hm Hc w. unfold try_finally. rewrite Hm.
  destruct (body w) as [r w1]. cbn. rewrite Hc.
  by destruct (cleanup w1) as [[?|?] w2].
Qed.

Lemma unaffected_modify_bot f :
  (∀ b, f (T b) = T (f b)) → unaffected T (modify_bot f).
Proof. intros Hf w. unfold modify_bot, lift_bot. cbn. by rewrite Hf. Qed.

Lemma unaffected_create_task t : unaffected T (create_task t).
Proof. by intros w. Qed.

Lemma unaffected_transport E c : unaffected T (Bot.transport E c).
Proof.
  intros w. unfold Bot.transport. cbn. by destruct (transport_error E _).
Qed.

End Unaffected.

Ltac unaffected_step :=
  first
    [ apply unaffected_ret
    | apply unaffected_raise
    | apply unaffected_gets; reflexivity
    | apply unaffected_gets_bind; [reflexivity|intros ?]
    | apply unaffected_bind; [|intros ?]
    | apply unaffected_try_except; [|intros ?]
    | apply unaffected_try_finally
    | apply unaffected_modify_bot; reflexivity
    | apply unaffected_create_task
    | apply unaffected_transport
    | progress case_match ].

Ltac unaffected_tac := repeat unaffected_step.

(** The coroutine of a batch reads the batches and the size limit of the
    validator, and writes the batches and the tasks: a change of the bot
    that leaves these alone does not affect it. *)
Section BatchUnaffected.
Context (E : Env) (T : SimpleSVGToTGSBot → SimpleSVGToTGSBot).
Context
  (Hbatches : ∀ b, user_batches (T b) = user_batches b)
  (Htasks : ∀ b, processing_tasks (T b) = processing_tasks b)
  (Hlimit : ∀ b, Validator.max_file_size (validator (T b))
                 = Validator.max_file_size (validator b))
  (Hset_batches : ∀ b m, T (set_user_batches m b) = set_user_batches m (T b))
  (Hset_tasks : ∀ b m, T (set_processing_tasks m b) = set_processing_tasks m (T b)).

Lemma validate_file_limit v v' file_data filename :
  Validator.max_file_size v = Validator.max_file_size v' →
  Validator.validate_file E v file_data filename
  = Validator.validate_file E v' file_data filename.
Proof.
  intros Hv. unfold Validator.validate_file, Validator.validate_file_size.
  by rewrite Hv.
Qed.

Lemma process_file_unaffected chat_id fi counts :
  unaffected T (Bot.process_file E chat_id fi counts).
Proof.
  unfold Bot.process_file. destruct counts.
  apply unaffected_gets_bind.
  - intros b. by rewrite (validate_file_limit _ _ _ _ (Hlimit b)).
  - intros v. unaffected_tac.
Qed.

Lemma process_files_unaffected chat_id batch counts :
  unaffected T (Bot.process_files E chat_id batch counts).
Proof.
  revert counts. induction batch as [|fi rest IH]; intros counts;
    cbn [Bot.process_files]; [apply unaffected_ret|].
  apply unaffected_bind; [|intros ?; apply IH].
  apply unaffected_try_except; [apply process_file_unaffected|intros ?].
  unaffected_tac.
Qed.

Lemma cleanup_unaffected user_id : unaffected T (Bot.cleanup user_id).
Proof.
  unfold Bot.cleanup.
  apply unaffected_bind; [|intros _];
    apply unaffected_modify_bot; intros b.
  - by rewrite Hbatches, Hset_batches.
  - by rewrite Htasks, Hset_tasks.
Qed.

Lemma process_batch_after_delay_unaffected user_id chat_id status_message_id :
  unaffected T (Bot.process_batch_after_delay E user_id chat_id status_message_id).
Proof.
  unfold Bot.process_batch_after_delay, Bot.process_batch.
  apply unaffected_try_finally; [|apply cleanup_unaffected].
  apply unaffected_try_except; [|intros ?; unaffected_tac].
  apply unaffected_bind;
    [apply unaffected_gets; intros b; by rewrite Hbatches|intros batch].
  destruct batch; [apply unaffected_ret|].
  apply unaffected_bind; [unaffected_tac|intros ?].
  apply unaffected_bind; [apply process_files_unaffected|intros ?].
  unaffected_tac.
Qed.

Lemma run_task_unaffected i : unaffected T (Bot.run_task E i).
Proof.
  intros w. unfold Bot.run_task. cbn [lift_bot event_loop].
  destruct (event_loop w !! i) as [t|]; [|done].
  apply (process_batch_after_delay_unaffected _ _ _
           {| bot := bot w; calls := calls w; event_loop := delete i (event_loop w) |}).
Qed.

End BatchUnaffected.

Section UnusedSettings.
Context (E : Env) (c' : Config.SimpleConfig) (v' : Validator.SVGValidator)
  (k' : Converter.SVGToTGSConverter).

Lemma reply_unaffected u text :
  unaffected (with_settings c' v' k') (Bot.reply E u text).
Proof. unfold Bot.reply. unaffected_tac. Qed.

Lemma add_to_batch_unaffected user_id file_data filename chat_id :
  unaffected (with_settings c' v' k')
    (Bot.add_to_batch E user_id file_data filename chat_id).
Proof. unfold Bot.add_to_batch. unaffected_tac. Qed.

Lemma broadcast_loop_unaffected message_text user_ids counts :
  unaffected (with_settings c' v' k')
    (Bot.broadcast_loop E message_text user_ids counts).
Proof.
  revert counts. induction user_ids as [|user_id rest IH]; intros counts;
    cbn [Bot.broadcast_loop]; [apply unaffected_ret|].
  apply unaffected_bind; [unaffected_tac|intros ?; apply IH].
Qed.

Lemma command_handler_unaffected c u :
  unaffected (with_settings c' v' k') (Bot.command_handler E c u).
Proof.
  destruct c; cbn [Bot.command_handler].
  - unfold Bot.start_command, Bot.all_users_add, Bot.reply_markdown. unaffected_tac.
  - unfold Bot.broadcast_command, Bot.reply.
    apply unaffected_bind; [unaffected_tac|intros ?].
    case_match; [|unaffected_tac].
    case_match; [unaffected_tac|].
    apply unaffected_bind; [unaffected_tac|intros ?].
    case_match; [unaffected_tac|].
    apply unaffected_bind; [unaffected_tac|intros ?].
    apply unaffected_bind; [apply broadcast_loop_unaffected|intros ?].
    unaffected_tac.
  - unfold Bot.ban_command, Bot.int_arg, Bot.id_errors, Bot.reply. unaffected_tac.
  - unfold Bot.unban_command, Bot.int_arg, Bot.id_errors, Bot.reply. unaffected_tac.
  - unfold Bot.stats_command, Bot.reply_markdown, Bot.reply. unaffected_tac.
  - unfold Bot.make_admin_command, Bot.int_arg, Bot.id_errors, Bot.reply.
    unaffected_tac.
  - unfold Bot.remove_admin_command, Bot.int_arg, Bot.id_errors, Bot.reply.
    unaffected_tac.
  - unfold Bot.admin_help_command, Bot.reply_markdown, Bot.reply. unaffected_tac.
Qed.

Lemma handle_svg_document_unaffected u :
  unaffected (with_settings c' v' k') (Bot.handle_svg_document E u).
Proof.
  unfold Bot.handle_svg_document, Bot.all_users_add.
  apply unaffected_bind; [unaffected_tac|intros ?].
  case_match; [apply reply_unaffected|].
  apply unaffected_bind; [unaffected_tac|intros _].
  case_match; [|apply reply_unaffected].
  apply unaffected_bind; [unaffected_tac|intros name].
  case_match; [apply reply_unaffected|].
  apply unaffected_bind; [unaffected_tac|intros ?].
  case_match; [apply reply_unaffected|].
  apply unaffected_try_except.
  - apply unaffected_bind; [unaffected_tac|intros ?].
    apply unaffected_bind; [unaffected_tac|intros ?].
    apply add_to_batch_unaffected.
  - intros []; apply reply_unaffected.
Qed.

Lemma handle_general_message_unaffected u :
  unaffected (with_settings c' v' k') (Bot.handle_general_message E u).
Proof.
  unfold Bot.handle_general_message, Bot.all_users_add, Bot.reply. unaffected_tac.
Qed.

Lemma error_handler_unaffected u :
  unaffected (with_settings c' v' k') (Bot.error_handler E u).
Proof. unfold Bot.error_handler, Bot.reply. unaffected_tac. Qed.

End UnusedSettings.

(** X28: besides [max_batch_size], the configuration holds settings that
    no event reads: the required dimensions of an SVG, the timeout of a
    batch, the maximal length of a broadcast and the size and rate of the
    output, with the copies of them kept by the validator and by the
    converter.  With any other values of these, every event ends the same
    way, makes the same calls and leaves the same state: no dimension is
    checked, no timeout ends a batch, no broadcast is cut or refused for
    its length. *)
Theorem unused_settings_are_never_read (E : Env) (c' : Config.SimpleConfig)
    (v' : Validator.SVGValidator) (k' : Converter.SVGToTGSConverter)
    (ev : Bot.event) (w : World) :
  let r := Bot.step E ev w in
  let r' := Bot.step E ev (lift_bot (with_settings c' v' k') w) in
  r'.1 = r.1
  ∧ r'.2 = lift_bot (with_settings c' v' k') r.2
  ∧ calls r'.2 = calls r.2.
Proof.
  intros r r'.
  assert (Hstep : unaffected (with_settings c' v' k') (Bot.step E ev)).
  { destruct ev; cbn [Bot.step]; [| | |by apply run_task_unaffected];
      (apply unaffected_try_except; [|intros ?; apply error_handler_unaffected]).
    - apply command_handler_unaffected.
    - apply handle_svg_document_unaffected.
    - apply handle_general_message_unaffected. }
  subst r r'. by rewrite Hstep.
Qed.

(** ** The configuration during the run of a batch *)

(** X29: the run of a batch reads nothing of the configuration but the
    delay it waits for: with any other owner, limits, admins, banned and
    known users, the timer of a task ends the same way and makes the same
    calls.  In particular the batch of a user who was banned after the
    upload is converted and delivered all the same, and the size limit
    applied to the files of a batch is that of the validator, not that of
    the configuration. *)
Theorem batch_run_ignores_configuration (E : Env) (c' : Config.SimpleConfig)
    (i : nat) (w : World) :
  let r := Bot.step E (Bot.TimerFires i) w in
  let r' := Bot.step E (Bot.TimerFires i) (lift_bot (reconfigured c') w) in
  r'.1 = r.1
  ∧ r'.2 = lift_bot (reconfigured c') r.2
  ∧ calls r'.2 = calls r.2.
Proof.
  intros r r'. subst r r'. cbn [Bot.step].
  by rewrite (run_task_unaffected E (reconfigured c')).
Qed.

(** ** Settings that no event changes *)

Section Fixed.
Context (E : Env) (settings : Z * Z * (Z * Z) * Z * Z * Z * (Z * Z * Z) * Z
                              * Validator.SVGValidator * Converter.SVGToTGSConverter).

Local Ltac untouched := intros; assumption.

Lemma step_fixed_settings ev :
  preserves (λ w, fixed_settings (bot w) = settings) (Bot.step E ev).
Proof.
  destruct ev as [c u|u|u|i]; cbn [Bot.step].
  - apply handle_update_keeps; [done|].
    destruct c; cbn [Bot.command_handler].
    + by apply start_command_keeps.
    + by apply broadcast_command_keeps.
    + unfold Bot.ban_command, Bot.int_arg, Bot.id_errors, Bot.reply.
      preserves_tac untouched.
    + unfold Bot.unban_command, Bot.int_arg, Bot.id_errors, Bot.reply.
      preserves_tac untouched.
    + by apply stats_command_keeps.
    + unfold Bot.make_admin_command, Bot.int_arg, Bot.id_errors, Bot.reply.
      preserves_tac untouched.
    + unfold Bot.remove_admin_command, Bot.int_arg, Bot.id_errors, Bot.reply.
      preserves_tac untouched.
    + by apply admin_help_command_keeps.
  - apply handle_update_keeps; [done|].
    apply handle_svg_document_keeps; [done|done|]. intros.
    unfold Bot.add_to_batch, create_task. preserves_tac untouched.
    intros w Hw. exact Hw.
  - apply handle_update_keeps; [done|].
    by apply handle_general_message_keeps.
  - intros w Hw. unfold Bot.run_task.
    destruct (event_loop w !! i) as [t|]; [|done].
    apply process_batch_after_delay_keeps; [done| |exact Hw].
    unfold Bot.cleanup. preserves_tac untouched.
Qed.

End Fixed.

(** X30: no event changes the owner, the limits and settings of the
    configuration, the validator or the converter.  In every state the
    process reaches from its start, the limit that the upload handler
    applies to the declared size and the limit that the validator applies
    to the downloaded bytes are therefore the same 5 MiB. *)
Theorem settings_never_change (E : Env) (evs : list Bot.event) (w : World)
    (owner : Z) :
  fixed_settings (bot (Bot.run E evs w)) = fixed_settings (bot w)
  ∧ (let b := bot (Bot.run E evs (world_init owner)) in
     Config.owner_id (config b) = owner
     ∧ Config.max_file_size (config b) = 5 * 1024 * 1024
     ∧ Validator.max_file_size (validator b) = 5 * 1024 * 1024).
Proof.
  assert (Hfixed : ∀ w0, fixed_settings (bot (Bot.run E evs w0))
                         = fixed_settings (bot w0)).
  { intros w0.
    by apply (run_preserves E (λ w', fixed_settings (bot w') = fixed_settings (bot w0))
                (step_fixed_settings E _)). }
  split; [apply Hfixed|].
  specialize (Hfixed (world_init owner)). unfold fixed_settings in Hfixed.
  cbn [world_init bot bot_init config validator] in Hfixed.
  injection Hfixed as Ho Hsize _ _ _ _ _ _ _ _ Hv _.
  cbn zeta. rewrite Ho, Hsize, Hv. done.
Qed.

(** ** Uploads whose status message is refused *)

(** C1, on the code: user [5] uploads [a.svg], [b.svg] and [c.svg] at the
    start of the process, and the transport refuses the status message,
    its third call, and no other call.  With a transport that accepts
    every call the three files form the batch and its task waits.  Here
    the batch is created, but the first file is not in it, the status
    message is not delivered and no task is created; the user is told
    that the download failed and to try again; the two files that follow
    are appended without any message; and no sequence of later events
    brings a task for the batch: its files are never converted. *)
Theorem refused_status_loses_first_upload :
  let served := Bot.run Sample.env Sample.three_uploads (world_init 1) in
  let w := Bot.run Sample.env_refuses_third Sample.three_uploads (world_init 1) in
  (filename <$> default [] (user_batches (bot served) !! 5)
   = ["a.svg"; "b.svg"; "c.svg"]
   ∧ length (event_loop served) = 1%nat)
  ∧ filename <$> default [] (user_batches (bot w) !! 5) = ["b.svg"; "c.svg"]
  ∧ calls w
    = [(get_file "id-a.svg", true);
       (download_as_bytearray "id-a.svg", true);
       (send_message 5 Bot.wait_text, false);
       (reply_text 5 "❌ Failed to download file. Please try again." None, true);
       (get_file "id-b.svg", true);
       (download_as_bytearray "id-b.svg", true);
       (get_file "id-c.svg", true);
       (download_as_bytearray "id-c.svg", true)]
  ∧ processing_tasks (bot w) !! 5 = None
  ∧ event_loop w = []
  ∧ ∀ evs,
      let w' := Bot.run Sample.env_refuses_third evs w in
      is_Some (user_batches (bot w') !! 5)
      ∧ count_tasks 5 (event_loop w') = 0%nat.
Proof.
  intros served w.
  split; [by vm_compute|]. split; [by vm_compute|]. split; [by vm_compute|].
  split; [by vm_compute|]. split; [by vm_compute|].
  intros evs w'. apply run_stuck. split; [|by vm_compute].
  assert (Hb : user_batches (bot w) !! 5 ≠ None) by (by vm_compute).
  by destruct (user_batches (bot w) !! 5); [eexists|].
Qed.

(** ** Uploads, messages and commands of banned users *)

(** *** Handlers that only talk *)

Section Appends.
Context (E : Env) (P : World → Prop).
Context (Happend : ∀ w c ok,
  P w → P {| bot := bot w; calls := calls w ++ [(c, ok)];
             event_loop := event_loop w |}).









End Appends.

(** *** The first call of a command *)

Section Replies.
Context (E : Env) (u : Update).








(** Every branch of a command starts with a reply. *)










End Replies.

(** *** Updates answered with one call *)



Section CarriedOut.
Context (E : Env) (u : Update) (w : World) (target : Z).
Context (Hargs : args u ≠ [])
        (Hint : py_int E (default "" (head (args u))) = Some target).






End CarriedOut.



